(** * market_dashboard: the extraction and normalisation pipeline of
    [fetch_data.py], embedded in Rocq.

    Python [str] values are sequences of Unicode code points, so text is
    modelled as [list N]; dictionary keys and column names, which the
    source only ever compares for equality, are Rocq strings holding the
    UTF-8 bytes of the source literal. *)

From Stdlib Require Import List ZArith NArith Bool String Ascii Lia.
From Stdlib Require Import Floats.SpecFloat.
Import ListNotations.

Set Warnings "-register-all".
Local Open Scope N_scope.

(* ================================================================== *)
(** ** Python strings *)
(* ================================================================== *)

Module PyStr.

Definition char := N.
Definition pystr := list char.

(** Decoding of the UTF-8 bytes of a source literal into code points. *)
Fixpoint utf8_decode (bs : list N) : pystr :=
  match bs with
  | [] => []
  | b0 :: r0 =>
      if b0 <? 128 then b0 :: utf8_decode r0
      else if b0 <? 224 then
        match r0 with
        | b1 :: r1 => ((b0 - 192) * 64 + (b1 - 128)) :: utf8_decode r1
        | _ => []
        end
      else if b0 <? 240 then
        match r0 with
        | b1 :: b2 :: r2 =>
            ((b0 - 224) * 4096 + (b1 - 128) * 64 + (b2 - 128)) :: utf8_decode r2
        | _ => []
        end
      else
        match r0 with
        | b1 :: b2 :: b3 :: r3 =>
            ((b0 - 240) * 262144 + (b1 - 128) * 4096 + (b2 - 128) * 64 + (b3 - 128))
              :: utf8_decode r3
        | _ => []
        end
  end.

Definition u (s : string) : pystr :=
  utf8_decode (map (fun a => N_of_ascii a) (list_ascii_of_string s)).

Definition LF : char := 10.
Definition CR : char := 13.
Definition PIPE : char := 124.
Definition PLUS : char := 43.
Definition MINUS : char := 45.
Definition COMMA : char := 44.
Definition PERCENT : char := 37.

Definition mem (c : char) (cs : pystr) : bool := existsb (N.eqb c) cs.

(** [bool(s)]: a string is truthy when it is not empty. *)
Definition nonempty (s : pystr) : bool :=
  match s with [] => false | _ => true end.

Fixpoint str_eqb (a b : pystr) : bool :=
  match a, b with
  | [], [] => true
  | x :: a', y :: b' => (x =? y) && str_eqb a' b'
  | _, _ => false
  end.

(** The characters [str.strip()] removes: those with [str.isspace()]. *)
Definition is_space (c : char) : bool :=
  mem c [9; 10; 11; 12; 13; 28; 29; 30; 31; 32; 133; 160; 5760;
         8232; 8233; 8239; 8287; 12288]
  || ((8192 <=? c) && (c <=? 8202)).

Fixpoint lstrip_by (p : char -> bool) (s : pystr) : pystr :=
  match s with
  | [] => []
  | c :: r => if p c then lstrip_by p r else s
  end.

Definition rstrip_by (p : char -> bool) (s : pystr) : pystr :=
  rev (lstrip_by p (rev s)).

(** [s.strip()] *)
Definition strip (s : pystr) : pystr :=
  rstrip_by is_space (lstrip_by is_space s).

(** [s.lstrip(chars)] *)
Definition lstrip_chars (chars s : pystr) : pystr :=
  lstrip_by (fun c => mem c chars) s.

(** [s.replace(c, '')] for a one-character [c]. *)
Definition remove_char (c : char) (s : pystr) : pystr :=
  filter (fun x => negb (x =? c)) s.

(** [s.split(c)] for a one-character separator: never the empty list. *)
Fixpoint split_on (c : char) (s : pystr) : list pystr :=
  match s with
  | [] => [[]]
  | x :: r =>
      if x =? c then [] :: split_on c r
      else match split_on c r with
           | h :: t => (x :: h) :: t
           | [] => [[x]]
           end
  end.

(** [sep.join(parts)] for a one-character separator. *)
Fixpoint join (c : char) (parts : list pystr) : pystr :=
  match parts with
  | [] => []
  | [p] => p
  | p :: rest => p ++ c :: join c rest
  end.

(** [s.startswith((a, b))] for one-character prefixes. *)
Definition startswith_any (cs : pystr) (s : pystr) : bool :=
  match s with
  | [] => false
  | c :: _ => mem c cs
  end.

End PyStr.
Import PyStr.

(* ================================================================== *)
(** ** Text segmentation (parse_db1 lines 169-174, parse_db3 lines 279-289) *)
(* ================================================================== *)

(** The character set of [.lstrip("0123456789.-•·) ")]. *)
Definition ENUM_CHARS : pystr := Eval vm_compute in u "0123456789.-•·) ".

(** [line.strip().lstrip("0123456789.-•·) ")] *)
Definition clean_line (line : pystr) : pystr :=
  lstrip_chars ENUM_CHARS (strip line).

(** The [for line in ...: line = ...; if line: lines.append(line)] loop;
    [acc] is the list being appended to. *)
Fixpoint segment_loop (todo : list pystr) (acc : list pystr) : list pystr :=
  match todo with
  | [] => acc
  | line :: rest =>
      let line' := clean_line line in
      segment_loop rest (if nonempty line' then acc ++ [line'] else acc)
  end.

(** [raw.replace('\r', '').split('\n')] fed to the loop. *)
Definition segment_lines (raw : pystr) : list pystr :=
  segment_loop (split_on LF (remove_char CR raw)) [].

(** The segmenter as the specification words it: split on newlines, trim,
    strip the enumeration prefix, drop empties.  (No carriage-return
    removal: the specification does not mention one.) *)
Definition spec_segmenter (raw : pystr) : list pystr :=
  filter nonempty (map clean_line (split_on LF raw)).

(* ================================================================== *)
(** ** Pipe rows (parse_pipe) *)
(* ================================================================== *)

Fixpoint parse_pipe_loop (todo : list pystr) (result : list (list pystr))
  : list (list pystr) :=
  match todo with
  | [] => result
  | line :: rest =>
      parse_pipe_loop rest
        (if mem PIPE line then result ++ [map strip (split_on PIPE line)]
         else result)
  end.

Definition parse_pipe (text : pystr) : list (list pystr) :=
  parse_pipe_loop (split_on LF (remove_char CR text)) [].

(* ================================================================== *)
(** ** Exceptions *)
(* ================================================================== *)

Inductive exn :=
| TypeError
| ValueError
| ZeroDivisionError
| OverflowError
| RemoteError.   (* urllib / json / KeyError raised while reading a reply *)

Inductive result (A : Type) :=
| Ok (a : A)
| Err (e : exn).
Arguments Ok {A} a.
Arguments Err {A} e.

Definition rbind {A B} (r : result A) (k : A -> result B) : result B :=
  match r with
  | Ok a => k a
  | Err e => Err e
  end.

Declare Scope result_scope.
Delimit Scope result_scope with result.
Notation "'let?' x ':=' r 'in' k" := (rbind r (fun x => k))
  (at level 10, x name, r at level 100, k at level 200) : result_scope.

(* ================================================================== *)
(** ** Python numbers: [int] and binary64 [float] *)
(* ================================================================== *)

Module PyNum.
Local Open Scope Z_scope.
Local Open Scope result_scope.

Definition prec : Z := 53.
Definition emax : Z := 1024.

Definition float := spec_float.

Inductive pynum :=
| PInt (z : Z)
| PFloat (f : float).

(** The binary64 value nearest to [p / q] (ties to even) with sign [s]. *)
Definition ratio_to_float (s : bool) (p q : positive) : float :=
  let '(mz, ez, lz) := SFdiv_core_binary prec emax (Zpos p) 0 (Zpos q) 0 in
  binary_round_aux prec emax s mz ez lz.

(** [float(z)] for an [int]: correctly rounded, [OverflowError] when too
    large. *)
Definition int_to_float (z : Z) : result float :=
  match binary_normalize prec emax z 0 false with
  | S754_infinity _ => Err OverflowError
  | f => Ok f
  end.

Definition to_float (n : pynum) : result float :=
  match n with
  | PInt z => int_to_float z
  | PFloat f => Ok f
  end.

Definition is_zero (f : float) : bool :=
  match f with S754_zero _ => true | _ => false end.

(** [bool(n)] *)
Definition num_truthy (n : pynum) : bool :=
  match n with
  | PInt z => negb (z =? 0)
  | PFloat f => negb (is_zero f)
  end.

(** [a - b] *)
Definition py_sub (a b : pynum) : result pynum :=
  match a, b with
  | PInt x, PInt y => Ok (PInt (x - y))
  | _, _ =>
      let? fa := to_float a in
      let? fb := to_float b in
      Ok (PFloat (SFsub prec emax fa fb))
  end.

(** [a * b] *)
Definition py_mul (a b : pynum) : result pynum :=
  match a, b with
  | PInt x, PInt y => Ok (PInt (x * y))
  | _, _ =>
      let? fa := to_float a in
      let? fb := to_float b in
      Ok (PFloat (SFmul prec emax fa fb))
  end.

(** [a / b]: true division, always a [float]; a zero divisor raises. *)
Definition py_truediv (a b : pynum) : result pynum :=
  match a, b with
  | PInt x, PInt y =>
      match x, y with
      | _, Z0 => Err ZeroDivisionError
      | Z0, _ => Ok (PFloat (S754_zero (y <? 0)))
      | Zpos p, Zpos q => 
          match ratio_to_float false p q with
          | S754_infinity _ => Err OverflowError
          | f => Ok (PFloat f)
          end
      | Zneg p, Zneg q =>
          match ratio_to_float false p q with
          | S754_infinity _ => Err OverflowError
          | f => Ok (PFloat f)
          end
      | Zpos p, Zneg q | Zneg p, Zpos q =>
          match ratio_to_float true p q with
          | S754_infinity _ => Err OverflowError
          | f => Ok (PFloat f)
          end
      end
  | _, _ =>
      let? fa := to_float a in
      let? fb := to_float b in
      if is_zero fb then Err ZeroDivisionError
      else Ok (PFloat (SFdiv prec emax fa fb))
  end.

(** [n >= 0] *)
Definition py_ge0 (n : pynum) : bool :=
  match n with
  | PInt z => 0 <=? z
  | PFloat f => SFleb (S754_zero false) f
  end.

(** Round-half-even of the rational [num / den] to an integer. *)
Definition round_half_even (num : Z) (den : positive) : Z :=
  let q := num / Zpos den in
  let r := num mod Zpos den in
  match 2 * r ?= Zpos den with
  | Lt => q
  | Gt => q + 1
  | Eq => if Z.even q then q else q + 1
  end.

(** [round(f, ndigits)] on a [float], for [ndigits >= 0]: the exact
    binary value is rounded half-even to [ndigits] decimals and the
    decimal result is converted back to the nearest [float]
    (CPython's [double_round]). *)
Definition round_float (f : float) (ndigits : nat) : result float :=
  match f with
  | S754_finite s m e =>
      if (323 <? Z.of_nat ndigits) then Ok f
      else
        let p10 := Z.to_pos (10 ^ Z.of_nat ndigits) in
        let r :=
          match e with
          | Zneg k => round_half_even (Zpos (m * p10)) (Pos.pow 2 k)
          | _ => Zpos m * 2 ^ e * Zpos p10
          end in
        match r with
        | Zpos rp =>
            match ratio_to_float s rp p10 with
            | S754_infinity _ => Err OverflowError
            | g => Ok g
            end
        | _ => Ok (S754_zero s)
        end
  | _ => Ok f
  end.

(** [round(n, ndigits)] with [ndigits >= 0]: an [int] is returned as it
    is. *)
Definition py_round (n : pynum) (ndigits : nat) : result pynum :=
  match n with
  | PInt z => Ok (PInt z)
  | PFloat f => let? g := round_float f ndigits in Ok (PFloat g)
  end.

(** *** [float(s)] on a [str] *)

Definition digit_val (c : char) : option Z :=
  if ((48 <=? c) && (c <=? 57))%N then Some (Z.of_N (c - 48)) else None.

Definition is_digit (c : char) : bool :=
  match digit_val c with Some _ => true | None => false end.

(** Underscores may only sit between two digits; they are dropped. *)
Fixpoint drop_underscores (prev : option char) (s : pystr) : option pystr :=
  match s with
  | [] =>
      match prev with
      | Some 95%N => None
      | _ => Some []
      end
  | c :: r =>
      if (c =? 95)%N then
        match prev with
        | Some p => if is_digit p then drop_underscores (Some c) r else None
        | None => None
        end
      else
        match prev with
        | Some 95%N =>
            if is_digit c then option_map (cons c) (drop_underscores (Some c) r)
            else None
        | _ => option_map (cons c) (drop_underscores (Some c) r)
        end
  end.

Fixpoint take_digits (s : pystr) : list Z * pystr :=
  match s with
  | [] => ([], [])
  | c :: r =>
      match digit_val c with
      | Some d => let '(ds, rest) := take_digits r in (d :: ds, rest)
      | None => ([], s)
      end
  end.

Definition digits_value (ds : list Z) : Z :=
  fold_left (fun a d => a * 10 + d) ds 0.

(** The float nearest to [m * 10^e]. *)
Definition decimal_to_float (s : bool) (m : Z) (e : Z) : float :=
  match m with
  | Zpos mp =>
      match e with
      | Zneg k => ratio_to_float s mp (Pos.pow 10 k)
      | _ => ratio_to_float s (Z.to_pos (Zpos mp * 10 ^ e)) 1
      end
  | _ => S754_zero s
  end.

Definition lower (c : char) : char :=
  if ((65 <=? c) && (c <=? 90))%N then (c + 32)%N else c.

(** An optional exponent part, which must reach the end of the string. *)
Definition parse_exponent (s : pystr) : option Z :=
  match s with
  | [] => Some 0
  | c :: r =>
      if (lower c =? 101)%N then
        let '(neg, r') :=
          match r with
          | 43%N :: t => (false, t)
          | 45%N :: t => (true, t)
          | _ => (false, r)
          end in
        match take_digits r' with
        | (d :: ds, []) =>
            let v := digits_value (d :: ds) in Some (if neg then - v else v)
        | _ => None
        end
      else None
  end.

(** The number after the sign. *)
Definition parse_unsigned (s : bool) (body : pystr) : option float :=
  let low := map lower body in
  if str_eqb low (u "inf") || str_eqb low (u "infinity") then Some (S754_infinity s)
  else if str_eqb low (u "nan") then Some S754_nan
  else
    let '(ip, r1) := take_digits body in
    let '(fp, r2) :=
      match r1 with
      | 46%N :: t => take_digits t
      | _ => ([], r1)
      end in
    match ip ++ fp with
    | [] => None
    | ds =>
        match parse_exponent r2 with
        | Some ex =>
            Some (decimal_to_float s (digits_value ds) (ex - Z.of_nat (List.length fp)))
        | None => None
        end
    end.

(** The zero of every run of ten decimal digits (category Nd) of
    Unicode 14.0, the character database of CPython 3.11: what
    [Py_UNICODE_TODECIMAL] knows. *)
Definition DECIMAL_ZEROS : list N :=
  [48; 1632; 1776; 1984; 2406; 2534; 2662; 2790; 2918; 3046; 3174; 3302;
   3430; 3558; 3664; 3792; 3872; 4160; 4240; 6112; 6160; 6470; 6608; 6784;
   6800; 6992; 7088; 7232; 7248; 42528; 43216; 43264; 43472; 43504; 43600;
   44016; 65296; 66720; 68912; 69734; 69872; 69942; 70096; 70384; 70736;
   70864; 71248; 71360; 71472; 71904; 72016; 72784; 73040; 73120; 92768;
   92864; 93008; 120782; 120792; 120802; 120812; 120822; 123200; 123632;
   125264; 130032]%N.

(** The decimal value of a digit of any script. *)
Definition unicode_decimal (c : char) : option N :=
  match find (fun z => (z <=? c) && (c <? z + 10))%N DECIMAL_ZEROS with
  | Some z => Some (c - z)%N
  | None => None
  end.

(** What [float] does to a [str] first: characters below 127 stay,
    other whitespace becomes a space, a decimal digit of any script
    becomes its ASCII digit, and the text is cut behind a question mark
    at the first character that is none of these. *)
Fixpoint to_ascii_decimal (s : pystr) : pystr :=
  match s with
  | [] => []
  | c :: r =>
      if (c <? 127)%N then c :: to_ascii_decimal r
      else if is_space c then 32%N :: to_ascii_decimal r
      else match unicode_decimal c with
           | Some d => (48 + d)%N :: to_ascii_decimal r
           | None => [63%N]
           end
  end.

(** The whitespace [float] skips at both ends of the ASCII text. *)
Definition is_c_space (c : char) : bool := mem c [9; 10; 11; 12; 13; 32]%N.

Definition c_strip (s : pystr) : pystr :=
  rstrip_by is_c_space (lstrip_by is_c_space s).

(** [float(s)]: [None] stands for the [ValueError] of a malformed
    literal.  The text is brought to ASCII, freed of underscores
    between digits, trimmed and read as a decimal literal, an infinity
    or a NaN. *)
Definition py_float (s : pystr) : option float :=
  match drop_underscores None (to_ascii_decimal s) with
  | None => None
  | Some t =>
      match c_strip t with
      | 43%N :: body => parse_unsigned false body
      | 45%N :: body => parse_unsigned true body
      | body => parse_unsigned false body
      end
  end.

(** A [float] literal of the source text. *)
Definition flt (s : string) : float :=
  match py_float (u s) with
  | Some f => f
  | None => S754_nan
  end.

End PyNum.
Import PyNum.

(* ================================================================== *)
(** ** JSON values and Python dictionaries *)
(* ================================================================== *)

(** Values that end up in [data.json].  A [dict] keeps insertion order,
    as Python's does. *)
Inductive json :=
| JNull
| JBool (b : bool)
| JNum (n : pynum)
| JStr (s : pystr)
| JList (l : list json)
| JDict (d : list (string * json)).

Definition dict := list (string * json).

Fixpoint dict_get (k : string) (d : dict) : option json :=
  match d with
  | [] => None
  | (k', v) :: r => if String.eqb k k' then Some v else dict_get k r
  end.

(** [d[k] = v] *)
Fixpoint dict_set (k : string) (v : json) (d : dict) : dict :=
  match d with
  | [] => [(k, v)]
  | (k', v') :: r =>
      if String.eqb k k' then (k', v) :: r else (k', v') :: dict_set k v r
  end.

(** [d.update(other)] *)
Definition dict_update (d other : dict) : dict :=
  fold_left (fun acc kv => dict_set (fst kv) (snd kv) acc) other d.

Definition keys (d : dict) : list string := map fst d.

(** Field access on a JSON object. *)
Definition field (k : string) (j : json) : option json :=
  match j with
  | JDict d => dict_get k d
  | _ => None
  end.

(* ================================================================== *)
(** ** Rows of the document store and get_prop *)
(* ================================================================== *)

(** A text fragment of a title or rich-text property, as the document
    store's interface serves it: its ['plain_text'] is a string when the
    key is present; [None] stands for a fragment without the key. *)
Record rich_text_item := { plain_text : option pystr }.

(** A property object of a row, by its ["type"]. *)
Inductive notion_prop :=
| P_title (v : list rich_text_item)
| P_rich_text (v : list rich_text_item)
| P_select (v : option pystr)        (* the chosen option's name, or null *)
| P_number (v : option pynum)
| P_other.

Record row := { properties : list (string * notion_prop) }.

Inductive ptype := T_title | T_rich_text | T_select | T_number.

Definition prop_result (t : ptype) : Type :=
  match t with
  | T_number => option pynum
  | _ => pystr
  end.

Fixpoint lookup {A} (k : string) (l : list (string * A)) : option A :=
  match l with
  | [] => None
  | (k', v) :: r => if String.eqb k k' then Some v else lookup k r
  end.

(** [''.join(t.get('plain_text', '') for t in val)] *)
Definition join_plain (v : list rich_text_item) : pystr :=
  List.concat (map (fun t => match plain_text t with Some s => s | None => [] end) v).

Definition get_prop (r : row) (col : string) (t : ptype) : prop_result t :=
  match lookup col (properties r) with
  | None =>
      match t return prop_result t with
      | T_number => None
      | _ => []
      end
  | Some p =>
      match t return prop_result t with
      | T_title => match p with P_title v => join_plain v | _ => [] end
      | T_rich_text => match p with P_rich_text v => join_plain v | _ => [] end
      | T_select => match p with P_select (Some name) => name | _ => [] end
      | T_number => match p with P_number v => v | _ => None end
      end
  end.

Definition safe_float (s : pystr) : float :=
  match py_float (strip (remove_char PERCENT (remove_char PLUS (remove_char COMMA s)))) with
  | Some f => f
  | None => S754_zero false
  end.

(** [s or default] on strings *)
Definition str_or (s default : pystr) : pystr :=
  if nonempty s then s else default.

(* ================================================================== *)
(** ** Row normalisation: the pure bodies of parse_db1 .. parse_db4 *)
(* ================================================================== *)

Local Open Scope string_scope.
Local Open Scope list_scope.

(** parse_db1 after the query: [rows[0]], segmentation, [lines[:3]]. *)
Definition db1_empty : dict :=
  [("summary", JList []); ("market_strength", JStr [])].

Definition db1_of_rows (rows : list row) : dict :=
  match rows with
  | [] => db1_empty
  | r :: _ =>
      let strength := get_prop r "시장 강도" T_select in
      let raw := get_prop r "AI 3줄 요약" T_rich_text in
      let lines := segment_lines raw in
      let summary := firstn 3 lines in
      [("summary", JList (map JStr summary)); ("market_strength", JStr strength)]
  end.

(** The body of the sector loop for one pipe row: the entry appended, or
    [None] when the row is skipped. *)
Definition sector_entry (parts : list pystr) : option json :=
  if (2 <=? List.length parts)%nat && nonempty (nth 0 parts []) then
    let chg := nth 1 parts [] in
    let chg :=
      if nonempty chg && negb (startswith_any [PLUS; MINUS] chg)
      then PLUS :: chg else chg in
    Some (JDict [("name", JStr (nth 0 parts []));
                 ("change", JStr chg);
                 ("value", JNum (PFloat (safe_float chg)))])
  else None.

(** The body of the highlight loop for one pipe row. *)
Definition stock_entry (parts : list pystr) : option json :=
  if (4 <=? List.length parts)%nat && nonempty (nth 0 parts []) then
    let chg := nth 3 parts [] in
    Some (JDict [("name", JStr (nth 0 parts []));
                 ("reason", JStr (nth 1 parts []));
                 ("price", JStr (nth 2 parts []));
                 ("change", JStr chg);
                 ("pos", JBool (negb (startswith_any [MINUS] (strip chg))))])
  else None.

(** [for parts in ...: if ...: out.append(...)] *)
Fixpoint append_loop {A} (entry : A -> option json) (todo : list A)
  (out : list json) : list json :=
  match todo with
  | [] => out
  | x :: rest =>
      append_loop entry rest
        (match entry x with Some e => out ++ [e] | None => out end)
  end.

Definition db2_empty : dict := [("sectors", JList []); ("stocks", JList [])].

Definition db2_of_rows (rows : list row) : dict :=
  match rows with
  | [] => db2_empty
  | r :: _ =>
      let sec_raw := get_prop r "주도 섹터" T_rich_text in
      let stk_raw := get_prop r "특이 종목" T_rich_text in
      let sectors := append_loop sector_entry (parse_pipe sec_raw) [] in
      let stocks := append_loop stock_entry (parse_pipe stk_raw) [] in
      [("sectors", JList sectors); ("stocks", JList stocks)]
  end.

(** The body of the news loop for one line. *)
Definition news_entry (line : pystr) : option json :=
  let line := clean_line line in
  if nonempty line then
    Some (JDict [("time", JStr []); ("headline", JStr line);
                 ("summary", JStr []); ("tag", JStr [])])
  else None.

Definition db3_empty : dict := [("news", JList [])].

Definition db3_of_rows (rows : list row) : dict :=
  match rows with
  | [] => db3_empty
  | r :: _ =>
      let raw := strip (get_prop r "AI 뉴스 요약" T_rich_text) in
      if negb (nonempty raw) then db3_empty
      else
        [("news", JList (append_loop news_entry
                           (split_on LF (remove_char CR raw)) []))]
  end.

(** The body of the recommendations loop for the row at index [i] of
    [rows[:5]]: the entry appended, or [None] for the [continue]. *)
Definition rec_entry (i : nat) (r : row) : option json :=
  let name := get_prop r "종목명" T_rich_text in
  let grade := get_prop r "추천등급" T_select in
  let timeframe := get_prop r "투자기간" T_select in
  let reason := get_prop r "추천사유" T_rich_text in
  if negb (nonempty name) then None
  else Some (JDict [("name", JStr name);
                    ("grade", JStr (str_or grade (u "B")));
                    ("timeframe", JStr (str_or timeframe (u "—")));
                    ("reason", JStr reason);
                    ("featured", JBool (Nat.eqb i 0))]).

(** [for i, row in enumerate(rows[:5])]: [i] counts the rows of the
    query result, whether or not earlier ones were skipped. *)
Fixpoint recs_loop (i : nat) (todo : list row) (recs : list json) : list json :=
  match todo with
  | [] => recs
  | r :: rest =>
      recs_loop (S i) rest
        (match rec_entry i r with Some e => recs ++ [e] | None => recs end)
  end.

Definition db4_of_rows (rows : list row) : dict :=
  match rows with
  | [] => [("recommendations", JList [])]
  | _ => [("recommendations", JList (recs_loop 0 (firstn 5 rows) []))]
  end.

(* ================================================================== *)
(** ** Market feed: the arithmetic of fetch_yahoo *)
(* ================================================================== *)

(** A key of the feed's [meta] object. *)
Inductive jfield :=
| Absent
| JsonNull
| JsonNum (n : pynum).

Record chart_meta := {
  regularMarketPrice : jfield;
  chartPreviousClose : jfield;
  previousClose : jfield
}.

(** [meta.get(k)] and [meta.get(k, 0)]; [None] is Python's [None]. *)
Definition meta_get (f : jfield) : option pynum :=
  match f with JsonNum n => Some n | _ => None end.

Definition meta_get_default (f : jfield) (d : pynum) : option pynum :=
  match f with
  | Absent => Some d
  | JsonNull => None
  | JsonNum n => Some n
  end.

Definition truthy (v : option pynum) : bool :=
  match v with
  | Some n => num_truthy n
  | None => false
  end.

(** [a or b] *)
Definition py_or (a b : option pynum) : option pynum :=
  if truthy a then a else b.

(** An arithmetic operand must be a number. *)
Definition need_num (v : option pynum) : result pynum :=
  match v with
  | Some n => Ok n
  | None => Err TypeError
  end.

Local Open Scope result_scope.

(** [prev]: the previous close with its fall-backs (line 395). *)
Definition prev_close (meta : chart_meta) : option pynum :=
  let price := meta_get_default (regularMarketPrice meta) (PInt 0) in
  py_or (meta_get (chartPreviousClose meta))
        (py_or (meta_get (previousClose meta)) price).

(** Lines 394-403: the quote computed from a decoded reply. *)
Definition quote_of_meta (meta : chart_meta) (dec : nat) : result dict :=
  let price := meta_get_default (regularMarketPrice meta) (PInt 0) in
  let prev := prev_close meta in
  let? p := need_num price in
  let? q := need_num prev in
  let? change := py_sub p q in
  let? pct :=
    if truthy prev
    then (let? d := py_truediv change q in py_mul d (PInt 100))
    else Ok (PInt 0) in
  let? rprice := py_round p dec in
  let? rchange := py_round change dec in
  let? rpct := py_round pct 2 in
  Ok [("price", JNum rprice); ("change", JNum rchange);
      ("pct", JNum rpct); ("pos", JBool (py_ge0 change))].

Definition quote_fallback : dict :=
  [("price", JNum (PInt 0)); ("change", JNum (PInt 0));
   ("pct", JNum (PInt 0)); ("pos", JBool true)].

Definition TARGETS : list (string * pystr * nat) :=
  [("kospi",  u "^KS11", 0%nat);
   ("kosdaq", u "^KQ11", 0%nat);
   ("sp500",  u "^GSPC", 0%nat);
   ("nasdaq", u "^IXIC", 0%nat);
   ("usdkrw", u "KRW=X", 1%nat);
   ("us10y",  u "^TNX",  3%nat);
   ("wti",    u "CL=F",  2%nat);
   ("gold",   u "GC=F",  0%nat)].

(* ================================================================== *)
(** ** Sample data *)
(* ================================================================== *)

Definition rec_obj (name grade timeframe reason : string) (featured : bool) : json :=
  JDict [("name", JStr (u name)); ("grade", JStr (u grade));
         ("timeframe", JStr (u timeframe)); ("reason", JStr (u reason));
         ("featured", JBool featured)].

Definition _sample_rec : list json :=
  [rec_obj "삼성전자" "A+" "중기"
     "HBM 전환 가속 및 파운드리 수주 회복 사이클 진입. 저점 분할매수 구간." true;
   rec_obj "SK하이닉스" "A" "단기"
     "HBM3E 독점 공급 지위 유지. 고수익성 구조 지속." false;
   rec_obj "NAVER" "B+" "장기"
     "HyperCLOVA X B2B 전환 가속. AI 수익화 초입 구간." false].

Definition sector_obj (name change value : string) : json :=
  JDict [("name", JStr (u name)); ("change", JStr (u change));
         ("value", JNum (PFloat (flt value)))].

Definition stock_obj (name reason price change : string) (pos : bool) : json :=
  JDict [("name", JStr (u name)); ("reason", JStr (u reason));
         ("price", JStr (u price)); ("change", JStr (u change));
         ("pos", JBool pos)].

Definition news_obj (time headline summary tag : string) : json :=
  JDict [("time", JStr (u time)); ("headline", JStr (u headline));
         ("summary", JStr (u summary)); ("tag", JStr (u tag))].

Definition SAMPLE_NOTION : dict :=
  [("summary", JList [
      JStr (u "미 연준 금리 동결 시사에 코스피·나스닥 동반 상승. 외국인 순매수 전환이 지수 방어에 기여했다.");
      JStr (u "AI 반도체 섹터 급등. 엔비디아 실적 서프라이즈로 SK하이닉스·삼성전자 HBM 관련주 강세.");
      JStr (u "원/달러 환율 1,310원대 안정. 수출주 밸류에이션 개선 기대감이 코스피 안착을 이끌었다.")]);
   ("market_strength", JStr (u "강세"));
   ("sectors", JList [
      sector_obj "반도체" "+3.42%" "3.42";
      sector_obj "AI·소프트웨어" "+2.81%" "2.81";
      sector_obj "2차전지" "+2.20%" "2.20";
      sector_obj "바이오" "+1.58%" "1.58";
      sector_obj "금융" "-0.84%" "-0.84";
      sector_obj "건설·부동산" "-1.43%" "-1.43"]);
   ("stocks", JList [
      stock_obj "SK하이닉스" "HBM3E 양산 확대" "185,400" "+5.23%" true;
      stock_obj "한미반도체" "TC본더 수주 체결" "94,800" "+8.71%" true;
      stock_obj "삼성SDI" "유럽 수요 둔화" "312,000" "-3.12%" false;
      stock_obj "카카오페이" "해외결제 서비스 확대" "24,650" "+4.46%" true]);
   ("news", JList [
      news_obj "09:02" "연준 1월 의사록 — 금리인하 서두를 필요 없다 기조 재확인" EmptyString "통화정책";
      news_obj "10:15" "엔비디아 블랙웰 GPU 공급난 — 국내 HBM 기업 반사이익 기대" EmptyString "반도체";
      news_obj "11:33" "정부 밸류업 2차 프로그램 발표 — 자사주 소각 의무화 논의" EmptyString "정책";
      news_obj "13:47" "BYD 국내 출시 재연기 — 국산 완성차·배터리주 단기 수혜" EmptyString "자동차"]);
   ("recommendations", JList _sample_rec)].

(* ================================================================== *)
(** ** The remote services and the run *)
(* ================================================================== *)

Inductive match_mode := Equals | Contains.

(** The body of a [POST /databases/{id}/query]. *)
Record query_body := {
  q_property : string;
  q_mode : match_mode;
  q_value : pystr;
  q_page_size : N;
  q_start_cursor : option pystr
}.

Definition with_cursor (b : query_body) (c : pystr) : query_body :=
  {| q_property := q_property b; q_mode := q_mode b; q_value := q_value b;
     q_page_size := q_page_size b; q_start_cursor := Some c |}.

(** A reply page of a query. *)
Record query_page := {
  qp_results : list row;
  qp_has_more : bool;
  qp_next_cursor : option pystr
}.

(** A child block of the root page. *)
Inductive block :=
| ChildDatabase (id : pystr) (title : option pystr)
| OtherBlock.

Record children_page := {
  cp_results : list block;
  cp_has_more : bool;
  cp_next_cursor : option pystr
}.

Record db := { db_id : pystr; db_title : pystr }.

(** What a run reads from its environment and clock. *)
Record env := {
  env_NOTION_TOKEN : pystr;
  env_NOTION_PAGE_ID : pystr;
  today_str : pystr;         (* date.today().strftime(DATE_FORMAT) *)
  now_utc_iso : pystr;       (* datetime.now(utc).isoformat() *)
  now_kst : pystr            (* kst.strftime('%Y-%m-%d %H:%M KST') *)
}.

Definition NOTION_TOKEN (e : env) : pystr := env_NOTION_TOKEN e.
Definition NOTION_PAGE_ID (e : env) : pystr :=
  remove_char MINUS (env_NOTION_PAGE_ID e).

(** [if cursor:] on an optional string. *)
Definition cursor_truthy (c : option pystr) : option pystr :=
  match c with
  | Some (x :: r) => Some (x :: r)
  | _ => None
  end.

(** [if cursor: body['start_cursor'] = cursor]: the body of the next
    request; a falsy cursor leaves the dictionary as it is. *)
Definition next_request (body : query_body) (cursor : option pystr) : query_body :=
  match cursor_truthy cursor with
  | Some c => with_cursor body c
  | None => body
  end.

(** The body query_by_date starts from. *)
Definition date_body (date_col : string) (today : pystr) : query_body :=
  {| q_property := date_col; q_mode := Equals; q_value := today;
     q_page_size := 100; q_start_cursor := None |}.

(** How a computation over the remote services ends. *)
Inductive outcome (A : Type) :=
| Done (a : A)
| Raised (e : exn)
| Diverged.            (* the loop outlived its fuel *)
Arguments Done {A} a.
Arguments Raised {A} e.
Arguments Diverged {A}.

Section Run.

(** The services are a deterministic machine with state [St]; each call
    answers with a reply or an exception and moves the state. *)
Variable St : Type.
Variable n_get : St -> pystr -> option pystr -> result children_page * St.
Variable n_post : St -> pystr -> query_body -> result query_page * St.
Variable yahoo : St -> pystr -> result chart_meta * St.

Definition M (A : Type) : Type := St -> outcome A * St.

Definition ret {A} (a : A) : M A := fun st => (Done a, st).

Definition bind {A B} (m : M A) (k : A -> M B) : M B :=
  fun st =>
    match m st with
    | (Done a, st') => k a st'
    | (Raised e, st') => (Raised e, st')
    | (Diverged, st') => (Diverged, st')
    end.

Definition call {A} (f : St -> result A * St) : M A :=
  fun st =>
    match f st with
    | (Ok a, st') => (Done a, st')
    | (Err e, st') => (Raised e, st')
    end.

Notation "x <- m ;; k" := (bind m (fun x => k))
  (at level 61, m at next level, right associativity).

Definition child_db_of (b : block) : list db :=
  match b with
  | ChildDatabase id title =>
      [{| db_id := remove_char MINUS id;
          db_title := match title with Some t => t | None => [] end |}]
  | OtherBlock => []
  end.

(** The [while True] loop of get_child_dbs; the URL is rebuilt on each
    turn, so a falsy cursor asks for the first page again. *)
Fixpoint get_child_dbs_loop (fuel : nat) (page_id : pystr) (dbs : list db)
  (cursor : option pystr) : M (list db) :=
  match fuel with
  | O => fun st => (Diverged, st)
  | S fuel' =>
      data <- call (fun st => n_get st page_id (cursor_truthy cursor)) ;;
      let dbs := dbs ++ flat_map child_db_of (cp_results data) in
      if negb (cp_has_more data) then ret dbs
      else get_child_dbs_loop fuel' page_id dbs (cp_next_cursor data)
  end.

Definition get_child_dbs (fuel : nat) (page_id : pystr) : M (list db) :=
  get_child_dbs_loop fuel page_id [] None.

(** The [while True] loop of query_by_date; [body] is one dictionary
    mutated in place, so a start cursor once set stays set. *)
Fixpoint query_loop (fuel : nat) (db_id : pystr) (body : query_body)
  (rows : list row) (cursor : option pystr) : M (list row) :=
  match fuel with
  | O => fun st => (Diverged, st)
  | S fuel' =>
      let body := next_request body cursor in
      data <- call (fun st => n_post st db_id body) ;;
      let rows := rows ++ qp_results data in
      if negb (qp_has_more data) then ret rows
      else query_loop fuel' db_id body rows (qp_next_cursor data)
  end.

Definition query_by_date (fuel : nat) (db_id : pystr) (date_col : string)
  (today : pystr) : M (list row) :=
  query_loop fuel db_id (date_body date_col today) [] None.

Definition parse_db1 (fuel : nat) (db_id today : pystr) : M dict :=
  rows <- query_by_date fuel db_id "날짜" today ;;
  ret (db1_of_rows rows).

Definition parse_db2 (fuel : nat) (db_id today : pystr) : M dict :=
  rows <- query_by_date fuel db_id "종목명" today ;;
  ret (db2_of_rows rows).

(** The single request of parse_db3 (lines 252-262). *)
Definition news_body (today : pystr) : query_body :=
  {| q_property := "뉴스 제목"; q_mode := Contains; q_value := today;
     q_page_size := 10; q_start_cursor := None |}.

(** The rows parse_db3 works on: one page, and [try/except] around the
    request. *)
Definition news_query (db_id today : pystr) : St -> option (list row) * St :=
  fun st =>
    match n_post st db_id (news_body today) with
    | (Ok data, st') => (Some (qp_results data), st')
    | (Err _, st') => (None, st')
    end.

Definition parse_db3 (db_id today : pystr) : M dict :=
  fun st =>
    match news_query db_id today st with
    | (Some rows, st') => (Done (db3_of_rows rows), st')
    | (None, st') => (Done db3_empty, st')
    end.

Definition parse_db4 (fuel : nat) (db_id today : pystr) : M dict :=
  rows <- query_by_date fuel db_id "날짜" today ;;
  ret (db4_of_rows rows).

Definition nth_db_id (dbs : list db) (i : nat) : pystr :=
  match nth_error dbs i with
  | Some d => db_id d
  | None => []
  end.

Definition fetch_notion (fuel : nat) (e : env) : M dict :=
  let today := today_str e in
  dbs <- get_child_dbs fuel (NOTION_PAGE_ID e) ;;
  let result : dict := [] in
  r1 <- (if (1 <=? List.length dbs)%nat
         then parse_db1 fuel (nth_db_id dbs 0) today
         else ret db1_empty) ;;
  let result := dict_update result r1 in
  r2 <- (if (2 <=? List.length dbs)%nat
         then parse_db2 fuel (nth_db_id dbs 1) today
         else ret db2_empty) ;;
  let result := dict_update result r2 in
  r3 <- (if (3 <=? List.length dbs)%nat
         then parse_db3 (nth_db_id dbs 2) today
         else ret db3_empty) ;;
  let result := dict_update result r3 in
  r4 <- (if (4 <=? List.length dbs)%nat
         then parse_db4 fuel (nth_db_id dbs 3) today
         else ret [("recommendations", JList _sample_rec)]) ;;
  let result := dict_update result r4 in
  ret result.

(** fetch_yahoo: every exception of the [try] block gives the fall-back
    quote. *)
Definition fetch_yahoo (symbol : pystr) (dec : nat) : St -> dict * St :=
  fun st =>
    match yahoo st symbol with
    | (Ok meta, st') =>
        match quote_of_meta meta dec with
        | Ok q => (q, st')
        | Err _ => (quote_fallback, st')
        end
    | (Err _, st') => (quote_fallback, st')
    end.

Fixpoint fetch_indices_loop (targets : list (string * pystr * nat))
  (indices : dict) : St -> dict * St :=
  fun st =>
    match targets with
    | [] => (indices, st)
    | (key, sym, dec) :: rest =>
        let '(v, st') := fetch_yahoo sym dec st in
        fetch_indices_loop rest (dict_set key (JDict v) indices) st'
    end.

Definition fetch_indices : St -> dict * St :=
  fetch_indices_loop TARGETS [].

(** main, up to the document handed to [json.dump]. *)
Definition main (fuel : nat) (e : env) : St -> outcome dict * St :=
  fun st =>
    let output : dict :=
      [("updated_at", JStr (now_utc_iso e));
       ("updated_kst", JStr (now_kst e))] in
    let '(notion, st1) :=
      if nonempty (NOTION_TOKEN e) && nonempty (NOTION_PAGE_ID e) then
        match fetch_notion fuel e st with
        | (Done r, st') => (Done (dict_update output r), st')
        | (Raised _, st') => (Done (dict_update output SAMPLE_NOTION), st')
        | (Diverged, st') => (Diverged, st')
        end
      else (Done (dict_update output SAMPLE_NOTION), st) in
    match notion with
    | Done output =>
        let '(indices, st2) := fetch_indices st1 in
        (Done (dict_set "indices" (JDict indices) output), st2)
    | other => (other, st1)
    end.

End Run.

Arguments ret {St A} a.
Arguments bind {St A B} m k.
Arguments call {St A} f.
Arguments get_child_dbs_loop {St} n_get fuel page_id dbs cursor.
Arguments get_child_dbs {St} n_get fuel page_id.
Arguments query_loop {St} n_post fuel db_id body rows cursor.
Arguments query_by_date {St} n_post fuel db_id date_col today.
Arguments news_query {St} n_post db_id today.
Arguments parse_db1 {St} n_post fuel db_id today.
Arguments parse_db2 {St} n_post fuel db_id today.
Arguments parse_db3 {St} n_post db_id today.
Arguments parse_db4 {St} n_post fuel db_id today.
Arguments fetch_notion {St} n_get n_post fuel e.
Arguments fetch_yahoo {St} yahoo symbol dec.
Arguments fetch_indices {St} yahoo.
Arguments main {St} n_get n_post yahoo fuel e.

(* ================================================================== *)
(** ** Vocabulary of the statements *)
(* ================================================================== *)

(** No leading character satisfies [p]. *)
Definition no_lead (p : char -> bool) (s : pystr) : Prop :=
  match s with
  | [] => True
  | c :: _ => p c = false
  end.

Definition is_enum_char (c : char) : bool := mem c ENUM_CHARS.

(** A line the segmenter has nothing to do on: not empty, free of line
    breaks and carriage returns, trimmed, and without enumeration
    prefix. *)
Definition clean_item (l : pystr) : Prop :=
  l <> [] /\ ~ In LF l /\ ~ In CR l /\ strip l = l /\ no_lead is_enum_char l.

Definition has_name (r : row) : bool :=
  nonempty (get_prop r "종목명" T_rich_text).

Definition is_featured (j : json) : bool :=
  match field "featured" j with
  | Some (JBool true) => true
  | _ => false
  end.

Definition opt_list {A} (o : option A) : list A :=
  match o with Some a => [a] | None => [] end.

(** Fixtures: texts with a carriage return inside a line, and with a tab
    after the enumeration prefix. *)
Definition text_cr : pystr := [97; CR; 98].
Definition text_tab : pystr := [49; 46; 9; 65].
Definition text_example : pystr := [49; 46; 32; 65; LF; 45; 32; 66; LF; LF; 67].


(** A recommendations row with the given name, grade and time frame. *)
Definition rec_row (name grade timeframe : pystr) : row :=
  {| properties :=
       [("날짜", P_title [{| plain_text := Some (u "2026-02-20") |}]);
        ("종목명", P_rich_text [{| plain_text := Some name |}]);
        ("추천등급", P_select (match grade with [] => None | _ => Some grade end));
        ("투자기간", P_select (match timeframe with [] => None | _ => Some timeframe end));
        ("추천사유", P_rich_text [])] |}.

Definition recommendations_of (d : dict) : list json :=
  match dict_get "recommendations" d with
  | Some (JList l) => l
  | _ => []
  end.

(** The float a sector's change string parses to, on the original field:
    [","], ["+"] and ["%"] removed, 0.0 when [float] rejects the rest. *)
Definition change_value (chg : pystr) : float :=
  match py_float (strip (remove_char PERCENT (remove_char PLUS (remove_char COMMA chg)))) with
  | Some f => f
  | None => S754_zero false
  end.

(** [enumerate(l)] *)
Definition indexed {A} (l : list A) : list (nat * A) :=
  combine (seq 0 (List.length l)) l.

(** Fixtures: the three named rows of the specification's example, and a
    result whose first row has an empty name. *)
Definition three_rows : list row :=
  [rec_row (u "삼성전자") (u "A+") (u "중기");
   rec_row (u "SK하이닉스") [] [];
   rec_row (u "NAVER") (u "B+") (u "장기")].

Definition blank_first_rows : list row :=
  [rec_row [] (u "A") (u "단기"); rec_row (u "NAVER") (u "B+") (u "장기")].

(** The provider, asked with [body] in state [st] and then, page after
    page, with the cursor it handed out, serves the pages [ps], the last
    of which is the first to report no further page, and ends in state
    [st']. *)
Inductive serves {St : Type}
  (n_post : St -> pystr -> query_body -> result query_page * St)
  (db_id : pystr) : St -> query_body -> list query_page -> St -> Prop :=
| serves_last st body p st' :
    n_post st db_id body = (Ok p, st') ->
    qp_has_more p = false ->
    serves n_post db_id st body [p] st'
| serves_more st body p st' ps st'' :
    n_post st db_id body = (Ok p, st') ->
    qp_has_more p = true ->
    serves n_post db_id st' (next_request body (qp_next_cursor p)) ps st'' ->
    serves n_post db_id st body (p :: ps) st''.

(** Fixture: a table served in three pages under the cursors c1 and c2;
    the state counts the requests. *)
Definition page1 : query_page :=
  {| qp_results := [rec_row (u "삼성전자") (u "A+") (u "중기")];
     qp_has_more := true; qp_next_cursor := Some (u "c1") |}.
Definition page2 : query_page :=
  {| qp_results := [rec_row (u "SK하이닉스") [] []; rec_row [] [] []];
     qp_has_more := true; qp_next_cursor := Some (u "c2") |}.
Definition page3 : query_page :=
  {| qp_results := [rec_row (u "NAVER") (u "B+") (u "장기")];
     qp_has_more := false; qp_next_cursor := None |}.

Definition paged_post (n : nat) (_ : pystr) (body : query_body)
  : result query_page * nat :=
  (match q_start_cursor body with
   | None => Ok page1
   | Some c =>
       if str_eqb c (u "c1") then Ok page2
       else if str_eqb c (u "c2") then Ok page3
       else Err RemoteError
   end, S n).

(* ================================================================== *)
(** ** The schema of the output document *)
(* ================================================================== *)

Definition is_str (j : json) : bool :=
  match j with JStr _ => true | _ => false end.
Definition is_num (j : json) : bool :=
  match j with JNum _ => true | _ => false end.
Definition is_bool (j : json) : bool :=
  match j with JBool _ => true | _ => false end.

Definition is_list_of (t : json -> bool) (j : json) : bool :=
  match j with JList l => forallb t l | _ => false end.

(** [d] has exactly the keys of [shape], in that order, each value of
    its type. *)
Fixpoint has_shape (shape : list (string * (json -> bool))) (d : dict) : bool :=
  match shape, d with
  | [], [] => true
  | (k, t) :: shape', (k', v) :: d' =>
      String.eqb k k' && t v && has_shape shape' d'
  | _, _ => false
  end.

Definition is_obj (shape : list (string * (json -> bool))) (j : json) : bool :=
  match j with JDict d => has_shape shape d | _ => false end.

Definition SectorMove : json -> bool :=
  is_obj [("name", is_str); ("change", is_str); ("value", is_num)].
Definition StockHighlight : json -> bool :=
  is_obj [("name", is_str); ("reason", is_str); ("price", is_str);
          ("change", is_str); ("pos", is_bool)].
Definition NewsItem : json -> bool :=
  is_obj [("time", is_str); ("headline", is_str); ("summary", is_str);
          ("tag", is_str)].
Definition Recommendation : json -> bool :=
  is_obj [("name", is_str); ("grade", is_str); ("timeframe", is_str);
          ("reason", is_str); ("featured", is_bool)].
Definition IndexQuote : json -> bool :=
  is_obj [("price", is_num); ("change", is_num); ("pct", is_num);
          ("pos", is_bool)].

Definition notion_shape : list (string * (json -> bool)) :=
  [("summary", is_list_of is_str);
   ("market_strength", is_str);
   ("sectors", is_list_of SectorMove);
   ("stocks", is_list_of StockHighlight);
   ("news", is_list_of NewsItem);
   ("recommendations", is_list_of Recommendation)].

Definition indices_shape : list (string * (json -> bool)) :=
  [("kospi", IndexQuote); ("kosdaq", IndexQuote); ("sp500", IndexQuote);
   ("nasdaq", IndexQuote); ("usdkrw", IndexQuote); ("us10y", IndexQuote);
   ("wti", IndexQuote); ("gold", IndexQuote)].

(** The nine top-level keys with their types. *)
Definition OutputDocument (d : dict) : bool :=
  has_shape
    ([("updated_at", is_str); ("updated_kst", is_str)]
       ++ notion_shape ++ [("indices", is_obj indices_shape)]) d.

(** Fixture: services on which every call fails. *)
Definition failing_get (st : unit) (_ : pystr) (_ : option pystr)
  : result children_page * unit := (Err RemoteError, st).
Definition failing_post (st : unit) (_ : pystr) (_ : query_body)
  : result query_page * unit := (Err RemoteError, st).
Definition failing_yahoo (st : unit) (_ : pystr)
  : result chart_meta * unit := (Err RemoteError, st).

Definition env_fixture : env :=
  {| env_NOTION_TOKEN := u "secret_x";
     env_NOTION_PAGE_ID := u "12ab-34cd";
     today_str := u "2026-02-20";
     now_utc_iso := u "2026-02-20T00:05:00+00:00";
     now_kst := u "2026-02-20 09:05 KST" |}.

Definition env_unset : env :=
  {| env_NOTION_TOKEN := [];
     env_NOTION_PAGE_ID := [];
     today_str := u "2026-02-20";
     now_utc_iso := u "2026-02-20T00:05:00+00:00";
     now_kst := u "2026-02-20 09:05 KST" |}.

(** The document of a run on which every remote call fails: the sample
    data and eight fall-back quotes. *)
Definition total_failure_document (e : env) : dict :=
  [("updated_at", JStr (now_utc_iso e)); ("updated_kst", JStr (now_kst e))]
    ++ SAMPLE_NOTION
    ++ [("indices",
         JDict (map (fun t => (fst (fst t), JDict quote_fallback)) TARGETS))].

(** A news item as the news normaliser emits it: time, summary and tag
    empty, the headline non-empty and not starting with an enumeration
    character. *)
Definition news_blank_meta (j : json) : bool :=
  match field "time" j, field "summary" j, field "tag" j, field "headline" j with
  | Some (JStr []), Some (JStr []), Some (JStr []), Some (JStr (c :: _)) =>
      negb (is_enum_char c)
  | _, _, _, _ => false
  end.

(** A sample news item: summary empty, headline non-empty, but a time
    and a tag. *)
Definition news_sample_meta (j : json) : bool :=
  match field "time" j, field "summary" j, field "tag" j, field "headline" j with
  | Some (JStr (_ :: _)), Some (JStr []), Some (JStr (_ :: _)), Some (JStr (_ :: _)) =>
      true
  | _, _, _, _ => false
  end.

Definition news_of (d : dict) : list json :=
  match dict_get "news" d with
  | Some (JList l) => l
  | _ => []
  end.

(** Fixture: a root page with up to four tables, each holding one result
    page for today; the state counts the remote calls. *)
Definition table_blocks : list block :=
  [ChildDatabase (u "d-1") (Some (u "Daily Market Log"));
   ChildDatabase (u "d-2") (Some (u "주도 종목 분석"));
   ChildDatabase (u "d-3") (Some (u "핵심 뉴스 아카이브"));
   ChildDatabase (u "d-4") (Some (u "추천종목"))].

Definition tables_get (n_tables : nat) (st : nat) (_ : pystr) (_ : option pystr)
  : result children_page * nat :=
  (Ok {| cp_results := OtherBlock :: firstn n_tables table_blocks;
         cp_has_more := false; cp_next_cursor := None |}, S st).

Definition text (s : pystr) : notion_prop :=
  P_rich_text [{| plain_text := Some s |}].

Definition row1 : row :=
  {| properties :=
       [("날짜", P_title [{| plain_text := Some (u "2026-02-20") |}]);
        ("시장 강도", P_select (Some (u "강세")));
        ("AI 3줄 요약", text (u "1. A" ++ [LF] ++ u "2. B"))] |}.
Definition row2 : row :=
  {| properties :=
       [("종목명", P_title [{| plain_text := Some (u "2026-02-20") |}]);
        ("주도 섹터", text (u "반도체 | 3.42%"));
        ("특이 종목", text (u "X | r | 1,000 | -1%"))] |}.
Definition row3 : row :=
  {| properties :=
       [("뉴스 제목", P_title [{| plain_text := Some (u "2026-02-20 핵심 뉴스 요약") |}]);
        ("AI 뉴스 요약", text (u "- N1" ++ [LF] ++ u "- N2"))] |}.

Definition single_page (rows : list row) : query_page :=
  {| qp_results := rows; qp_has_more := false; qp_next_cursor := None |}.

Definition table_rows (db_id : pystr) : list row :=
  if str_eqb db_id (u "d1") then [row1]
  else if str_eqb db_id (u "d2") then [row2]
  else if str_eqb db_id (u "d3") then [row3]
  else if str_eqb db_id (u "d4") then three_rows
  else [].

(** Queries on the table [failing] raise; the others are answered. *)
Definition tables_post (failing : pystr) (st : nat) (db_id : pystr)
  (_ : query_body) : result query_page * nat :=
  (if str_eqb db_id failing then Err RemoteError
   else Ok (single_page (table_rows db_id)), S st).

(** Every table is there but has no row for today. *)
Definition empty_post (st : nat) (_ : pystr) (_ : query_body)
  : result query_page * nat :=
  (Ok (single_page []), S st).

(** A feed that quotes 100 after a previous close of 95. *)
Definition quoting_yahoo (st : nat) (_ : pystr) : result chart_meta * nat :=
  (Ok {| regularMarketPrice := JsonNum (PInt 100);
         chartPreviousClose := JsonNum (PInt 95);
         previousClose := Absent |}, S st).

Definition timestamps (e : env) : dict :=
  [("updated_at", JStr (now_utc_iso e)); ("updated_kst", JStr (now_kst e))].

(** The document of a run on the four-table fixture with every call
    answered. *)
Definition fixture_document : dict :=
  match fst (main (tables_get 4) (tables_post []) quoting_yahoo 1 env_fixture 0%nat) with
  | Done d => d
  | _ => []
  end.

(** Fixtures of the feed arithmetic: 100 after 95 as [int]s and as
    [float]s, and a reply without any figure. *)
Definition f100 : float := S754_finite false 7036874417766400 (-46).
Definition f95 : float := S754_finite false 6685030696878080 (-46).
Definition f5 : float := S754_finite false 5629499534213120 (-50).
Definition f5_26 : float := S754_finite false 5922233509992202 (-50).

Definition meta_int : chart_meta :=
  {| regularMarketPrice := JsonNum (PInt 100);
     chartPreviousClose := JsonNum (PInt 95);
     previousClose := Absent |}.
Definition meta_float : chart_meta :=
  {| regularMarketPrice := JsonNum (PFloat f100);
     chartPreviousClose := JsonNum (PFloat f95);
     previousClose := Absent |}.
Definition meta_zero : chart_meta :=
  {| regularMarketPrice := JsonNum (PFloat (S754_zero false));
     chartPreviousClose := JsonNum (PInt 0);
     previousClose := JsonNull |}.

(** [math.isfinite]: neither an infinity nor a NaN. *)
Definition is_finite (f : float) : bool :=
  match f with
  | S754_zero _ | S754_finite _ _ _ => true
  | _ => false
  end.

Definition is_int (n : pynum) : bool :=
  match n with PInt _ => true | PFloat _ => false end.

(** A reply with a price and a last-session close, and the quote with
    its four fields. *)
Definition quote_case (price prev : pynum) : chart_meta :=
  {| regularMarketPrice := JsonNum price;
     chartPreviousClose := JsonNum prev;
     previousClose := Absent |}.

Definition quote (price change pct : pynum) (pos : bool) : dict :=
  [("price", JNum price); ("change", JNum change);
   ("pct", JNum pct); ("pos", JBool pos)].
(* ================================================================== *)
(** ** Vocabulary of the further properties *)
(* ================================================================== *)

(** The number of occurrences of [c] in [s]. *)
Definition count_char (c : char) (s : pystr) : nat :=
  List.length (filter (N.eqb c) s).

(** What every line the segmenting loop appends looks like: not empty,
    no enumeration character in front, no whitespace at the end, no
    line feed and no carriage return inside. *)
Definition segment_item (l : pystr) : Prop :=
  l <> [] /\ no_lead is_enum_char l /\ no_lead is_space (rev l) /\
  ~ In LF l /\ ~ In CR l.

(** The dictionary parse_db3 appends for a headline (lines 284-289). *)
Definition headline_item (line : pystr) : json :=
  JDict [("time", JStr []); ("headline", JStr line);
         ("summary", JStr []); ("tag", JStr [])].

(** The lines of a text that hold a pipe, as parse_pipe sees them. *)
Definition pipe_lines (text : pystr) : list pystr :=
  filter (mem PIPE) (split_on LF (remove_char CR text)).

(** Fixtures: a text without any pipe, and a news row whose body has
    blank lines around it. *)
Definition text_no_pipe : pystr := u "noise line" ++ [LF] ++ u "another".

Definition padded_news_row : row :=
  {| properties :=
       [("AI 뉴스 요약",
         text ([LF; 32] ++ u "1. N1" ++ [CR; LF; LF] ++ u "- N2" ++ [32; LF; 9]))] |}.

Definition sectors_of (d : dict) : list json :=
  match dict_get "sectors" d with
  | Some (JList l) => l
  | _ => []
  end.

Definition stocks_of (d : dict) : list json :=
  match dict_get "stocks" d with
  | Some (JList l) => l
  | _ => []
  end.

(** A sector entry: a non-empty name, a change string that is empty or
    carries a sign, and as value the float read from that very string. *)
Definition sector_ok (j : json) : Prop :=
  exists name chg,
    j = JDict [("name", JStr name); ("change", JStr chg);
               ("value", JNum (PFloat (safe_float chg)))] /\
    name <> [] /\
    (chg = [] \/ startswith_any [PLUS; MINUS] chg = true).

(** A highlight entry: a non-empty name, and [pos] false exactly when
    the stored change string starts with a minus sign. *)
Definition stock_ok (j : json) : Prop :=
  exists name reason price chg,
    j = JDict [("name", JStr name); ("reason", JStr reason);
               ("price", JStr price); ("change", JStr chg);
               ("pos", JBool (negb (startswith_any [MINUS] chg)))] /\
    name <> [].

(** A recommendation entry: name, grade and time frame are never
    empty. *)
Definition rec_ok (j : json) : Prop :=
  exists name grade timeframe reason featured,
    j = JDict [("name", JStr name); ("grade", JStr grade);
               ("timeframe", JStr timeframe); ("reason", JStr reason);
               ("featured", JBool featured)] /\
    name <> [] /\ grade <> [] /\ timeframe <> [].

(** The discovery endpoint, asked first without a cursor and then, page
    after page, with the cursor it handed out, serves the pages [ps],
    the last of which is the first to report no further page. *)
Inductive serves_children {St : Type}
  (n_get : St -> pystr -> option pystr -> result children_page * St)
  (page_id : pystr) : St -> option pystr -> list children_page -> St -> Prop :=
| children_last st cursor p st' :
    n_get st page_id (cursor_truthy cursor) = (Ok p, st') ->
    cp_has_more p = false ->
    serves_children n_get page_id st cursor [p] st'
| children_more st cursor p st' ps st'' :
    n_get st page_id (cursor_truthy cursor) = (Ok p, st') ->
    cp_has_more p = true ->
    serves_children n_get page_id st' (cp_next_cursor p) ps st'' ->
    serves_children n_get page_id st cursor (p :: ps) st''.

Definition is_child_database (b : block) : bool :=
  match b with ChildDatabase _ _ => true | OtherBlock => false end.

(** The query endpoint serves [n] pages that each report a further one
    and then raises [x]. *)
Inductive raises_after {St : Type}
  (n_post : St -> pystr -> query_body -> result query_page * St)
  (db_id : pystr) : nat -> St -> query_body -> exn -> St -> Prop :=
| raises_now st body x st' :
    n_post st db_id body = (Err x, st') ->
    raises_after n_post db_id 0 st body x st'
| raises_later n st body p st' x st'' :
    n_post st db_id body = (Ok p, st') ->
    qp_has_more p = true ->
    raises_after n_post db_id n st' (next_request body (qp_next_cursor p)) x st'' ->
    raises_after n_post db_id (S n) st body x st''.

(** The quote fetch_yahoo makes of one reply of the feed. *)
Definition quote_for (reply : result chart_meta) (dec : nat) : dict :=
  match reply with
  | Ok meta =>
      match quote_of_meta meta dec with
      | Ok q => q
      | Err _ => quote_fallback
      end
  | Err _ => quote_fallback
  end.

(** A number that is neither an infinity nor a NaN. *)
Definition num_finite (n : pynum) : bool :=
  match n with
  | PInt _ => true
  | PFloat (S754_finite _ _ _) => true
  | PFloat (S754_zero _) => true
  | PFloat _ => false
  end.

(** What main writes when the document store is not read or fails at
    state [s]: the sample data, and the indices looked up from [s]. *)
Definition fallback_run {St : Type}
  (yahoo : St -> pystr -> result chart_meta * St) (e : env) (s : St)
  : outcome dict * St :=
  (Done (dict_set "indices" (JDict (fst (fetch_indices yahoo s)))
           (dict_update (timestamps e) SAMPLE_NOTION)),
   snd (fetch_indices yahoo s)).

(** Fixtures: a root page listed in two pages; a query endpoint that
    fails on the second page; one that reports a further page for ever;
    a feed that knows one symbol only. *)
Definition children_page1 : children_page :=
  {| cp_results := [OtherBlock; ChildDatabase (u "d-1-a") (Some (u "Daily Market Log"))];
     cp_has_more := true; cp_next_cursor := Some (u "k1") |}.
Definition children_page2 : children_page :=
  {| cp_results := [ChildDatabase (u "d2") None; OtherBlock];
     cp_has_more := false; cp_next_cursor := None |}.

Definition paged_get (n : nat) (_ : pystr) (cursor : option pystr)
  : result children_page * nat :=
  (match cursor with
   | None => Ok children_page1
   | Some c => if str_eqb c (u "k1") then Ok children_page2 else Err RemoteError
   end, S n).

Definition flaky_post (n : nat) (_ : pystr) (body : query_body)
  : result query_page * nat :=
  (match q_start_cursor body with
   | None => Ok page1
   | Some _ => Err RemoteError
   end, S n).

Definition endless_post (n : nat) (_ : pystr) (_ : query_body)
  : result query_page * nat :=
  (Ok {| qp_results := [rec_row (u "NAVER") [] []];
         qp_has_more := true; qp_next_cursor := None |}, S n).

Definition endless_get (n : nat) (_ : pystr) (_ : option pystr)
  : result children_page * nat :=
  (Ok {| cp_results := [OtherBlock]; cp_has_more := true;
         cp_next_cursor := None |}, S n).

Definition kospi_only (sym : pystr) : result chart_meta :=
  if str_eqb sym (u "^KS11") then Ok meta_int else Err RemoteError.

Definition kospi_yahoo (n : nat) (sym : pystr) : result chart_meta * nat :=
  (kospi_only sym, S n).

Definition env_hyphens : env :=
  {| env_NOTION_TOKEN := u "secret_x";
     env_NOTION_PAGE_ID := u "----";
     today_str := u "2026-02-20";
     now_utc_iso := u "2026-02-20T00:05:00+00:00";
     now_kst := u "2026-02-20 09:05 KST" |}.

(** Fixture: a reply of the feed that has a price but no previous
    close. *)
Definition meta_no_close : chart_meta :=
  {| regularMarketPrice := JsonNum (PFloat f100);
     chartPreviousClose := JsonNum (PInt 0);
     previousClose := JsonNull |}.

(** Fixture: the four tables under other titles, followed by a fifth
    table. *)
Definition retitled_get (st : nat) (_ : pystr) (_ : option pystr)
  : result children_page * nat :=
  (Ok {| cp_results :=
           [ChildDatabase (u "d1") (Some (u "추천종목"));
            ChildDatabase (u "d2") None;
            ChildDatabase (u "d-3") (Some (u "x"));
            ChildDatabase (u "d4") (Some (u "Daily Market Log"));
            ChildDatabase (u "d5") (Some (u "extra"))];
         cp_has_more := false; cp_next_cursor := None |}, S st).

(* ================================================================== *)
(** * Properties *)
(* ================================================================== *)

Local Open Scope N_scope.

(** ** Strings *)

Section Strip.
Variable p : char -> bool.

Lemma lstrip_by_no_lead (s : pystr) : no_lead p (lstrip_by p s).
Proof.
  induction s as [|c r IH]; simpl; [exact I|].
  destruct (p c) eqn:E; [exact IH | simpl; exact E].
Qed.

Lemma lstrip_by_fixed (s : pystr) : no_lead p s -> lstrip_by p s = s.
Proof.
  destruct s as [|c r]; simpl; [reflexivity|].
  intros ->. reflexivity.
Qed.

Lemma lstrip_by_snoc (l : pystr) (c : char) :
  lstrip_by p (l ++ [c]) =
  match lstrip_by p l with
  | [] => if p c then [] else [c]
  | x => x ++ [c]
  end.
Proof.
  induction l as [|a l IH]; simpl; [reflexivity|].
  destruct (p a); [exact IH | reflexivity].
Qed.

Lemma rstrip_by_cons (c : char) (r : pystr) :
  rstrip_by p (c :: r) =
  match rstrip_by p r with
  | [] => if p c then [] else [c]
  | x => c :: x
  end.
Proof.
  unfold rstrip_by. simpl rev. rewrite lstrip_by_snoc.
  destruct (lstrip_by p (rev r)) as [|a l] eqn:E; simpl.
  - destruct (p c); reflexivity.
  - rewrite rev_app_distr. simpl. destruct (rev l); reflexivity.
Qed.

Lemma rstrip_by_no_lead (s : pystr) : no_lead p s -> no_lead p (rstrip_by p s).
Proof.
  destruct s as [|c r]; [intros; exact I|].
  simpl. intros E. rewrite rstrip_by_cons.
  destruct (rstrip_by p r); simpl; [rewrite E; simpl|]; exact E.
Qed.

Lemma rstrip_by_fixed (s : pystr) :
  no_lead p (rev s) -> rstrip_by p s = s.
Proof.
  intros H. unfold rstrip_by. rewrite lstrip_by_fixed by exact H.
  apply rev_involutive.
Qed.

Lemma rstrip_by_idem (s : pystr) : rstrip_by p (rstrip_by p s) = rstrip_by p s.
Proof.
  apply rstrip_by_fixed. unfold rstrip_by. rewrite rev_involutive.
  apply lstrip_by_no_lead.
Qed.

Lemma lstrip_by_all (s : pystr) : forallb p s = true -> lstrip_by p s = [].
Proof.
  induction s as [|c r IH]; simpl; [reflexivity|].
  intros H. apply andb_prop in H. destruct H as [-> H]. auto.
Qed.

Lemma lstrip_by_nil_inv (s : pystr) : lstrip_by p s = [] -> forallb p s = true.
Proof.
  induction s as [|c r IH]; simpl; [reflexivity|].
  destruct (p c); [exact IH | discriminate].
Qed.

End Strip.

Lemma strip_no_lead (s : pystr) : no_lead is_space (strip s).
Proof. apply rstrip_by_no_lead, lstrip_by_no_lead. Qed.

Lemma strip_idem (s : pystr) : strip (strip s) = strip s.
Proof.
  unfold strip at 1.
  rewrite (lstrip_by_fixed is_space (strip s)) by apply strip_no_lead.
  unfold strip. apply rstrip_by_idem.
Qed.

Lemma strip_fixed (s : pystr) :
  no_lead is_space s -> no_lead is_space (rev s) -> strip s = s.
Proof.
  intros H1 H2. unfold strip. rewrite lstrip_by_fixed by exact H1.
  apply rstrip_by_fixed. exact H2.
Qed.

Lemma strip_all_space (s : pystr) : forallb is_space s = true -> strip s = [].
Proof.
  intros H. unfold strip. rewrite lstrip_by_all by exact H. reflexivity.
Qed.

Lemma split_on_nonnil (c : char) (s : pystr) : split_on c s <> [].
Proof.
  destruct s as [|x r]; simpl; [discriminate|].
  destruct (x =? c); [discriminate|].
  destruct (split_on c r); discriminate.
Qed.


Lemma split_on_forall (P : char -> Prop) (c : char) (s : pystr) :
  Forall P s -> Forall (Forall P) (split_on c s).
Proof.
  induction 1 as [|x r Hx Hr IH]; simpl.
  - constructor; constructor.
  - destruct (x =? c).
    + constructor; [constructor | exact IH].
    + destruct (split_on c r) as [|h t].
      * constructor; [constructor; [exact Hx | constructor] | constructor].
      * inversion IH; subst. constructor; [constructor; assumption | assumption].
Qed.

Lemma split_on_no_sep (c : char) (s : pystr) :
  ~ In c s -> split_on c s = [s].
Proof.
  induction s as [|x r IH]; simpl; [reflexivity|].
  intros H. destruct (N.eqb_spec x c) as [->|Hne].
  - exfalso. apply H. left. reflexivity.
  - rewrite IH; [reflexivity|]. intros Hin. apply H. right. exact Hin.
Qed.

Lemma split_on_app (c : char) (a b : pystr) :
  ~ In c a -> split_on c (a ++ c :: b) = a :: split_on c b.
Proof.
  induction a as [|x r IH]; simpl.
  - rewrite N.eqb_refl. reflexivity.
  - intros H. destruct (N.eqb_spec x c) as [->|Hne].
    + exfalso. apply H. left. reflexivity.
    + rewrite IH; [reflexivity|]. intros Hin. apply H. right. exact Hin.
Qed.

Lemma split_on_join (c : char) (parts : list pystr) :
  parts <> [] -> Forall (fun l => ~ In c l) parts ->
  split_on c (join c parts) = parts.
Proof.
  induction parts as [|a rest IH]; [congruence|].
  intros _ H. inversion H as [|? ? Ha Hrest]; subst.
  destruct rest as [|b rest'].
  - simpl. apply split_on_no_sep. exact Ha.
  - change (join c (a :: b :: rest')) with (a ++ c :: join c (b :: rest')).
    rewrite split_on_app by exact Ha.
    rewrite IH; [reflexivity | discriminate | exact Hrest].
Qed.

Lemma remove_char_absent (c : char) (s : pystr) :
  ~ In c s -> remove_char c s = s.
Proof.
  induction s as [|x r IH]; simpl; [reflexivity|].
  intros H. destruct (N.eqb_spec x c) as [->|Hne]; simpl.
  - exfalso. apply H. left. reflexivity.
  - rewrite IH; [reflexivity|]. intros Hin. apply H. right. exact Hin.
Qed.

Lemma remove_char_forall (P : char -> Prop) (c : char) (s : pystr) :
  Forall P s -> Forall P (remove_char c s).
Proof.
  induction 1 as [|x r Hx Hr IH]; simpl; [constructor|].
  destruct (negb (x =? c)); [constructor; assumption | assumption].
Qed.

Lemma in_join (c x : char) (parts : list pystr) :
  In x (join c parts) -> x = c \/ exists l, In l parts /\ In x l.
Proof.
  induction parts as [|a rest IH]; simpl; [contradiction|].
  destruct rest as [|b rest'].
  - intros H. right. exists a. split; [left; reflexivity | exact H].
  - intros H. apply in_app_or in H. destruct H as [H|H].
    + right. exists a. split; [left; reflexivity | exact H].
    + destruct H as [H|H]; [left; symmetry; exact H|].
      destruct (IH H) as [E|[l [Hl Hx]]]; [left; exact E|].
      right. exists l. split; [right; exact Hl | exact Hx].
Qed.

(** ** The append loops *)

Lemma segment_loop_spec (todo acc : list pystr) :
  segment_loop todo acc = acc ++ filter nonempty (map clean_line todo).
Proof.
  revert acc. induction todo as [|l rest IH]; intros acc; simpl.
  - rewrite app_nil_r. reflexivity.
  - rewrite IH. destruct (nonempty (clean_line l)); [|reflexivity].
    rewrite <- app_assoc. reflexivity.
Qed.

Lemma parse_pipe_loop_spec (todo : list pystr) (acc : list (list pystr)) :
  parse_pipe_loop todo acc =
  acc ++ map (fun l => map strip (split_on PIPE l)) (filter (mem PIPE) todo).
Proof.
  revert acc. induction todo as [|l rest IH]; intros acc; simpl.
  - rewrite app_nil_r. reflexivity.
  - rewrite IH. destruct (mem PIPE l); [|reflexivity].
    rewrite <- app_assoc. reflexivity.
Qed.

Lemma append_loop_spec {A} (entry : A -> option json) (todo : list A)
  (out : list json) :
  append_loop entry todo out = out ++ flat_map (fun x => opt_list (entry x)) todo.
Proof.
  revert out. induction todo as [|x rest IH]; intros out; simpl.
  - rewrite app_nil_r. reflexivity.
  - rewrite IH. destruct (entry x); simpl; [|reflexivity].
    rewrite <- app_assoc. reflexivity.
Qed.

(** ** Text Segmenter *)

Lemma clean_line_fixed (l : pystr) : clean_item l -> clean_line l = l.
Proof.
  intros (_ & _ & _ & Hs & He). unfold clean_line. rewrite Hs.
  apply lstrip_by_fixed. exact He.
Qed.

Lemma clean_lines_fixed (ls : list pystr) :
  Forall clean_item ls -> filter nonempty (map clean_line ls) = ls.
Proof.
  induction 1 as [|l rest Hl Hrest IH]; simpl; [reflexivity|].
  rewrite (clean_line_fixed l Hl), IH.
  destruct Hl as (Hne & _). destruct l; [congruence | reflexivity].
Qed.

Lemma blank_lines_vanish (ls : list pystr) :
  Forall (Forall (fun c => is_space c = true)) ls ->
  filter nonempty (map clean_line ls) = [].
Proof.
  induction 1 as [|l rest Hl Hrest IH]; simpl; [reflexivity|].
  unfold clean_line at 1. rewrite strip_all_space.
  - simpl. exact IH.
  - apply forallb_forall. intros c Hc.
    rewrite Forall_forall in Hl. apply Hl. exact Hc.
Qed.

(** C8 (as amended).  The segmenter first deletes every carriage
    return, then splits on line feeds, trims each line, strips its
    leading run of enumeration characters, drops the lines left empty and
    keeps the order; the worked example yields A, B, C; whitespace-only
    input yields nothing; and lines that are already non-empty, trimmed,
    free of carriage returns and of an enumeration prefix come back
    unchanged. *)
Theorem segmenter_contract :
  (forall raw,
     segment_lines raw =
     filter nonempty (map clean_line (split_on LF (remove_char CR raw)))) /\
  segment_lines text_example = [[65]; [66]; [67]] /\
  (forall raw, forallb is_space raw = true -> segment_lines raw = []) /\
  (forall lines, Forall clean_item lines ->
     segment_lines (join LF lines) = lines).
Proof.
  assert (Hspec : forall raw,
     segment_lines raw =
     filter nonempty (map clean_line (split_on LF (remove_char CR raw)))).
  { intros raw. unfold segment_lines. rewrite segment_loop_spec. reflexivity. }
  split; [exact Hspec|]. split; [vm_compute; reflexivity|]. split.
  - intros raw Hws. rewrite Hspec. apply blank_lines_vanish.
    apply split_on_forall, remove_char_forall.
    apply Forall_forall. intros c Hc.
    rewrite forallb_forall in Hws. apply Hws. exact Hc.
  - intros lines Hclean. rewrite Hspec.
    destruct lines as [|l rest]; [vm_compute; reflexivity|].
    assert (Hcr : ~ In CR (join LF (l :: rest))).
    { intros Hin. apply in_join in Hin. destruct Hin as [E|[x [Hx Hc]]].
      - discriminate E.
      - rewrite Forall_forall in Hclean.
        destruct (Hclean x Hx) as (_ & _ & Hno & _). exact (Hno Hc). }
    rewrite remove_char_absent by exact Hcr.
    rewrite split_on_join.
    + apply clean_lines_fixed. exact Hclean.
    + discriminate.
    + eapply Forall_impl; [|exact Hclean]. intros a (_ & Hlf & _). exact Hlf.
Qed.

Lemma segmenter_contract_witness :
  segment_lines [32; 9; LF; 32] = [] /\
  segment_lines (join LF [[65]; [66; 32; 67]]) = [[65]; [66; 32; 67]].
Proof.
  destruct segmenter_contract as (_ & _ & Hws & Hclean). split.
  - apply Hws. reflexivity.
  - apply Hclean. repeat constructor; simpl; try discriminate;
      intros H; repeat (destruct H as [H|H]; [discriminate H|]); exact H.
Defined.

(** C8, as worded, fails: a carriage return inside a line is deleted
    although the wording only splits, trims and strips; and a line the
    segmenter itself produced is changed when segmented again. *)
Lemma segmenter_as_worded_counterexample :
  segment_lines text_cr <> spec_segmenter text_cr /\
  segment_lines (join LF (segment_lines text_tab)) <> segment_lines text_tab.
Proof. split; vm_compute; discriminate. Qed.

(** ** Pipe-Row Parser *)

Lemma parse_pipe_spec (text : pystr) :
  parse_pipe text =
  map (fun l => map strip (split_on PIPE l))
      (filter (mem PIPE) (split_on LF (remove_char CR text))).
Proof. unfold parse_pipe. rewrite parse_pipe_loop_spec. reflexivity. Qed.




(** ** Sector normalisation *)

Lemma remove_plus_cons (chg : pystr) :
  remove_char PERCENT (remove_char PLUS (remove_char COMMA (PLUS :: chg))) =
  remove_char PERCENT (remove_char PLUS (remove_char COMMA chg)).
Proof. reflexivity. Qed.

Lemma safe_float_change_value (chg : pystr) : safe_float chg = change_value chg.
Proof. reflexivity. Qed.

(** C7 (as amended).  For a sector pipe-row with at least two fields and
    a non-empty name, a ["+"] is prepended to a non-empty change string
    that starts with neither ["+"] nor ["-"] (an empty change string is
    stored empty); the stored value is the float parsed from the change
    string with [","], ["+"] and ["%"] removed, 0.0 when that fails.
    So ["3.42%"] is stored as ["+3.42%"] with value 3.42 and ["-0.84%"]
    as it is with value -0.84; the digits may be the decimal digits of
    any script, as [float] reads them. *)
Theorem sector_change_normalised :
  (forall parts : list pystr,
     (2 <= List.length parts)%nat -> nth 0 parts [] <> [] ->
     let chg := nth 1 parts [] in
     sector_entry parts =
     Some (JDict [("name", JStr (nth 0 parts []));
                  ("change",
                   JStr (if nonempty chg && negb (startswith_any [PLUS; MINUS] chg)
                         then PLUS :: chg else chg));
                  ("value", JNum (PFloat (change_value chg)))])) /\
  sector_entry [u "반도체"; u "3.42%"] =
    Some (JDict [("name", JStr (u "반도체")); ("change", JStr (u "+3.42%"));
                 ("value", JNum (PFloat (S754_finite false 7701155362803548 (-51))))]) /\
  sector_entry [u "금융"; u "-0.84%"] =
    Some (JDict [("name", JStr (u "금융")); ("change", JStr (u "-0.84%"));
                 ("value", JNum (PFloat (S754_finite true 7566047373982433 (-53))))]) /\
  sector_entry [u "금융"; []] =
    Some (JDict [("name", JStr (u "금융")); ("change", JStr []);
                 ("value", JNum (PFloat (S754_zero false)))]) /\
  (* float reads the decimal digits of every script: full-width 3.42 *)
  sector_entry [u "반도체"; u "３.４２%"] =
    Some (JDict [("name", JStr (u "반도체")); ("change", JStr (u "+３.４２%"));
                 ("value", JNum (PFloat (S754_finite false 7701155362803548 (-51))))]) /\
  (* 1,234.5 *)
  sector_entry [u "반도체"; u "+1,234.5%"] =
    Some (JDict [("name", JStr (u "반도체")); ("change", JStr (u "+1,234.5%"));
                 ("value", JNum (PFloat (S754_finite false 5429388417957888 (-42))))]) /\
  (* parsing fails: 0.0 *)
  sector_entry [u "반도체"; u "N/A"] =
    Some (JDict [("name", JStr (u "반도체")); ("change", JStr (u "+N/A"));
                 ("value", JNum (PFloat (S754_zero false)))]).
Proof.
  split; [|repeat split; vm_compute; reflexivity].
  intros parts Hlen Hname chg. unfold sector_entry.
  apply Nat.leb_le in Hlen. rewrite Hlen.
  destruct (nth 0 parts []) as [|c name] eqn:E; [congruence|]. simpl andb.
  fold chg. cbv iota. do 4 f_equal. f_equal. f_equal. f_equal.
  rewrite safe_float_change_value.
  destruct (nonempty chg && negb (startswith_any [PLUS; MINUS] chg))%bool;
    [|reflexivity].
  unfold change_value. rewrite remove_plus_cons. reflexivity.
Qed.

Lemma sector_change_normalised_witness :
  sector_entry [[65]; [51; 37]] =
  Some (JDict [("name", JStr [65]); ("change", JStr [PLUS; 51; 37]);
               ("value", JNum (PFloat (change_value [51; 37])))]).
Proof.
  destruct sector_change_normalised as (H & _).
  apply (H [[65]; [51; 37]]); simpl; [repeat constructor | discriminate].
Defined.

(** C7, as worded, fails on an empty change field: it starts with
    neither sign, yet no ["+"] is prepended. *)
Lemma sector_change_counterexample :
  In [u "반도체"; []] (parse_pipe (u "반도체 |")) /\
  startswith_any [PLUS; MINUS] (nth 1 [u "반도체"; []] []) = false /\
  exists v, sector_entry [u "반도체"; []] =
    Some (JDict [("name", JStr (u "반도체")); ("change", JStr []); ("value", v)]) /\
    JStr [] <> JStr (PLUS :: nth 1 [u "반도체"; []] []).
Proof.
  split; [vm_compute; left; reflexivity|]. split; [reflexivity|].
  eexists. split; [vm_compute; reflexivity | discriminate].
Qed.

(** ** Recommendations *)

Lemma recs_loop_spec (i : nat) (todo : list row) (recs : list json) :
  recs_loop i todo recs =
  recs ++ flat_map (fun ir => opt_list (rec_entry (fst ir) (snd ir)))
            (combine (seq i (List.length todo)) todo).
Proof.
  revert i recs. induction todo as [|r rest IH]; intros i recs; simpl.
  - rewrite app_nil_r. reflexivity.
  - rewrite IH. destruct (rec_entry i r); simpl; [|reflexivity].
    rewrite <- app_assoc. reflexivity.
Qed.

Lemma rec_entry_featured (i : nat) (r : row) (e : json) :
  rec_entry i r = Some e -> is_featured e = Nat.eqb i 0.
Proof.
  unfold rec_entry. destruct (negb _); [discriminate|].
  intros [= <-]. unfold is_featured. simpl. destruct (Nat.eqb i 0); reflexivity.
Qed.

Lemma rec_entry_some (i : nat) (r : row) :
  has_name r = true -> exists e, rec_entry i r = Some e.
Proof.
  unfold has_name, rec_entry. intros ->. simpl. eexists. reflexivity.
Qed.

Lemma later_rows_not_featured (i : nat) (todo : list row) :
  filter is_featured
    (flat_map (fun ir => opt_list (rec_entry (fst ir) (snd ir)))
       (combine (seq (S i) (List.length todo)) todo)) = [].
Proof.
  revert i. induction todo as [|r rest IH]; intros i; simpl; [reflexivity|].
  rewrite filter_app, IH, app_nil_r.
  destruct (rec_entry (S i) r) as [e|] eqn:E; simpl; [|reflexivity].
  rewrite (rec_entry_featured _ _ _ E). reflexivity.
Qed.

Lemma flat_map_opt_length {A B} (f : A -> option B) (l : list A) :
  (List.length (flat_map (fun x => opt_list (f x)) l) <= List.length l)%nat.
Proof.
  induction l as [|x r IH]; simpl; [lia|].
  rewrite length_app. destruct (f x); simpl; lia.
Qed.

Lemma db4_recs (rows : list row) :
  recommendations_of (db4_of_rows rows) =
  flat_map (fun ir => opt_list (rec_entry (fst ir) (snd ir)))
    (indexed (firstn 5 rows)).
Proof.
  destruct rows as [|r0 rest]; [reflexivity|].
  unfold db4_of_rows, recommendations_of. simpl dict_get.
  rewrite recs_loop_spec. reflexivity.
Qed.

(** C1 (as amended).  The recommendations are built from the first five
    rows of the query in order, rows with an empty name being skipped
    after they were counted; an entry is featured only if it comes from
    the row at index 0, so at most one entry is featured, and when the
    first row has a non-empty name exactly one is: the first entry
    emitted.  Three named rows give three entries, the first one
    featured. *)
Theorem recommendations_featured :
  (forall rows : list row,
     let recs := recommendations_of (db4_of_rows rows) in
     recs = flat_map (fun ir => opt_list (rec_entry (fst ir) (snd ir)))
              (indexed (firstn 5 rows)) /\
     (List.length recs <= 5)%nat /\
     (List.length (filter is_featured recs) <= 1)%nat /\
     (forall r0 rest, rows = r0 :: rest -> has_name r0 = true ->
        exists e tl, recs = e :: tl /\ rec_entry 0 r0 = Some e /\
                     is_featured e = true /\ filter is_featured tl = [])) /\
  map is_featured (recommendations_of (db4_of_rows three_rows)) =
    [true; false; false].
Proof.
  split; [|vm_compute; reflexivity].
  intros rows recs. subst recs. rewrite db4_recs.
  split; [reflexivity|]. split.
  { unfold indexed. etransitivity; [apply flat_map_opt_length|].
    rewrite length_combine, length_seq, Nat.min_id, length_firstn. lia. }
  destruct rows as [|r0 rest]; [split; [simpl; lia | intros; discriminate]|].
  change (indexed (firstn 5 (r0 :: rest)))
    with ((0%nat, r0) :: combine (seq 1 (List.length (firstn 4 rest))) (firstn 4 rest)).
  cbn [flat_map fst snd]. split.
  - rewrite filter_app, later_rows_not_featured, app_nil_r.
    destruct (rec_entry 0 r0); simpl; [destruct (is_featured j); simpl; lia | lia].
  - intros r0' rest' [= <- <-] Hname.
    destruct (rec_entry_some 0 r0 Hname) as [e He]. rewrite He.
    exists e. eexists. split; [reflexivity|]. split; [reflexivity|]. split.
    + rewrite (rec_entry_featured _ _ _ He). reflexivity.
    + apply later_rows_not_featured.
Qed.

Lemma recommendations_featured_witness :
  exists e tl, recommendations_of (db4_of_rows three_rows) = e :: tl /\
    rec_entry 0 (rec_row (u "삼성전자") (u "A+") (u "중기")) = Some e /\
    is_featured e = true /\ filter is_featured tl = [].
Proof.
  destruct recommendations_featured as (H & _).
  destruct (H three_rows) as (_ & _ & _ & Hfirst).
  apply (Hfirst _ _ eq_refl). reflexivity.
Defined.

(** C1, as worded, fails: a row with an empty name in front takes the
    index 0, so the named row behind it is emitted without being
    featured; and five such rows use up the cap. *)
Lemma recommendations_featured_counterexample :
  existsb has_name blank_first_rows = true /\
  map is_featured (recommendations_of (db4_of_rows blank_first_rows)) = [false] /\
  recommendations_of
    (db4_of_rows (repeat (rec_row [] [] []) 5 ++ [rec_row (u "NAVER") [] []])) = [].
Proof. repeat split; vm_compute; reflexivity. Qed.

(** ** Date-scoped queries *)

Section Paging.
Context {St : Type}.
Variable n_post : St -> pystr -> query_body -> result query_page * St.

Lemma query_loop_serves (db_id : pystr) (st : St) (body : query_body)
  (ps : list query_page) (st' : St) :
  serves n_post db_id st body ps st' ->
  forall (fuel : nat) (body0 : query_body) (cursor : option pystr) (rows : list row),
    (List.length ps <= fuel)%nat ->
    next_request body0 cursor = body ->
    query_loop n_post fuel db_id body0 rows cursor st =
    (Done (rows ++ List.concat (map qp_results ps)), st').
Proof.
  induction 1 as [st body p st' Hp Hlast
                 |st body p st' ps st'' Hp Hmore Hrest IH];
    intros fuel body0 cursor rows Hfuel Hbody.
  - destruct fuel as [|fuel]; [simpl in Hfuel; lia|].
    simpl. rewrite Hbody. unfold bind, call. rewrite Hp, Hlast. simpl.
    rewrite app_nil_r. reflexivity.
  - destruct fuel as [|fuel]; [simpl in Hfuel; lia|].
    simpl. rewrite Hbody. unfold bind, call. rewrite Hp, Hmore.
    cbv beta iota delta [negb].
    rewrite (IH fuel body (qp_next_cursor p) (rows ++ qp_results p)).
    + rewrite <- app_assoc. reflexivity.
    + simpl in Hfuel. lia.
    + reflexivity.
Qed.

End Paging.

(** C3 (as amended).  In exact-equals mode, query_by_date follows the
    pagination cursors, each further request carrying the cursor of the
    page before, until a page reports no further pages, and returns the
    rows of all pages concatenated in order, each once; three pages with
    has_more true, true, false give the rows of all three.  The substring-contains query of the news
    table is a single request: it returns the rows of the first page
    whatever that page reports. *)
Theorem query_by_date_follows_cursors :
  (forall (St : Type) (n_post : St -> pystr -> query_body -> result query_page * St)
          (db_id : pystr) (date_col : string) (today : pystr)
          (st st' : St) (ps : list query_page) (fuel : nat),
     serves n_post db_id st (date_body date_col today) ps st' ->
     (List.length ps <= fuel)%nat ->
     query_by_date n_post fuel db_id date_col today st =
     (Done (List.concat (map qp_results ps)), st')) /\
  query_by_date paged_post 3 (u "db") "날짜" (u "2026-02-20") 0%nat =
    (Done (qp_results page1 ++ qp_results page2 ++ qp_results page3), 3%nat) /\
  (forall (St : Type) (n_post : St -> pystr -> query_body -> result query_page * St)
          (db_id today : pystr) (st st' : St) (p : query_page),
     n_post st db_id (news_body today) = (Ok p, st') ->
     news_query n_post db_id today st = (Some (qp_results p), st')).
Proof.
  split; [|split].
  - intros St n_post db_id date_col today st st' ps fuel Hs Hfuel.
    unfold query_by_date.
    apply (query_loop_serves n_post db_id st _ ps st' Hs fuel _ None []);
      [exact Hfuel | reflexivity].
  - vm_compute. reflexivity.
  - intros St n_post db_id today st st' p Hp.
    unfold news_query. rewrite Hp. reflexivity.
Qed.

Lemma paged_post_serves :
  serves paged_post (u "db") 0%nat (date_body "날짜" (u "2026-02-20"))
    [page1; page2; page3] 3%nat.
Proof.
  eapply serves_more; [reflexivity | reflexivity |].
  eapply serves_more; [reflexivity | reflexivity |].
  apply serves_last; reflexivity.
Defined.

Lemma query_by_date_follows_cursors_witness :
  query_by_date paged_post 3 (u "db") "날짜" (u "2026-02-20") 0%nat =
    (Done (List.concat (map qp_results [page1; page2; page3])), 3%nat) /\
  news_query paged_post (u "db") (u "2026-02-20") 0%nat =
    (Some (qp_results page1), 1%nat).
Proof.
  destruct query_by_date_follows_cursors as (Hexact & _ & Hnews). split.
  - apply (Hexact nat paged_post (u "db") "날짜"%string (u "2026-02-20") 0%nat 3%nat
             [page1; page2; page3] 3%nat paged_post_serves).
    simpl. lia.
  - apply (Hnews nat paged_post (u "db") (u "2026-02-20") 0%nat 1%nat page1).
    reflexivity.
Defined.

(** C3, as worded, fails for the substring-contains mode: the news
    query stops after the first page although it reports more. *)
Lemma news_query_counterexample :
  qp_has_more page1 = true /\
  fst (news_query paged_post (u "db") (u "2026-02-20") 0%nat)
    = Some (qp_results page1) /\
  fst (news_query paged_post (u "db") (u "2026-02-20") 0%nat)
    <> Some (qp_results page1 ++ qp_results page2 ++ qp_results page3).
Proof. repeat split; vm_compute; discriminate. Qed.

(** ** Shapes of the normalisers' results *)

Lemma forallb_flat_map_opt {A} (t : json -> bool) (entry : A -> option json)
  (l : list A) :
  (forall x j, entry x = Some j -> t j = true) ->
  forallb t (flat_map (fun x => opt_list (entry x)) l) = true.
Proof.
  intros H. induction l as [|x r IH]; simpl; [reflexivity|].
  rewrite forallb_app, IH, andb_true_r.
  destruct (entry x) as [j|] eqn:E; simpl; [|reflexivity].
  rewrite (H x j E). reflexivity.
Qed.

Lemma sector_entry_typed (parts : list pystr) (j : json) :
  sector_entry parts = Some j -> SectorMove j = true.
Proof.
  unfold sector_entry. destruct (_ && _)%bool; [|discriminate].
  intros [= <-]. reflexivity.
Qed.

Lemma stock_entry_typed (parts : list pystr) (j : json) :
  stock_entry parts = Some j -> StockHighlight j = true.
Proof.
  unfold stock_entry. destruct (_ && _)%bool; [|discriminate].
  intros [= <-]. reflexivity.
Qed.

Lemma news_entry_typed (line : pystr) (j : json) :
  news_entry line = Some j -> NewsItem j = true.
Proof.
  unfold news_entry. destruct (nonempty _); [|discriminate].
  intros [= <-]. reflexivity.
Qed.

Lemma rec_entry_typed (i : nat) (r : row) (j : json) :
  rec_entry i r = Some j -> Recommendation j = true.
Proof.
  unfold rec_entry. destruct (negb _); [discriminate|].
  intros [= <-]. reflexivity.
Qed.

Lemma forallb_is_str_map (l : list pystr) : forallb is_str (map JStr l) = true.
Proof. induction l; simpl; auto. Qed.

Lemma db1_shape (rows : list row) :
  exists s m, db1_of_rows rows =
              [("summary", JList (map JStr s)); ("market_strength", JStr m)].
Proof.
  destruct rows as [|r rest].
  - exists [], []. reflexivity.
  - do 2 eexists. reflexivity.
Qed.

Lemma db2_shape (rows : list row) :
  exists a b, db2_of_rows rows = [("sectors", JList a); ("stocks", JList b)] /\
              forallb SectorMove a = true /\ forallb StockHighlight b = true.
Proof.
  destruct rows as [|r rest].
  - exists [], []. repeat split.
  - do 2 eexists. split; [reflexivity|].
    rewrite !append_loop_spec. simpl app. split.
    + apply forallb_flat_map_opt. exact sector_entry_typed.
    + apply forallb_flat_map_opt. exact stock_entry_typed.
Qed.

Lemma db3_shape (rows : list row) :
  exists n, db3_of_rows rows = [("news", JList n)] /\
            forallb NewsItem n = true.
Proof.
  destruct rows as [|r rest].
  - exists []. split; reflexivity.
  - unfold db3_of_rows. destruct (negb _).
    + exists []. split; reflexivity.
    + eexists. split; [reflexivity|].
      rewrite append_loop_spec. simpl app.
      apply forallb_flat_map_opt. exact news_entry_typed.
Qed.

Lemma db4_shape (rows : list row) :
  exists rc, db4_of_rows rows = [("recommendations", JList rc)] /\
             forallb Recommendation rc = true.
Proof.
  destruct rows as [|r rest].
  - exists []. split; reflexivity.
  - exists (recs_loop 0 (firstn 5 (r :: rest)) []). split; [reflexivity|].
    rewrite recs_loop_spec. cbn [app].
    apply (forallb_flat_map_opt Recommendation
             (fun ir => rec_entry (fst ir) (snd ir))).
    intros [i x] j. apply rec_entry_typed.
Qed.

(** ** The document-store phase *)

Section RunFacts.
Context {St : Type}.
Variable n_get : St -> pystr -> option pystr -> result children_page * St.
Variable n_post : St -> pystr -> query_body -> result query_page * St.
Variable yahoo : St -> pystr -> result chart_meta * St.

Lemma fetch_notion_inv (fuel : nat) (e : env) (st st' : St) (r : dict) :
  fetch_notion n_get n_post fuel e st = (Done r, st') ->
  exists dbs s1 r1 s2 r2 s3 r3 s4 r4,
    get_child_dbs n_get fuel (NOTION_PAGE_ID e) st = (Done dbs, s1) /\
    (if (1 <=? List.length dbs)%nat
     then parse_db1 n_post fuel (nth_db_id dbs 0) (today_str e)
     else ret db1_empty) s1 = (Done r1, s2) /\
    (if (2 <=? List.length dbs)%nat
     then parse_db2 n_post fuel (nth_db_id dbs 1) (today_str e)
     else ret db2_empty) s2 = (Done r2, s3) /\
    (if (3 <=? List.length dbs)%nat
     then parse_db3 n_post (nth_db_id dbs 2) (today_str e)
     else ret db3_empty) s3 = (Done r3, s4) /\
    (if (4 <=? List.length dbs)%nat
     then parse_db4 n_post fuel (nth_db_id dbs 3) (today_str e)
     else ret [("recommendations", JList _sample_rec)]) s4 = (Done r4, st') /\
    r = dict_update (dict_update (dict_update (dict_update [] r1) r2) r3) r4.
Proof.
  unfold fetch_notion, bind.
  destruct (get_child_dbs n_get fuel (NOTION_PAGE_ID e) st) as [[dbs|x|] s1];
    try discriminate.
  match goal with
  | |- context [ (if ?c then ?a else ?b) s1 ] =>
      destruct ((if c then a else b) s1) as [[r1|x|] s2] eqn:E1
  end; try discriminate.
  match goal with
  | |- context [ (if ?c then ?a else ?b) s2 ] =>
      destruct ((if c then a else b) s2) as [[r2|x|] s3] eqn:E2
  end; try discriminate.
  match goal with
  | |- context [ (if ?c then ?a else ?b) s3 ] =>
      destruct ((if c then a else b) s3) as [[r3|x|] s4] eqn:E3
  end; try discriminate.
  match goal with
  | |- context [ (if ?c then ?a else ?b) s4 ] =>
      destruct ((if c then a else b) s4) as [[r4|x|] s5] eqn:E4
  end; try discriminate.
  unfold ret. intros [= <- <-].
  exists dbs, s1, r1, s2, r2, s3, r3, s4, r4. repeat split; assumption.
Qed.

Lemma parse_db1_done fuel id today (st st' : St) r :
  parse_db1 n_post fuel id today st = (Done r, st') ->
  exists rows, r = db1_of_rows rows.
Proof.
  unfold parse_db1, bind, ret.
  destruct (query_by_date _ _ _ _ _ _) as [[rows|x|] s]; try discriminate.
  intros [= <- _]. exists rows. reflexivity.
Qed.

Lemma parse_db2_done fuel id today (st st' : St) r :
  parse_db2 n_post fuel id today st = (Done r, st') ->
  exists rows, r = db2_of_rows rows.
Proof.
  unfold parse_db2, bind, ret.
  destruct (query_by_date _ _ _ _ _ _) as [[rows|x|] s]; try discriminate.
  intros [= <- _]. exists rows. reflexivity.
Qed.

Lemma parse_db3_done id today (st st' : St) r :
  parse_db3 n_post id today st = (Done r, st') ->
  exists rows, r = db3_of_rows rows.
Proof.
  unfold parse_db3. destruct (news_query _ _ _ _) as [[rows|] s].
  - intros [= <- _]. exists rows. reflexivity.
  - intros [= <- _]. exists []. reflexivity.
Qed.

Lemma parse_db4_done fuel id today (st st' : St) r :
  parse_db4 n_post fuel id today st = (Done r, st') ->
  exists rows, r = db4_of_rows rows.
Proof.
  unfold parse_db4, bind, ret.
  destruct (query_by_date _ _ _ _ _ _) as [[rows|x|] s]; try discriminate.
  intros [= <- _]. exists rows. reflexivity.
Qed.

(** What fetch_notion returns whenever it returns: the six keys in
    order, the first three tables' parts being those of their
    normalisers on some rows. *)
Lemma fetch_notion_parts (fuel : nat) (e : env) (st st' : St) (r : dict) :
  fetch_notion n_get n_post fuel e st = (Done r, st') ->
  exists rows1 rows2 rows3 rc,
    r = dict_update (dict_update (dict_update (dict_update []
          (db1_of_rows rows1)) (db2_of_rows rows2)) (db3_of_rows rows3))
          [("recommendations", JList rc)] /\
    forallb Recommendation rc = true.
Proof.
  intros H. apply fetch_notion_inv in H.
  destruct H as (dbs & s1 & r1 & s2 & r2 & s3 & r3 & s4 & r4 &
                 _ & H1 & H2 & H3 & H4 & ->).
  assert (exists rows, r1 = db1_of_rows rows) as [rows1 ->].
  { destruct (1 <=? _)%nat; [eapply parse_db1_done; exact H1|].
    injection H1 as <- _. exists []. reflexivity. }
  assert (exists rows, r2 = db2_of_rows rows) as [rows2 ->].
  { destruct (2 <=? _)%nat; [eapply parse_db2_done; exact H2|].
    injection H2 as <- _. exists []. reflexivity. }
  assert (exists rows, r3 = db3_of_rows rows) as [rows3 ->].
  { destruct (3 <=? _)%nat; [eapply parse_db3_done; exact H3|].
    injection H3 as <- _. exists []. reflexivity. }
  exists rows1, rows2, rows3.
  destruct (4 <=? _)%nat.
  - apply parse_db4_done in H4. destruct H4 as [rows4 ->].
    destruct (db4_shape rows4) as (rc & -> & Hrc). exists rc. split; [reflexivity | exact Hrc].
  - injection H4 as <- _. exists _sample_rec. split; reflexivity.
Qed.

Lemma fetch_notion_shape (fuel : nat) (e : env) (st st' : St) (r : dict) :
  fetch_notion n_get n_post fuel e st = (Done r, st') ->
  has_shape notion_shape r = true.
Proof.
  intros H. apply fetch_notion_parts in H.
  destruct H as (rows1 & rows2 & rows3 & rc & -> & Hrc).
  destruct (db1_shape rows1) as (s & m & ->).
  destruct (db2_shape rows2) as (a & b & -> & Ha & Hb).
  destruct (db3_shape rows3) as (n & -> & Hn).
  cbn. rewrite forallb_is_str_map, Ha, Hb, Hn, Hrc. reflexivity.
Qed.

Lemma fetch_notion_explicit (fuel : nat) (e : env) (st st' : St) (r : dict) :
  fetch_notion n_get n_post fuel e st = (Done r, st') ->
  exists s m a b n rc,
    r = [("summary", JList (map JStr s)); ("market_strength", JStr m);
         ("sectors", JList a); ("stocks", JList b);
         ("news", JList n); ("recommendations", JList rc)] /\
    forallb SectorMove a = true /\ forallb StockHighlight b = true /\
    forallb NewsItem n = true /\ forallb Recommendation rc = true.
Proof.
  intros H. apply fetch_notion_parts in H.
  destruct H as (rows1 & rows2 & rows3 & rc & -> & Hrc).
  destruct (db1_shape rows1) as (s & m & ->).
  destruct (db2_shape rows2) as (a & b & -> & Ha & Hb).
  destruct (db3_shape rows3) as (n & -> & Hn).
  exists s, m, a, b, n, rc. repeat split; assumption.
Qed.

(** ** The market feed *)

Lemma quote_of_meta_typed (meta : chart_meta) (dec : nat) (q : dict) :
  quote_of_meta meta dec = Ok q -> IndexQuote (JDict q) = true.
Proof.
  unfold quote_of_meta, rbind.
  repeat match goal with
         | |- context [match ?x with Ok _ => _ | Err _ => _ end] =>
             destruct x; try discriminate
         end.
  intros [= <-]. reflexivity.
Qed.

Lemma fetch_yahoo_typed (symbol : pystr) (dec : nat) (st : St) :
  IndexQuote (JDict (fst (fetch_yahoo yahoo symbol dec st))) = true.
Proof.
  unfold fetch_yahoo. destruct (yahoo st symbol) as [[meta|x] s]; [|reflexivity].
  destruct (quote_of_meta meta dec) eqn:E; [|reflexivity].
  simpl. exact (quote_of_meta_typed _ _ _ E).
Qed.

Lemma fetch_indices_shape (st : St) :
  has_shape indices_shape (fst (fetch_indices yahoo st)) = true.
Proof.
  unfold fetch_indices, TARGETS. cbn [fetch_indices_loop].
  repeat match goal with
         | |- context [fetch_yahoo yahoo ?s ?d ?x] =>
             let H := fresh "H" in
             pose proof (fetch_yahoo_typed s d x) as H;
             destruct (fetch_yahoo yahoo s d x) as [? ?];
             cbn [fst] in H
         end.
  cbn [fst dict_set String.eqb Ascii.eqb Bool.eqb has_shape indices_shape andb].
  repeat match goal with H : IndexQuote _ = true |- _ => rewrite H; clear H end.
  reflexivity.
Qed.

(** ** main *)

Lemma main_never_raises (fuel : nat) (e : env) (st : St) (x : exn) :
  fst (main n_get n_post yahoo fuel e st) <> Raised x.
Proof.
  unfold main.
  destruct (nonempty (NOTION_TOKEN e) && nonempty (NOTION_PAGE_ID e))%bool.
  - destruct (fetch_notion n_get n_post fuel e st) as [[r|y|] s];
      try destruct (fetch_indices yahoo s); simpl; discriminate.
  - destruct (fetch_indices yahoo st); simpl; discriminate.
Qed.

Lemma sample_document (e : env) (idx : dict) :
  has_shape indices_shape idx = true ->
  OutputDocument
    (dict_set "indices" (JDict idx)
       (dict_update [("updated_at", JStr (now_utc_iso e));
                     ("updated_kst", JStr (now_kst e))] SAMPLE_NOTION)) = true.
Proof.
  intros H.
  change (andb (has_shape indices_shape idx) true = true).
  rewrite H. reflexivity.
Qed.

Lemma main_schema (fuel : nat) (e : env) (st st' : St) (doc : dict) :
  main n_get n_post yahoo fuel e st = (Done doc, st') ->
  OutputDocument doc = true.
Proof.
  unfold main.
  destruct (nonempty (NOTION_TOKEN e) && nonempty (NOTION_PAGE_ID e))%bool.
  - destruct (fetch_notion n_get n_post fuel e st) as [[r|y|] s] eqn:E.
    + pose proof (fetch_indices_shape s) as Hidx.
      destruct (fetch_indices yahoo s) as [idx s2]. cbn [fst] in Hidx.
      intros [= <- _].
      apply fetch_notion_explicit in E.
      destruct E as (sm & m & a & b & n & rc & -> & Ha & Hb & Hn & Hrc).
      cbn -[indices_shape].
      rewrite forallb_is_str_map, Ha, Hb, Hn, Hrc, Hidx. reflexivity.
    + pose proof (fetch_indices_shape s) as Hidx.
      destruct (fetch_indices yahoo s) as [idx s2]. cbn [fst] in Hidx.
      intros [= <- _]. apply sample_document. exact Hidx.
    + discriminate.
  - pose proof (fetch_indices_shape st) as Hidx.
    destruct (fetch_indices yahoo st) as [idx s2]. cbn [fst] in Hidx.
    intros [= <- _]. apply sample_document. exact Hidx.
Qed.

End RunFacts.

(** ** Termination: a provider that serves finitely many continuation
    pages *)

Section Termination.
Context {St : Type}.
Variable n_get : St -> pystr -> option pystr -> result children_page * St.
Variable n_post : St -> pystr -> query_body -> result query_page * St.
Variable yahoo : St -> pystr -> result chart_meta * St.

(** [budget st] bounds the pages with [has_more] still to come. *)
Variable budget : St -> nat.
Hypothesis get_budget :
  forall st pid c, (budget (snd (n_get st pid c)) <= budget st)%nat.
Hypothesis get_more :
  forall st pid c p st',
    n_get st pid c = (Ok p, st') -> cp_has_more p = true ->
    (budget st' < budget st)%nat.
Hypothesis post_budget :
  forall st id b, (budget (snd (n_post st id b)) <= budget st)%nat.
Hypothesis post_more :
  forall st id b p st',
    n_post st id b = (Ok p, st') -> qp_has_more p = true ->
    (budget st' < budget st)%nat.

Lemma query_loop_total (fuel : nat) :
  forall st db_id body rows cursor,
    (budget st < fuel)%nat ->
    exists o st',
      query_loop n_post fuel db_id body rows cursor st = (o, st') /\
      o <> Diverged /\ (budget st' <= budget st)%nat.
Proof.
  induction fuel as [|fuel IH]; intros st db_id body rows cursor Hlt; [lia|].
  simpl. unfold bind, call.
  set (b := next_request body cursor).
  pose proof (post_budget st db_id b) as Hle.
  destruct (n_post st db_id b) as [[p|x] s] eqn:E; cbn [snd] in Hle.
  - destruct (qp_has_more p) eqn:Hm; cbn [negb].
    + pose proof (post_more _ _ _ _ _ E Hm) as Hdec.
      destruct (IH s db_id b (rows ++ qp_results p) (qp_next_cursor p))
        as (o & s' & -> & Ho & Hs'); [lia|].
      exists o, s'. repeat split; [exact Ho | lia].
    + eexists _, s. repeat split; [discriminate | exact Hle].
  - eexists _, s. repeat split; [discriminate | exact Hle].
Qed.

Lemma get_child_dbs_loop_total (fuel : nat) :
  forall st page_id dbs cursor,
    (budget st < fuel)%nat ->
    exists o st',
      get_child_dbs_loop n_get fuel page_id dbs cursor st = (o, st') /\
      o <> Diverged /\ (budget st' <= budget st)%nat.
Proof.
  induction fuel as [|fuel IH]; intros st page_id dbs cursor Hlt; [lia|].
  simpl. unfold bind, call.
  pose proof (get_budget st page_id (cursor_truthy cursor)) as Hle.
  destruct (n_get st page_id (cursor_truthy cursor)) as [[p|x] s] eqn:E;
    cbn [snd] in Hle.
  - destruct (cp_has_more p) eqn:Hm; cbn [negb].
    + pose proof (get_more _ _ _ _ _ E Hm) as Hdec.
      destruct (IH s page_id (dbs ++ flat_map child_db_of (cp_results p))
                  (cp_next_cursor p))
        as (o & s' & -> & Ho & Hs'); [lia|].
      exists o, s'. repeat split; [exact Ho | lia].
    + eexists _, s. repeat split; [discriminate | exact Hle].
  - eexists _, s. repeat split; [discriminate | exact Hle].
Qed.

Lemma bind_ret_total {A B} (m : M St A) (f : A -> B) (st : St) (bound : nat) :
  (exists o st', m st = (o, st') /\ o <> Diverged /\ (budget st' <= bound)%nat) ->
  exists o st', bind m (fun a => ret (f a)) st = (o, st') /\
                o <> Diverged /\ (budget st' <= bound)%nat.
Proof.
  intros (o & st' & E & Ho & Hb). unfold bind, ret. rewrite E.
  destruct o as [a|x|]; [| |congruence];
    eexists _, st'; repeat split; try discriminate; exact Hb.
Qed.

Lemma parse_db1_total fuel id today st :
  (budget st < fuel)%nat ->
  exists o st', parse_db1 n_post fuel id today st = (o, st') /\
                o <> Diverged /\ (budget st' <= budget st)%nat.
Proof.
  intros H. apply bind_ret_total. apply query_loop_total. exact H.
Qed.

Lemma parse_db2_total fuel id today st :
  (budget st < fuel)%nat ->
  exists o st', parse_db2 n_post fuel id today st = (o, st') /\
                o <> Diverged /\ (budget st' <= budget st)%nat.
Proof.
  intros H. apply bind_ret_total. apply query_loop_total. exact H.
Qed.

Lemma parse_db4_total fuel id today st :
  (budget st < fuel)%nat ->
  exists o st', parse_db4 n_post fuel id today st = (o, st') /\
                o <> Diverged /\ (budget st' <= budget st)%nat.
Proof.
  intros H. apply bind_ret_total. apply query_loop_total. exact H.
Qed.

Lemma parse_db3_total id today st :
  exists r st', parse_db3 n_post id today st = (Done r, st') /\
                (budget st' <= budget st)%nat.
Proof.
  unfold parse_db3, news_query.
  pose proof (post_budget st id (news_body today)) as Hle.
  destruct (n_post st id (news_body today)) as [[p|x] s]; cbn [snd] in Hle;
    eexists _, s; split; try reflexivity; exact Hle.
Qed.

Lemma fetch_notion_total (fuel : nat) (e : env) (st : St) :
  (budget st < fuel)%nat ->
  fst (fetch_notion n_get n_post fuel e st) <> Diverged.
Proof.
  intros Hlt. unfold fetch_notion, get_child_dbs.
  unfold bind at 1.
  destruct (get_child_dbs_loop_total fuel st (NOTION_PAGE_ID e) [] None Hlt)
    as (o & s1 & -> & Ho & H1).
  destruct o as [dbs|x|]; [|simpl; discriminate|congruence].
  unfold bind at 1.
  assert (exists o s2,
    (if (1 <=? List.length dbs)%nat
     then parse_db1 n_post fuel (nth_db_id dbs 0) (today_str e)
     else ret db1_empty) s1 = (o, s2) /\ o <> Diverged /\
    (budget s2 <= budget s1)%nat) as (o1 & s2 & -> & Ho1 & H2).
  { destruct (1 <=? _)%nat; [apply parse_db1_total; lia|].
    eexists _, s1. repeat split; [discriminate | lia]. }
  destruct o1 as [r1|x|]; [|simpl; discriminate|congruence].
  unfold bind at 1.
  assert (exists o s3,
    (if (2 <=? List.length dbs)%nat
     then parse_db2 n_post fuel (nth_db_id dbs 1) (today_str e)
     else ret db2_empty) s2 = (o, s3) /\ o <> Diverged /\
    (budget s3 <= budget s2)%nat) as (o2 & s3 & -> & Ho2 & H3).
  { destruct (2 <=? _)%nat; [apply parse_db2_total; lia|].
    eexists _, s2. repeat split; [discriminate | lia]. }
  destruct o2 as [r2|x|]; [|simpl; discriminate|congruence].
  unfold bind at 1.
  assert (exists r3 s4,
    (if (3 <=? List.length dbs)%nat
     then parse_db3 n_post (nth_db_id dbs 2) (today_str e)
     else ret db3_empty) s3 = (Done r3, s4) /\
    (budget s4 <= budget s3)%nat) as (r3 & s4 & -> & H4).
  { destruct (3 <=? _)%nat; [apply parse_db3_total|].
    eexists _, s3. split; [reflexivity | lia]. }
  unfold bind at 1.
  assert (exists o s5,
    (if (4 <=? List.length dbs)%nat
     then parse_db4 n_post fuel (nth_db_id dbs 3) (today_str e)
     else ret [("recommendations", JList _sample_rec)]) s4 = (o, s5) /\
    o <> Diverged /\
    (budget s5 <= budget s4)%nat) as (o4 & s5 & -> & Ho4 & H5).
  { destruct (4 <=? _)%nat; [apply parse_db4_total; lia|].
    eexists _, s4. repeat split; [discriminate | lia]. }
  destruct o4 as [r4|x|]; [|simpl; discriminate|congruence].
  simpl. discriminate.
Qed.

Lemma main_total (e : env) (st : St) :
  exists doc st',
    main n_get n_post yahoo (S (budget st)) e st = (Done doc, st').
Proof.
  pose proof (fetch_notion_total (S (budget st)) e st (Nat.lt_succ_diag_r _)) as Hn.
  unfold main.
  destruct (nonempty (NOTION_TOKEN e) && nonempty (NOTION_PAGE_ID e))%bool.
  - destruct (fetch_notion n_get n_post (S (budget st)) e st) as [[r|x|] s];
      [| |simpl in Hn; congruence];
      destruct (fetch_indices yahoo s); eexists _, _; reflexivity.
  - destruct (fetch_indices yahoo st); eexists _, _; reflexivity.
Qed.

End Termination.

(** C4.  Whatever the services answer, a document main writes has the
    nine top-level keys updated_at, updated_kst, summary,
    market_strength, sectors, stocks, news, recommendations and indices,
    each of its type; main writes one whenever the provider serves
    finitely many continuation pages; and when every remote call fails
    the document is the sample data with eight fall-back quotes. *)
Theorem output_schema_complete :
  (forall (St : Type)
          (n_get : St -> pystr -> option pystr -> result children_page * St)
          (n_post : St -> pystr -> query_body -> result query_page * St)
          (yahoo : St -> pystr -> result chart_meta * St)
          (fuel : nat) (e : env) (st st' : St) (doc : dict),
     main n_get n_post yahoo fuel e st = (Done doc, st') ->
     OutputDocument doc = true) /\
  (forall (St : Type)
          (n_get : St -> pystr -> option pystr -> result children_page * St)
          (n_post : St -> pystr -> query_body -> result query_page * St)
          (yahoo : St -> pystr -> result chart_meta * St)
          (budget : St -> nat),
     (forall st pid c, (budget (snd (n_get st pid c)) <= budget st)%nat) ->
     (forall st pid c p st',
        n_get st pid c = (Ok p, st') -> cp_has_more p = true ->
        (budget st' < budget st)%nat) ->
     (forall st id b, (budget (snd (n_post st id b)) <= budget st)%nat) ->
     (forall st id b p st',
        n_post st id b = (Ok p, st') -> qp_has_more p = true ->
        (budget st' < budget st)%nat) ->
     forall (e : env) (st : St),
     exists doc st',
       main n_get n_post yahoo (S (budget st)) e st = (Done doc, st') /\
       OutputDocument doc = true) /\
  (forall (fuel : nat) (e : env),
     main failing_get failing_post failing_yahoo (S fuel) e tt =
       (Done (total_failure_document e), tt) /\
     OutputDocument (total_failure_document e) = true).
Proof.
  split; [|split].
  - intros St n_get n_post yahoo fuel e st st' doc H.
    exact (main_schema n_get n_post yahoo fuel e st st' doc H).
  - intros St n_get n_post yahoo budget H1 H2 H3 H4 e st.
    destruct (main_total n_get n_post yahoo budget H1 H2 H3 H4 e st)
      as (doc & st' & E).
    exists doc, st'. split; [exact E|].
    exact (main_schema n_get n_post yahoo _ e st st' doc E).
  - intros fuel e. split; [|reflexivity].
    unfold main, fetch_notion, get_child_dbs. simpl get_child_dbs_loop.
    destruct (nonempty (NOTION_TOKEN e) && nonempty (NOTION_PAGE_ID e))%bool;
      reflexivity.
Qed.

Lemma output_schema_complete_witness :
  OutputDocument (total_failure_document env_fixture) = true /\
  exists doc st',
    main failing_get failing_post failing_yahoo 1 env_fixture tt = (Done doc, st') /\
    OutputDocument doc = true.
Proof.
  destruct output_schema_complete as (Hpartial & Htotal & Hfail). split.
  - apply (Hpartial unit failing_get failing_post failing_yahoo 1%nat
             env_fixture tt tt).
    apply (Hfail 0%nat env_fixture).
  - apply (Htotal unit failing_get failing_post failing_yahoo (fun _ => 0%nat)).
    + intros; simpl; lia.
    + intros st pid c p st' H; discriminate H.
    + intros; simpl; lia.
    + intros st id b p st' H; discriminate H.
Defined.

(** ** Missing tables *)

Section Stages.
Context {St : Type}.
Variable n_get : St -> pystr -> option pystr -> result children_page * St.
Variable n_post : St -> pystr -> query_body -> result query_page * St.

(** The parts of a result of fetch_notion, table by table. *)
Lemma fetch_notion_stages (fuel : nat) (e : env) (st st' : St) (r : dict) :
  fetch_notion n_get n_post fuel e st = (Done r, st') ->
  exists dbs s1 rows1 rows2 rows3 r4,
    get_child_dbs n_get fuel (NOTION_PAGE_ID e) st = (Done dbs, s1) /\
    r = dict_update (dict_update (dict_update (dict_update []
          (db1_of_rows rows1)) (db2_of_rows rows2)) (db3_of_rows rows3)) r4 /\
    ((List.length dbs < 1)%nat -> rows1 = []) /\
    ((List.length dbs < 2)%nat -> rows2 = []) /\
    ((List.length dbs < 3)%nat -> rows3 = []) /\
    ((List.length dbs < 4)%nat -> r4 = [("recommendations", JList _sample_rec)]) /\
    ((4 <= List.length dbs)%nat -> exists rows4, r4 = db4_of_rows rows4).
Proof.
  intros H. apply fetch_notion_inv in H.
  destruct H as (dbs & s1 & r1 & s2 & r2 & s3 & r3 & s4 & r4 &
                 Hd & H1 & H2 & H3 & H4 & ->).
  exists dbs, s1.
  assert (exists rows, r1 = db1_of_rows rows /\
                       ((List.length dbs < 1)%nat -> rows = []))
    as (rows1 & -> & Hr1).
  { destruct (Nat.leb_spec 1 (List.length dbs)).
    - apply parse_db1_done in H1. destruct H1 as [rows ->].
      exists rows. split; [reflexivity | lia].
    - injection H1 as <- _. exists []. split; reflexivity. }
  assert (exists rows, r2 = db2_of_rows rows /\
                       ((List.length dbs < 2)%nat -> rows = []))
    as (rows2 & -> & Hr2).
  { destruct (Nat.leb_spec 2 (List.length dbs)).
    - apply parse_db2_done in H2. destruct H2 as [rows ->].
      exists rows. split; [reflexivity | lia].
    - injection H2 as <- _. exists []. split; reflexivity. }
  assert (exists rows, r3 = db3_of_rows rows /\
                       ((List.length dbs < 3)%nat -> rows = []))
    as (rows3 & -> & Hr3).
  { destruct (Nat.leb_spec 3 (List.length dbs)).
    - apply parse_db3_done in H3. destruct H3 as [rows ->].
      exists rows. split; [reflexivity | lia].
    - injection H3 as <- _. exists []. split; reflexivity. }
  exists rows1, rows2, rows3, r4.
  split; [exact Hd|]. split; [reflexivity|].
  split; [exact Hr1|]. split; [exact Hr2|]. split; [exact Hr3|].
  destruct (Nat.leb_spec 4 (List.length dbs)).
  - split; [lia|]. intros _. eapply parse_db4_done. exact H4.
  - injection H4 as <- _. split; [reflexivity | lia].
Qed.

End Stages.

(** C5 (as amended).  When table discovery yields fewer than four
    tables and the document-store phase completes, every table that was
    discovered is queried and normalised as usual, in order: the result
    is the normalisers' results on the tables found, one after the other,
    followed by the static sample recommendation set exactly.  A table
    that was not discovered is not queried and yields its typed-empty
    result, never sample data.  So with exactly three tables the
    recommendations are the sample set and the other lists are the three
    normalisers' results, which are empty when the tables hold no row for
    today. *)
Theorem missing_tables_fallback :
  (forall (St : Type)
          (n_get : St -> pystr -> option pystr -> result children_page * St)
          (n_post : St -> pystr -> query_body -> result query_page * St)
          (fuel : nat) (e : env) (st s1 st' : St) (dbs : list db) (r : dict),
     get_child_dbs n_get fuel (NOTION_PAGE_ID e) st = (Done dbs, s1) ->
     (List.length dbs < 4)%nat ->
     fetch_notion n_get n_post fuel e st = (Done r, st') ->
     (exists r1 s2 r2 s3 r3,
        r = r1 ++ r2 ++ r3 ++ [("recommendations", JList _sample_rec)] /\
        (* the daily-summary table *)
        ((1 <= List.length dbs)%nat ->
           parse_db1 n_post fuel (nth_db_id dbs 0) (today_str e) s1 = (Done r1, s2)) /\
        ((List.length dbs < 1)%nat -> r1 = db1_empty /\ s2 = s1) /\
        (* the sector/highlights table *)
        ((2 <= List.length dbs)%nat ->
           parse_db2 n_post fuel (nth_db_id dbs 1) (today_str e) s2 = (Done r2, s3)) /\
        ((List.length dbs < 2)%nat -> r2 = db2_empty /\ s3 = s2) /\
        (* the news table *)
        ((3 <= List.length dbs)%nat ->
           parse_db3 n_post (nth_db_id dbs 2) (today_str e) s3 = (Done r3, st')) /\
        ((List.length dbs < 3)%nat -> r3 = db3_empty /\ st' = s3)) /\
     dict_get "recommendations" r = Some (JList _sample_rec) /\
     ((List.length dbs < 3)%nat -> dict_get "news" r = Some (JList [])) /\
     ((List.length dbs < 2)%nat ->
        dict_get "sectors" r = Some (JList []) /\
        dict_get "stocks" r = Some (JList [])) /\
     ((List.length dbs < 1)%nat ->
        dict_get "summary" r = Some (JList []) /\
        dict_get "market_strength" r = Some (JStr []))) /\
  fetch_notion (tables_get 3) empty_post 1 env_fixture 0%nat =
    (Done [("summary", JList []); ("market_strength", JStr []);
           ("sectors", JList []); ("stocks", JList []); ("news", JList []);
           ("recommendations", JList _sample_rec)], 4%nat).
Proof.
  split; [|vm_compute; reflexivity].
  intros St n_get n_post fuel e st s1 st' dbs r Hdbs Hlen H.
  split.
  - apply fetch_notion_inv in H.
    destruct H as (dbs' & s1' & r1 & s2 & r2 & s3 & r3 & s4 & r4 &
                   Hd & H1 & H2 & H3 & H4 & ->).
    rewrite Hdbs in Hd. injection Hd as <- <-.
    assert (L4 : (4 <=? List.length dbs)%nat = false) by (apply Nat.leb_gt; lia).
    rewrite L4 in H4. injection H4 as <- <-.
    exists r1, s2, r2, s3, r3.
    assert (S1 : exists rows, r1 = db1_of_rows rows).
    { destruct (Nat.leb_spec 1 (List.length dbs)).
      - eapply parse_db1_done. exact H1.
      - injection H1 as <- _. exists []. reflexivity. }
    assert (S2 : exists rows, r2 = db2_of_rows rows).
    { destruct (Nat.leb_spec 2 (List.length dbs)).
      - eapply parse_db2_done. exact H2.
      - injection H2 as <- _. exists []. reflexivity. }
    assert (S3 : exists rows, r3 = db3_of_rows rows).
    { destruct (Nat.leb_spec 3 (List.length dbs)).
      - eapply parse_db3_done. exact H3.
      - injection H3 as <- _. exists []. reflexivity. }
    split.
    { destruct S1 as [rows1 ->], S2 as [rows2 ->], S3 as [rows3 ->].
      destruct (db1_shape rows1) as (sm & m & ->).
      destruct (db2_shape rows2) as (a & b & -> & _).
      destruct (db3_shape rows3) as (n & -> & _). reflexivity. }
    split; [|split; [|split; [|split; [|split]]]].
    + intros Hl. apply Nat.leb_le in Hl. rewrite Hl in H1. exact H1.
    + intros Hl. apply Nat.leb_gt in Hl. rewrite Hl in H1.
      injection H1 as <- <-. split; reflexivity.
    + intros Hl. apply Nat.leb_le in Hl. rewrite Hl in H2. exact H2.
    + intros Hl. apply Nat.leb_gt in Hl. rewrite Hl in H2.
      injection H2 as <- <-. split; reflexivity.
    + intros Hl. apply Nat.leb_le in Hl. rewrite Hl in H3. exact H3.
    + intros Hl. apply Nat.leb_gt in Hl. rewrite Hl in H3.
      injection H3 as <- <-. split; reflexivity.
  - apply fetch_notion_stages in H.
    destruct H as (dbs' & s1' & rows1 & rows2 & rows3 & r4 &
                   Hd & -> & H1 & H2 & H3 & H4 & _).
    rewrite Hdbs in Hd. injection Hd as <- <-.
    rewrite (H4 Hlen).
    destruct (db1_shape rows1) as (s & m & E1).
    destruct (db2_shape rows2) as (a & b & E2 & _).
    destruct (db3_shape rows3) as (n & E3 & _).
    split; [rewrite E1, E2, E3; reflexivity|]. split; [|split].
    + intros Hl. rewrite (H3 Hl), E1, E2. reflexivity.
    + intros Hl. rewrite (H2 Hl), E1, E3. split; reflexivity.
    + intros Hl. rewrite (H1 Hl), E2, E3. split; reflexivity.
Qed.

Lemma missing_tables_fallback_witness :
  (exists r1 s2 r2 s3 r3,
     db1_of_rows [row1] ++ db2_of_rows [row2] ++ db3_of_rows [row3] ++
       [("recommendations", JList _sample_rec)] =
     r1 ++ r2 ++ r3 ++ [("recommendations", JList _sample_rec)] /\
     ((1 <= List.length (flat_map child_db_of (firstn 3 table_blocks)))%nat ->
        parse_db1 (tables_post []) 1 (nth_db_id (flat_map child_db_of (firstn 3 table_blocks)) 0)
          (today_str env_fixture) 1%nat = (Done r1, s2)) /\
     ((List.length (flat_map child_db_of (firstn 3 table_blocks)) < 1)%nat -> r1 = db1_empty /\ s2 = 1%nat) /\
     ((2 <= List.length (flat_map child_db_of (firstn 3 table_blocks)))%nat ->
        parse_db2 (tables_post []) 1 (nth_db_id (flat_map child_db_of (firstn 3 table_blocks)) 1)
          (today_str env_fixture) s2 = (Done r2, s3)) /\
     ((List.length (flat_map child_db_of (firstn 3 table_blocks)) < 2)%nat -> r2 = db2_empty /\ s3 = s2) /\
     ((3 <= List.length (flat_map child_db_of (firstn 3 table_blocks)))%nat ->
        parse_db3 (tables_post []) (nth_db_id (flat_map child_db_of (firstn 3 table_blocks)) 2)
          (today_str env_fixture) s3 = (Done r3, 4%nat)) /\
     ((List.length (flat_map child_db_of (firstn 3 table_blocks)) < 3)%nat -> r3 = db3_empty /\ 4%nat = s3)) /\
  dict_get "recommendations"
    (db1_of_rows [row1] ++ db2_of_rows [row2] ++ db3_of_rows [row3] ++
       [("recommendations", JList _sample_rec)])
  = Some (JList _sample_rec).
Proof.
  destruct missing_tables_fallback as (H & _).
  refine (let P := H nat (tables_get 3) (tables_post []) 1%nat env_fixture
                     0%nat 1%nat 4%nat (flat_map child_db_of (firstn 3 table_blocks)) _ _ _ _
          in conj (proj1 P) (proj1 (proj2 P))).
  - vm_compute. reflexivity.
  - vm_compute. repeat constructor.
  - vm_compute. reflexivity.
Defined.

(** C5, as worded, fails: with exactly three tables discovered the
    three tables found are normalised, so their lists need not be
    empty. *)
Lemma missing_tables_counterexample :
  exists r,
    fst (fetch_notion (tables_get 3) (tables_post []) 1 env_fixture 0%nat) = Done r /\
    dict_get "recommendations" r = Some (JList _sample_rec) /\
    dict_get "summary" r = Some (JList [JStr [65]; JStr [66]]) /\
    dict_get "summary" r <> Some (JList []) /\
    dict_get "news" r <> Some (JList []).
Proof.
  eexists. split; [vm_compute; reflexivity|].
  repeat split; try discriminate; vm_compute; reflexivity.
Qed.

(** ** News items *)

Lemma news_entry_blank_meta (line : pystr) (j : json) :
  news_entry line = Some j -> news_blank_meta j = true.
Proof.
  unfold news_entry.
  pose proof (lstrip_by_no_lead (fun c => mem c ENUM_CHARS) (strip line)) as H.
  fold (lstrip_chars ENUM_CHARS (strip line)) in H. fold (clean_line line) in H.
  destruct (clean_line line) as [|c h]; [discriminate|].
  simpl in H. intros [= <-].
  unfold news_blank_meta, is_enum_char. simpl. rewrite H. reflexivity.
Qed.

Lemma db3_news_blank_meta (rows : list row) :
  forallb news_blank_meta (news_of (db3_of_rows rows)) = true.
Proof.
  destruct rows as [|r rest]; [reflexivity|].
  unfold db3_of_rows. destruct (negb _); [reflexivity|].
  unfold news_of. cbn [dict_get String.eqb Ascii.eqb Bool.eqb].
  rewrite append_loop_spec. cbn [app].
  apply forallb_flat_map_opt. exact news_entry_blank_meta.
Qed.

(** C6 (as amended).  Every NewsItem the news normaliser emits has
    time, summary and tag equal to the empty string and a non-empty
    headline without enumeration prefix; so has every NewsItem of the
    document of a run that is configured and whose document-store phase
    completes, and such a run does end with a document.  When the
    configuration is missing or the document-store phase raises, the run
    ends with a document whose news are the static sample items; these
    have an empty summary and a non-empty headline, but carry a time and
    a tag. *)
Theorem news_items_meta :
  (forall rows : list row,
     forallb news_blank_meta (news_of (db3_of_rows rows)) = true) /\
  (forall (St : Type)
          (n_get : St -> pystr -> option pystr -> result children_page * St)
          (n_post : St -> pystr -> query_body -> result query_page * St)
          (yahoo : St -> pystr -> result chart_meta * St)
          (fuel : nat) (e : env) (st s : St) (r : dict),
     nonempty (NOTION_TOKEN e) = true -> nonempty (NOTION_PAGE_ID e) = true ->
     fetch_notion n_get n_post fuel e st = (Done r, s) ->
     exists doc st',
       main n_get n_post yahoo fuel e st = (Done doc, st') /\
       news_of doc = news_of r /\
       forallb news_blank_meta (news_of doc) = true) /\
  (forall (St : Type)
          (n_get : St -> pystr -> option pystr -> result children_page * St)
          (n_post : St -> pystr -> query_body -> result query_page * St)
          (yahoo : St -> pystr -> result chart_meta * St)
          (fuel : nat) (e : env) (st : St),
     nonempty (NOTION_TOKEN e) = false \/
     nonempty (NOTION_PAGE_ID e) = false \/
     (exists x s, fetch_notion n_get n_post fuel e st = (Raised x, s)) ->
     exists doc st',
       main n_get n_post yahoo fuel e st = (Done doc, st') /\
       news_of doc = news_of SAMPLE_NOTION) /\
  forallb news_sample_meta (news_of SAMPLE_NOTION) = true /\
  forallb news_blank_meta (news_of SAMPLE_NOTION) = false.
Proof.
  split; [exact db3_news_blank_meta|].
  split; [|split; [|split; vm_compute; reflexivity]].
  - intros St n_get n_post yahoo fuel e st s r Ht Hp E.
    unfold main. rewrite Ht, Hp, E. cbn [andb].
    destruct (fetch_indices yahoo s) as [idx s2].
    do 2 eexists. split; [reflexivity|].
    apply fetch_notion_parts in E.
    destruct E as (rows1 & rows2 & rows3 & rc & -> & _).
    pose proof (db3_news_blank_meta rows3) as Hn.
    destruct (db1_shape rows1) as (sm & m & ->).
    destruct (db2_shape rows2) as (a & b & -> & _).
    destruct (db3_shape rows3) as (n & E3 & _). rewrite E3 in Hn |- *.
    split; [reflexivity | exact Hn].
  - intros St n_get n_post yahoo fuel e st H. unfold main.
    destruct (nonempty (NOTION_TOKEN e)) eqn:Ht;
      [destruct (nonempty (NOTION_PAGE_ID e)) eqn:Hp|]; cbn [andb].
    + destruct H as [H | [H | (x & s & H)]]; try discriminate H.
      rewrite H. destruct (fetch_indices yahoo s) as [idx s2].
      do 2 eexists. split; reflexivity.
    + destruct (fetch_indices yahoo st) as [idx s2].
      do 2 eexists. split; reflexivity.
    + destruct (fetch_indices yahoo st) as [idx s2].
      do 2 eexists. split; reflexivity.
Qed.

Lemma news_items_meta_witness :
  (exists doc st',
     main (tables_get 4) (tables_post []) quoting_yahoo 1 env_fixture 0%nat =
       (Done doc, st') /\
     news_of doc =
       news_of (dict_update (dict_update (dict_update (dict_update []
                  (db1_of_rows [row1])) (db2_of_rows [row2]))
                  (db3_of_rows [row3])) (db4_of_rows three_rows)) /\
     forallb news_blank_meta (news_of doc) = true) /\
  (exists doc st',
     main failing_get failing_post failing_yahoo 1 env_fixture tt = (Done doc, st') /\
     news_of doc = news_of SAMPLE_NOTION) /\
  (exists doc st',
     main (tables_get 4) (tables_post []) quoting_yahoo 1 env_unset 0%nat =
       (Done doc, st') /\
     news_of doc = news_of SAMPLE_NOTION).
Proof.
  destruct news_items_meta as (_ & H & G & _).
  split; [|split].
  - apply (H nat (tables_get 4) (tables_post []) quoting_yahoo 1%nat
             env_fixture 0%nat 5%nat).
    + reflexivity.
    + reflexivity.
    + vm_compute. reflexivity.
  - apply (G unit failing_get failing_post failing_yahoo 1%nat env_fixture tt).
    right. right. exists RemoteError, tt. vm_compute. reflexivity.
  - apply (G nat (tables_get 4) (tables_post []) quoting_yahoo 1%nat
             env_unset 0%nat).
    left. reflexivity.
Defined.

(** C6, as worded, fails on the fall-back path: the sample news items
    carry a time and a tag. *)
Lemma news_fallback_counterexample :
  fst (main failing_get failing_post failing_yahoo 1 env_fixture tt) =
    Done (total_failure_document env_fixture) /\
  exists j rest,
    news_of (total_failure_document env_fixture) = j :: rest /\
    field "time" j = Some (JStr (u "09:02")) /\
    field "tag" j = Some (JStr (u "통화정책")) /\
    field "time" j <> Some (JStr []).
Proof.
  split; [vm_compute; reflexivity|].
  do 2 eexists. split; [vm_compute; reflexivity|].
  repeat split; try discriminate; vm_compute; reflexivity.
Qed.

(** ** Failure containment *)

Section Containment.
Context {St : Type}.
Variable n_get : St -> pystr -> option pystr -> result children_page * St.
Variable n_post : St -> pystr -> query_body -> result query_page * St.
Variable yahoo : St -> pystr -> result chart_meta * St.

Lemma main_on_raise (fuel : nat) (e : env) (st s : St) (x : exn) :
  nonempty (NOTION_TOKEN e) = true -> nonempty (NOTION_PAGE_ID e) = true ->
  fetch_notion n_get n_post fuel e st = (Raised x, s) ->
  main n_get n_post yahoo fuel e st =
  (Done (dict_set "indices" (JDict (fst (fetch_indices yahoo s)))
           (dict_update (timestamps e) SAMPLE_NOTION)),
   snd (fetch_indices yahoo s)).
Proof.
  intros Ht Hp H. unfold main. rewrite Ht, Hp, H. cbn [andb].
  destruct (fetch_indices yahoo s). reflexivity.
Qed.

Lemma main_on_done (fuel : nat) (e : env) (st s : St) (r : dict) :
  nonempty (NOTION_TOKEN e) = true -> nonempty (NOTION_PAGE_ID e) = true ->
  fetch_notion n_get n_post fuel e st = (Done r, s) ->
  main n_get n_post yahoo fuel e st =
  (Done (dict_set "indices" (JDict (fst (fetch_indices yahoo s)))
           (dict_update (timestamps e) r)),
   snd (fetch_indices yahoo s)).
Proof.
  intros Ht Hp H. unfold main. rewrite Ht, Hp, H. cbn [andb].
  destruct (fetch_indices yahoo s). reflexivity.
Qed.

Lemma parse_db3_contains (id today : pystr) (st st' : St) (x : exn) :
  n_post st id (news_body today) = (Err x, st') ->
  parse_db3 n_post id today st = (Done db3_empty, st').
Proof. intros H. unfold parse_db3, news_query. rewrite H. reflexivity. Qed.

Lemma parse_db1_raises fuel id today (st st' : St) (x : exn) :
  query_by_date n_post fuel id "날짜" today st = (Raised x, st') ->
  parse_db1 n_post fuel id today st = (Raised x, st').
Proof. intros H. unfold parse_db1, bind. rewrite H. reflexivity. Qed.

Lemma parse_db2_raises fuel id today (st st' : St) (x : exn) :
  query_by_date n_post fuel id "종목명" today st = (Raised x, st') ->
  parse_db2 n_post fuel id today st = (Raised x, st').
Proof. intros H. unfold parse_db2, bind. rewrite H. reflexivity. Qed.

Lemma parse_db4_raises fuel id today (st st' : St) (x : exn) :
  query_by_date n_post fuel id "날짜" today st = (Raised x, st') ->
  parse_db4 n_post fuel id today st = (Raised x, st').
Proof. intros H. unfold parse_db4, bind. rewrite H. reflexivity. Qed.

End Containment.

(** C2 (as amended).  Whatever the number of tables discovered: if
    the request of the news normaliser raises (the news table being
    among the tables found), only the news are replaced by the empty
    list: the results of the other normalisers, the sample
    recommendations of a run with fewer than four tables, and the
    market-feed lookups are what they are otherwise.  If the query of
    the daily-summary, the sector/highlights or the recommendations
    normaliser raises (its table being among the tables found), the
    exception reaches main, which replaces the whole document-store part
    by the static sample data; the market-feed lookups still run.  In no
    case does main end with an exception. *)
Theorem query_failure_containment :
  forall (St : Type)
         (n_get : St -> pystr -> option pystr -> result children_page * St)
         (n_post : St -> pystr -> query_body -> result query_page * St)
         (yahoo : St -> pystr -> result chart_meta * St)
         (fuel : nat) (e : env) (st s1 : St) (dbs : list db),
    nonempty (NOTION_TOKEN e) = true -> nonempty (NOTION_PAGE_ID e) = true ->
    get_child_dbs n_get fuel (NOTION_PAGE_ID e) st = (Done dbs, s1) ->
    let today := today_str e in
    let sample_document (s : St) :=
      (Done (dict_set "indices" (JDict (fst (fetch_indices yahoo s)))
               (dict_update (timestamps e) SAMPLE_NOTION)),
       snd (fetch_indices yahoo s)) in
    (* the news request raises *)
    ((3 <= List.length dbs)%nat ->
     forall r1 s2 r2 s3 x s4 r4 s5,
       parse_db1 n_post fuel (nth_db_id dbs 0) today s1 = (Done r1, s2) ->
       parse_db2 n_post fuel (nth_db_id dbs 1) today s2 = (Done r2, s3) ->
       n_post s3 (nth_db_id dbs 2) (news_body today) = (Err x, s4) ->
       (if (4 <=? List.length dbs)%nat
        then parse_db4 n_post fuel (nth_db_id dbs 3) today
        else ret [("recommendations", JList _sample_rec)]) s4 = (Done r4, s5) ->
       main n_get n_post yahoo fuel e st =
       (Done (dict_set "indices" (JDict (fst (fetch_indices yahoo s5)))
                (dict_update (timestamps e)
                   (dict_update (dict_update (dict_update (dict_update []
                      r1) r2) db3_empty) r4))),
        snd (fetch_indices yahoo s5))) /\
    (* the daily-summary query raises *)
    ((1 <= List.length dbs)%nat ->
     forall x s2,
       query_by_date n_post fuel (nth_db_id dbs 0) "날짜" today s1 = (Raised x, s2) ->
       main n_get n_post yahoo fuel e st = sample_document s2) /\
    (* the sector/highlights query raises *)
    ((2 <= List.length dbs)%nat ->
     forall r1 s2 x s3,
       parse_db1 n_post fuel (nth_db_id dbs 0) today s1 = (Done r1, s2) ->
       query_by_date n_post fuel (nth_db_id dbs 1) "종목명" today s2 = (Raised x, s3) ->
       main n_get n_post yahoo fuel e st = sample_document s3) /\
    (* the recommendations query raises *)
    ((4 <= List.length dbs)%nat ->
     forall r1 s2 r2 s3 r3 s4 x s5,
       parse_db1 n_post fuel (nth_db_id dbs 0) today s1 = (Done r1, s2) ->
       parse_db2 n_post fuel (nth_db_id dbs 1) today s2 = (Done r2, s3) ->
       parse_db3 n_post (nth_db_id dbs 2) today s3 = (Done r3, s4) ->
       query_by_date n_post fuel (nth_db_id dbs 3) "날짜" today s4 = (Raised x, s5) ->
       main n_get n_post yahoo fuel e st = sample_document s5) /\
    (* the run is not aborted *)
    (forall x, fst (main n_get n_post yahoo fuel e st) <> Raised x).
Proof.
  intros St n_get n_post yahoo fuel e st s1 dbs Ht Hp Hdbs today sample_document.
  subst today sample_document.
  split; [|split; [|split; [|split]]].
  - intros Hlen r1 s2 r2 s3 x s4 r4 s5 H1 H2 H3 H4.
    assert (L1 : (1 <=? List.length dbs)%nat = true) by (apply Nat.leb_le; lia).
    assert (L2 : (2 <=? List.length dbs)%nat = true) by (apply Nat.leb_le; lia).
    assert (L3 : (3 <=? List.length dbs)%nat = true) by (apply Nat.leb_le; lia).
    apply main_on_done; [exact Ht | exact Hp |].
    unfold fetch_notion, bind. rewrite Hdbs, L1, L2, L3, H1, H2.
    rewrite (parse_db3_contains n_post _ _ _ _ _ H3), H4. reflexivity.
  - intros Hlen x s2 H1.
    assert (L1 : (1 <=? List.length dbs)%nat = true) by (apply Nat.leb_le; lia).
    apply (main_on_raise n_get n_post yahoo fuel e st s2 x Ht Hp).
    unfold fetch_notion, bind. rewrite Hdbs, L1.
    rewrite (parse_db1_raises n_post _ _ _ _ _ _ H1). reflexivity.
  - intros Hlen r1 s2 x s3 H1 H2.
    assert (L1 : (1 <=? List.length dbs)%nat = true) by (apply Nat.leb_le; lia).
    assert (L2 : (2 <=? List.length dbs)%nat = true) by (apply Nat.leb_le; lia).
    apply (main_on_raise n_get n_post yahoo fuel e st s3 x Ht Hp).
    unfold fetch_notion, bind. rewrite Hdbs, L1, L2, H1.
    rewrite (parse_db2_raises n_post _ _ _ _ _ _ H2). reflexivity.
  - intros Hlen r1 s2 r2 s3 r3 s4 x s5 H1 H2 H3 H4.
    assert (L1 : (1 <=? List.length dbs)%nat = true) by (apply Nat.leb_le; lia).
    assert (L2 : (2 <=? List.length dbs)%nat = true) by (apply Nat.leb_le; lia).
    assert (L3 : (3 <=? List.length dbs)%nat = true) by (apply Nat.leb_le; lia).
    assert (L4 : (4 <=? List.length dbs)%nat = true) by (apply Nat.leb_le; lia).
    apply (main_on_raise n_get n_post yahoo fuel e st s5 x Ht Hp).
    unfold fetch_notion, bind. rewrite Hdbs, L1, L2, L3, L4, H1, H2, H3.
    rewrite (parse_db4_raises n_post _ _ _ _ _ _ H4). reflexivity.
  - intros x. apply main_never_raises.
Qed.

Lemma query_failure_containment_witness :
  (* four tables, the news request raises *)
  main (tables_get 4) (tables_post (u "d3")) quoting_yahoo 1 env_fixture 0%nat =
    (Done (dict_set "indices" (JDict (fst (fetch_indices quoting_yahoo 5%nat)))
             (dict_update (timestamps env_fixture)
                (dict_update (dict_update (dict_update (dict_update []
                   (db1_of_rows [row1])) (db2_of_rows [row2])) db3_empty)
                   (db4_of_rows three_rows)))),
     snd (fetch_indices quoting_yahoo 5%nat)) /\
  (* three tables, the news request raises *)
  main (tables_get 3) (tables_post (u "d3")) quoting_yahoo 1 env_fixture 0%nat =
    (Done (dict_set "indices" (JDict (fst (fetch_indices quoting_yahoo 4%nat)))
             (dict_update (timestamps env_fixture)
                (dict_update (dict_update (dict_update (dict_update []
                   (db1_of_rows [row1])) (db2_of_rows [row2])) db3_empty)
                   [("recommendations", JList _sample_rec)]))),
     snd (fetch_indices quoting_yahoo 4%nat)) /\
  (* one table, the daily-summary query raises *)
  main (tables_get 1) (tables_post (u "d1")) quoting_yahoo 1 env_fixture 0%nat =
    (Done (dict_set "indices" (JDict (fst (fetch_indices quoting_yahoo 2%nat)))
             (dict_update (timestamps env_fixture) SAMPLE_NOTION)),
     snd (fetch_indices quoting_yahoo 2%nat)) /\
  (* two tables, the sector/highlights query raises *)
  main (tables_get 2) (tables_post (u "d2")) quoting_yahoo 1 env_fixture 0%nat =
    (Done (dict_set "indices" (JDict (fst (fetch_indices quoting_yahoo 3%nat)))
             (dict_update (timestamps env_fixture) SAMPLE_NOTION)),
     snd (fetch_indices quoting_yahoo 3%nat)) /\
  (* four tables, the recommendations query raises *)
  main (tables_get 4) (tables_post (u "d4")) quoting_yahoo 1 env_fixture 0%nat =
    (Done (dict_set "indices" (JDict (fst (fetch_indices quoting_yahoo 5%nat)))
             (dict_update (timestamps env_fixture) SAMPLE_NOTION)),
     snd (fetch_indices quoting_yahoo 5%nat)) /\
  (forall x, fst (main (tables_get 3) (tables_post (u "d3")) quoting_yahoo 1
                    env_fixture 0%nat) <> Raised x).
Proof.
  split; [|split; [|split; [|split; [|split]]]].
  - refine (proj1 (query_failure_containment nat (tables_get 4)
                     (tables_post (u "d3")) quoting_yahoo 1%nat env_fixture
                     0%nat 1%nat _ eq_refl eq_refl _)
                  _ _ 2%nat _ 3%nat RemoteError 4%nat _ 5%nat _ _ _ _).
    + vm_compute. reflexivity.
    + vm_compute. repeat constructor.
    + vm_compute. reflexivity.
    + vm_compute. reflexivity.
    + vm_compute. reflexivity.
    + vm_compute. reflexivity.
  - refine (proj1 (query_failure_containment nat (tables_get 3)
                     (tables_post (u "d3")) quoting_yahoo 1%nat env_fixture
                     0%nat 1%nat _ eq_refl eq_refl _)
                  _ _ 2%nat _ 3%nat RemoteError 4%nat _ 4%nat _ _ _ _).
    + vm_compute. reflexivity.
    + vm_compute. repeat constructor.
    + vm_compute. reflexivity.
    + vm_compute. reflexivity.
    + vm_compute. reflexivity.
    + vm_compute. reflexivity.
  - refine (proj1 (proj2 (query_failure_containment nat (tables_get 1)
                     (tables_post (u "d1")) quoting_yahoo 1%nat env_fixture
                     0%nat 1%nat _ eq_refl eq_refl _))
                  _ RemoteError 2%nat _).
    + vm_compute. reflexivity.
    + vm_compute. repeat constructor.
    + vm_compute. reflexivity.
  - refine (proj1 (proj2 (proj2 (query_failure_containment nat (tables_get 2)
                     (tables_post (u "d2")) quoting_yahoo 1%nat env_fixture
                     0%nat 1%nat _ eq_refl eq_refl _)))
                  _ _ 2%nat RemoteError 3%nat _ _).
    + vm_compute. reflexivity.
    + vm_compute. repeat constructor.
    + vm_compute. reflexivity.
    + vm_compute. reflexivity.
  - refine (proj1 (proj2 (proj2 (proj2 (query_failure_containment nat (tables_get 4)
                     (tables_post (u "d4")) quoting_yahoo 1%nat env_fixture
                     0%nat 1%nat _ eq_refl eq_refl _))))
                  _ _ 2%nat _ 3%nat _ 4%nat RemoteError 5%nat _ _ _ _).
    + vm_compute. reflexivity.
    + vm_compute. repeat constructor.
    + vm_compute. reflexivity.
    + vm_compute. reflexivity.
    + vm_compute. reflexivity.
    + vm_compute. reflexivity.
  - refine (proj2 (proj2 (proj2 (proj2 (query_failure_containment nat (tables_get 3)
                     (tables_post (u "d3")) quoting_yahoo 1%nat env_fixture
                     0%nat 1%nat _ eq_refl eq_refl _))))).
    vm_compute. reflexivity.
Defined.

(** C2, as worded, fails when the daily-summary query raises: the
    summary is not the typed-empty list and the other normalisers'
    results are replaced as well. *)
Lemma query_failure_counterexample :
  exists doc,
    fst (main (tables_get 4) (tables_post (u "d1")) quoting_yahoo 1
           env_fixture 0%nat) = Done doc /\
    dict_get "summary" doc = dict_get "summary" SAMPLE_NOTION /\
    dict_get "summary" doc <> Some (JList []) /\
    dict_get "sectors" doc <> dict_get "sectors" fixture_document /\
    dict_get "news" doc <> dict_get "news" fixture_document /\
    dict_get "recommendations" doc <> dict_get "recommendations" fixture_document.
Proof.
  eexists. split; [vm_compute; reflexivity|].
  repeat split; try (vm_compute; discriminate); vm_compute; reflexivity.
Qed.

(** ** Numbers: a non-zero [int] converts to a non-zero [float] *)

Section FloatFacts.
Local Open Scope Z_scope.

Lemma digits2_pos_size (p : positive) : digits2_pos p = Pos.size p.
Proof. induction p; simpl; congruence. Qed.

Lemma digits2_lower (p : positive) : 2 ^ (Zpos (digits2_pos p) - 1) <= Zpos p.
Proof.
  rewrite digits2_pos_size.
  pose proof (Pos.size_le p) as H.
  apply Pos2Z.pos_le_pos in H. rewrite Pos2Z.inj_pow in H.
  assert (E : 2 ^ Zpos (Pos.size p) = 2 * 2 ^ (Zpos (Pos.size p) - 1)).
  { rewrite <- Z.pow_succ_r by lia. f_equal. lia. }
  rewrite E in H. lia.
Qed.

Lemma shr_1_m (mrs : shr_record) :
  0 <= shr_m mrs -> shr_m (shr_1 mrs) = shr_m mrs / 2.
Proof.
  destruct mrs as [m r s]. simpl. intros Hm.
  rewrite <- Z.div2_div.
  destruct m as [|[p|p|]|p]; try reflexivity; lia.
Qed.

Lemma iter_shr_1_m (p : positive) :
  forall mrs, 0 <= shr_m mrs ->
    shr_m (iter_pos shr_1 p mrs) = shr_m mrs / 2 ^ Zpos p.
Proof.
  induction p as [p IH|p IH|]; intros mrs Hm; simpl iter_pos.
  - assert (Hi : 2 ^ Zpos p~1 = 2 * (2 ^ Zpos p * 2 ^ Zpos p)).
    { rewrite <- Z.pow_add_r, <- Z.pow_succ_r by lia. f_equal. lia. }
    assert (H1 : 0 <= shr_m (shr_1 mrs)).
    { rewrite shr_1_m by exact Hm. apply Z.div_pos; lia. }
    assert (H2 : 0 <= shr_m (iter_pos shr_1 p (shr_1 mrs))).
    { rewrite IH by exact H1. apply Z.div_pos; [exact H1 | lia]. }
    rewrite IH by exact H2. rewrite IH by exact H1. rewrite shr_1_m by exact Hm.
    rewrite !Z.div_div by lia. rewrite Hi. f_equal; ring.
  - assert (Hx : 2 ^ Zpos p~0 = 2 ^ Zpos p * 2 ^ Zpos p).
    { rewrite <- Z.pow_add_r by lia. f_equal. lia. }
    assert (H2 : 0 <= shr_m (iter_pos shr_1 p mrs)).
    { rewrite IH by exact Hm. apply Z.div_pos; [exact Hm | lia]. }
    rewrite IH by exact H2. rewrite IH by exact Hm.
    rewrite Z.div_div by lia. rewrite Hx. reflexivity.
  - rewrite shr_1_m by exact Hm. reflexivity.
Qed.

(** Shifting a positive mantissa by less than its width leaves it
    positive. *)
Lemma shr_positive (m : positive) (l : location) (e n : Z) :
  n < Zpos (digits2_pos m) ->
  0 < shr_m (fst (shr (shr_record_of_loc (Zpos m) l) e n)).
Proof.
  intros Hn.
  assert (Hm : shr_m (shr_record_of_loc (Zpos m) l) = Zpos m)
    by (destruct l as [|[| |]]; reflexivity).
  destruct n as [|k|k]; simpl; try (rewrite Hm; lia).
  rewrite iter_shr_1_m by (rewrite Hm; lia). rewrite Hm.
  apply Z.div_str_pos. split; [lia|].
  etransitivity; [|apply digits2_lower].
  apply Z.pow_le_mono_r; lia.
Qed.

Lemma shr_fexp_positive (m : positive) (l : location) (e : Z) :
  emin prec emax <= e ->
  0 < shr_m (fst (shr_fexp prec emax (Zpos m) e l)) /\
  emin prec emax <= snd (shr_fexp prec emax (Zpos m) e l).
Proof.
  intros He. unfold shr_fexp. split.
  - apply shr_positive. unfold fexp, emin, prec, emax in *. simpl Zdigits2. lia.
  - unfold shr. simpl Zdigits2.
    destruct (fexp prec emax (Zpos (digits2_pos m) + e) - e) eqn:E; simpl;
      unfold fexp, emin, prec, emax in *; lia.
Qed.

Lemma binary_round_aux_nonzero (s : bool) (m : positive) (e : Z) (l : location) :
  emin prec emax <= e ->
  is_zero (binary_round_aux prec emax s (Zpos m) e l) = false.
Proof.
  intros He. unfold binary_round_aux.
  destruct (shr_fexp_positive m l e He) as [H1 H2].
  destruct (shr_fexp prec emax (Zpos m) e l) as [mrs' e'].
  cbn [fst snd] in H1, H2.
  assert (Hr : 0 < round_nearest_even (shr_m mrs') (loc_of_shr_record mrs')).
  { unfold round_nearest_even.
    destruct (loc_of_shr_record mrs') as [|[| |]]; try lia.
    destruct (Z.even (shr_m mrs')); lia. }
  destruct (round_nearest_even (shr_m mrs') (loc_of_shr_record mrs'))
    as [|r|r]; try lia.
  destruct (shr_fexp_positive r loc_Exact e' H2) as [H3 _].
  destruct (shr_fexp prec emax (Zpos r) e' loc_Exact) as [mrs'' e''].
  cbn [fst] in H3.
  destruct (shr_m mrs'') as [|q|q]; try lia.
  destruct (e'' <=? emax - prec); reflexivity.
Qed.

Lemma int_to_float_nonzero (z : Z) (f : float) :
  z <> 0 -> int_to_float z = Ok f -> is_zero f = false.
Proof.
  intros Hz. unfold int_to_float.
  assert (H : is_zero (binary_normalize prec emax z 0 false) = false).
  { destruct z as [|m|m]; [congruence| |]; unfold binary_normalize, binary_round;
      (destruct (shl_align m 0 (fexp prec emax (Zpos (digits2_pos m) + 0)))
         as [mz ez] eqn:E;
       apply binary_round_aux_nonzero;
       unfold shl_align in E;
       destruct (fexp prec emax (Zpos (digits2_pos m) + 0) - 0) eqn:D;
       injection E as <- <-;
       unfold fexp, emin, prec, emax in *; lia). }
  destruct (binary_normalize prec emax z 0 false); try discriminate;
    intros [= <-]; exact H.
Qed.

End FloatFacts.

(** ** Numbers: the order of floats and the sign of a difference *)

Section FloatOrder.
Local Open Scope Z_scope.

Lemma round_half_even_spec (num : Z) (den : positive) :
  let r := round_half_even num den in
  2 * Z.abs (r * Zpos den - num) <= Zpos den /\
  (2 * Z.abs (r * Zpos den - num) = Zpos den -> Z.even r = true).
Proof.
  unfold round_half_even.
  pose proof (Z.div_mod num (Zpos den) ltac:(lia)) as Hd.
  pose proof (Z.mod_pos_bound num (Zpos den) ltac:(lia)) as Hm.
  set (q := num / Zpos den) in *. set (m := num mod Zpos den) in *.
  destruct (Z.compare_spec (2 * m) (Zpos den)) as [E|E|E].
  - destruct (Z.even q) eqn:Ev.
    + split; [nia | intros _; exact Ev].
    + split; [nia|]. intros _. rewrite Z.even_add, Ev. reflexivity.
  - split; [nia | nia].
  - split; [nia | nia].
Qed.

Lemma iter_xO (m d : positive) : Zpos (Pos.iter xO m d) = Zpos m * 2 ^ Zpos d.
Proof.
  induction d as [|d IH] using Pos.peano_ind.
  - simpl. lia.
  - rewrite Pos.iter_succ, Pos2Z.inj_succ, Z.pow_succ_r by lia.
    rewrite Pos2Z.inj_xO, IH. ring.
Qed.

Lemma shl_align_min (m : positive) (e e' : Z) :
  e' <= e ->
  Zpos (fst (shl_align m e e')) = Zpos m * 2 ^ (e - e') /\
  snd (shl_align m e e') = e'.
Proof.
  intros H. unfold shl_align.
  destruct (e' - e) as [|d|d] eqn:E; simpl; try lia.
  - replace (e - e') with 0 by lia. simpl. lia.
  - rewrite iter_xO. replace (e - e') with (Zpos d) by lia. split; reflexivity.
Qed.

Lemma shl_align_exponent (m : positive) (e e' : Z) :
  emin prec emax <= e -> emin prec emax <= e' ->
  emin prec emax <= snd (shl_align m e e').
Proof.
  intros H H'. unfold shl_align. destruct (e' - e); simpl; assumption.
Qed.

Lemma binary_round_aux_sign (s : bool) (m : positive) (e : Z) (l : location) :
  emin prec emax <= e ->
  SFleb (S754_zero false) (binary_round_aux prec emax s (Zpos m) e l) = negb s.
Proof.
  intros He. unfold binary_round_aux.
  destruct (shr_fexp_positive m l e He) as [H1 H2].
  destruct (shr_fexp prec emax (Zpos m) e l) as [mrs' e'].
  cbn [fst snd] in H1, H2.
  assert (Hr : 0 < round_nearest_even (shr_m mrs') (loc_of_shr_record mrs')).
  { unfold round_nearest_even.
    destruct (loc_of_shr_record mrs') as [|[| |]]; try lia.
    destruct (Z.even (shr_m mrs')); lia. }
  destruct (round_nearest_even (shr_m mrs') (loc_of_shr_record mrs'))
    as [|r|r]; try lia.
  destruct (shr_fexp_positive r loc_Exact e' H2) as [H3 _].
  destruct (shr_fexp prec emax (Zpos r) e' loc_Exact) as [mrs'' e''].
  cbn [fst] in H3.
  destruct (shr_m mrs'') as [|q|q]; try lia.
  destruct (e'' <=? emax - prec); destruct s; reflexivity.
Qed.

(** The sign of a normalised integer multiple of a power of two. *)
Lemma binary_normalize_sign (d e : Z) :
  emin prec emax <= e ->
  SFleb (S754_zero false) (binary_normalize prec emax d e false) = (0 <=? d).
Proof.
  intros He.
  assert (F : forall m, emin prec emax <=
                snd (shl_align m e (fexp prec emax (Zpos (digits2_pos m) + e)))).
  { intros m. apply shl_align_exponent; [exact He|].
    unfold fexp, emin, prec, emax. lia. }
  destruct d as [|m|m]; [reflexivity| |]; unfold binary_normalize, binary_round;
    specialize (F m);
    destruct (shl_align m e (fexp prec emax (Zpos (digits2_pos m) + e)))
      as [mz ez]; cbn [snd] in F;
    rewrite binary_round_aux_sign by exact F; reflexivity.
Qed.

Lemma digits2_upper (p : positive) : Zpos p < 2 ^ Zpos (digits2_pos p).
Proof.
  rewrite digits2_pos_size.
  pose proof (Pos.size_gt p) as H.
  apply Pos2Z.pos_lt_pos in H. rewrite Pos2Z.inj_pow in H. exact H.
Qed.

(** A valid finite [float] has a mantissa below 2^53, an exponent of at
    least -1074, and a mantissa of at least 2^52 unless its exponent is
    -1074. *)
Lemma bounded_range (m : positive) (e : Z) :
  bounded prec emax m e = true ->
  Zpos m < 2 ^ 53 /\ -1074 <= e /\ (-1074 < e -> 2 ^ 52 <= Zpos m).
Proof.
  unfold bounded, canonical_mantissa, fexp, emin, prec, emax.
  intros H. apply andb_true_iff in H. destruct H as [H _].
  apply Z.eqb_eq in H.
  pose proof (digits2_upper m) as Hu. pose proof (digits2_lower m) as Hl.
  assert (D : Zpos (digits2_pos m) <= 53) by lia.
  split; [|split; [lia|]].
  - eapply Z.lt_le_trans; [exact Hu|]. apply Z.pow_le_mono_r; lia.
  - intros He. assert (E : Zpos (digits2_pos m) = 53) by lia.
    rewrite E in Hl. exact Hl.
Qed.

(** Of two valid finite magnitudes the one with the larger exponent is
    the larger. *)
Lemma aligned_lt (mx my : positive) (ex ey : Z) :
  bounded prec emax mx ex = true -> bounded prec emax my ey = true ->
  ey < ex -> Zpos my < Zpos mx * 2 ^ (ex - ey).
Proof.
  intros Bx By H.
  destruct (bounded_range mx ex Bx) as (_ & _ & Hx).
  destruct (bounded_range my ey By) as (Hy & Hey & _).
  specialize (Hx ltac:(lia)).
  assert (P : 2 ^ 1 <= 2 ^ (ex - ey)) by (apply Z.pow_le_mono_r; lia).
  change (2 ^ 1) with 2 in P.
  assert (Q : 2 ^ 52 * 2 <= Zpos mx * 2 ^ (ex - ey))
    by (apply Z.mul_le_mono_nonneg; lia).
  change (2 ^ 52 * 2) with (2 ^ 53) in Q. lia.
Qed.

(** [x - y >= 0] exactly when [y <= x], for valid finite operands. *)
Lemma sub_nonneg_finite (sx sy : bool) (mx my : positive) (ex ey : Z) :
  bounded prec emax mx ex = true -> bounded prec emax my ey = true ->
  SFleb (S754_zero false)
        (SFsub prec emax (S754_finite sx mx ex) (S754_finite sy my ey)) =
  SFleb (S754_finite sy my ey) (S754_finite sx mx ex).
Proof.
  intros Bx By. unfold SFsub.
  destruct (bounded_range mx ex Bx) as (_ & Hex & _).
  destruct (bounded_range my ey By) as (_ & Hey & _).
  rewrite binary_normalize_sign by (unfold emin, prec, emax; lia).
  destruct (shl_align_min mx ex (Z.min ex ey) ltac:(lia)) as [Ax _].
  destruct (shl_align_min my ey (Z.min ex ey) ltac:(lia)) as [Ay _].
  rewrite Ax, Ay. clear Ax Ay.
  unfold SFleb, SFcompare.
  destruct (Z.compare_spec ey ex) as [E|E|E].
  - subst ex. rewrite Z.min_id, Z.sub_diag. change (2 ^ 0) with 1.
    rewrite !Z.mul_1_r.
    change (Pos.compare_cont Eq my mx) with (Pos.compare my mx).
    destruct (Pos.compare_spec my mx) as [C|C|C];
      destruct sx, sy; unfold cond_Zopp, CompOpp; cbv iota;
      try (apply Z.leb_le; lia); try (apply Z.leb_gt; lia).
  - pose proof (aligned_lt mx my ex ey Bx By E) as L.
    replace (Z.min ex ey) with ey by lia. rewrite Z.sub_diag.
    change (2 ^ 0) with 1. rewrite Z.mul_1_r.
    destruct sx, sy; unfold cond_Zopp; cbv iota;
      try (apply Z.leb_le; lia); try (apply Z.leb_gt; lia).
  - pose proof (aligned_lt my mx ey ex By Bx E) as L.
    replace (Z.min ex ey) with ex by lia. rewrite Z.sub_diag.
    change (2 ^ 0) with 1. rewrite Z.mul_1_r.
    destruct sx, sy; unfold cond_Zopp; cbv iota;
      try (apply Z.leb_le; lia); try (apply Z.leb_gt; lia).
Qed.

End FloatOrder.

(** ** Numbers: rounding *)

Section RoundFacts.
Local Open Scope Z_scope.

Lemma sub_nonneg_iff_le (x y : float) :
  valid_binary prec emax x = true -> valid_binary prec emax y = true ->
  is_finite x = true -> is_finite y = true ->
  SFleb (S754_zero false) (SFsub prec emax x y) = SFleb y x.
Proof.
  intros Vx Vy Fx Fy.
  destruct x as [sx|sx| |sx mx ex], y as [sy|sy| |sy my ey];
    try discriminate Fx; try discriminate Fy.
  - destruct sx, sy; reflexivity.
  - destruct sx, sy; reflexivity.
  - destruct sx, sy; reflexivity.
  - apply sub_nonneg_finite; assumption.
Qed.

Lemma match_nonneg {A} (r : Z) (z : A) (f : positive -> A) :
  0 <= r ->
  match r with Zpos p => f p | _ => z end =
  if r =? 0 then z else f (Z.to_pos r).
Proof. destruct r; simpl; intros H; try reflexivity; lia. Qed.

(** [round(f, d)]: the exact value of [f], scaled by [10^d], is rounded
    half-even to an integer [r], and [r / 10^d] is converted to the
    nearest [float]. *)
Lemma round_float_spec (s : bool) (m : positive) (e : Z) (d : nat) :
  Z.of_nat d <= 323 ->
  let num := Zpos m * 10 ^ Z.of_nat d * 2 ^ Z.max e 0 in
  let den := 2 ^ Z.max (- e) 0 in
  exists r : Z,
    0 <= r /\
    2 * Z.abs (r * den - num) <= den /\
    (2 * Z.abs (r * den - num) = den -> Z.even r = true) /\
    round_float (S754_finite s m e) d =
      if r =? 0 then Ok (S754_zero s)
      else match ratio_to_float s (Z.to_pos r) (Z.to_pos (10 ^ Z.of_nat d)) with
           | S754_infinity _ => Err OverflowError
           | g => Ok g
           end.
Proof.
  intros Hd num den. unfold round_float.
  assert (L : (323 <? Z.of_nat d) = false) by (apply Z.ltb_ge; exact Hd).
  rewrite L.
  assert (P : 0 < 10 ^ Z.of_nat d) by (apply Z.pow_pos_nonneg; lia).
  assert (I : Zpos (Z.to_pos (10 ^ Z.of_nat d)) = 10 ^ Z.of_nat d)
    by (apply Z2Pos.id; exact P).
  destruct e as [|k|k].
  - exists (Zpos m * 2 ^ 0 * Zpos (Z.to_pos (10 ^ Z.of_nat d))).
    subst num den. rewrite I. change (Z.max 0 0) with 0.
    change (- 0) with 0. change (Z.max 0 0) with 0. change (2 ^ 0) with 1.
    split; [nia|]. split; [nia|]. split; [nia|].
    apply match_nonneg. nia.
  - exists (Zpos m * 2 ^ Zpos k * Zpos (Z.to_pos (10 ^ Z.of_nat d))).
    assert (Q : 0 < 2 ^ Zpos k) by (apply Z.pow_pos_nonneg; lia).
    subst num den. rewrite I.
    change (Z.max (Zpos k) 0) with (Zpos k).
    change (Z.max (- Zpos k) 0) with 0. change (2 ^ 0) with 1.
    split; [nia|]. split; [nia|]. split; [nia|].
    apply match_nonneg. nia.
  - pose proof (round_half_even_spec
                  (Zpos (m * Z.to_pos (10 ^ Z.of_nat d))) (Pos.pow 2 k)) as S.
    cbv zeta in S. destruct S as [S1 S2].
    set (r := round_half_even (Zpos (m * Z.to_pos (10 ^ Z.of_nat d)))
                (Pos.pow 2 k)) in *.
    exists r. subst num den.
    change (Z.max (Zneg k) 0) with 0. change (- Zneg k) with (Zpos k).
    change (Z.max (Zpos k) 0) with (Zpos k). change (2 ^ 0) with 1.
    rewrite Pos2Z.inj_mul, I in S1, S2.
    rewrite Pos2Z.inj_pow in S1, S2.
    rewrite Z.mul_1_r.
    assert (Q : 0 < 2 ^ Zpos k) by (apply Z.pow_pos_nonneg; lia).
    assert (R : 0 <= r) by nia.
    split; [exact R|]. split; [exact S1|]. split; [exact S2|].
    apply match_nonneg. exact R.
Qed.

End RoundFacts.

(** ** IndexQuote *)

Section QuoteFacts.
Local Open Scope Z_scope.

Lemma to_float_err (a : pynum) (e : exn) :
  to_float a = Err e -> e = OverflowError.
Proof.
  destruct a as [z|f]; simpl; [|discriminate].
  unfold int_to_float. destruct (binary_normalize _ _ _ _ _); congruence.
Qed.

Lemma py_sub_err (a b : pynum) (e : exn) :
  py_sub a b = Err e -> e = OverflowError.
Proof.
  unfold py_sub, rbind.
  destruct a as [x|fa], b as [y|fb]; try discriminate;
    repeat match goal with
           | |- context [match ?r with Ok _ => _ | Err _ => _ end] =>
               let E := fresh "E" in destruct r eqn:E
           end; try discriminate;
    intros [= <-]; eapply to_float_err; eassumption.
Qed.

Lemma py_mul_err (a b : pynum) (e : exn) :
  py_mul a b = Err e -> e = OverflowError.
Proof.
  unfold py_mul, rbind.
  destruct a as [x|fa], b as [y|fb]; try discriminate;
    repeat match goal with
           | |- context [match ?r with Ok _ => _ | Err _ => _ end] =>
               let E := fresh "E" in destruct r eqn:E
           end; try discriminate;
    intros [= <-]; eapply to_float_err; eassumption.
Qed.

Lemma py_round_err (n : pynum) (d : nat) (e : exn) :
  py_round n d = Err e -> e = OverflowError.
Proof.
  destruct n as [z|f]; simpl; [discriminate|].
  unfold rbind, round_float.
  destruct f as [s|s| |s m ex]; try discriminate.
  destruct (323 <? Z.of_nat d); [discriminate|].
  match goal with
  | |- context [match ?r with Z0 => _ | Zpos _ => _ | Zneg _ => _ end] =>
      destruct r; try discriminate
  end.
  destruct (ratio_to_float _ _ _); try discriminate. congruence.
Qed.

Lemma need_num_err (v : option pynum) (e : exn) :
  need_num v = Err e -> e = TypeError.
Proof. destruct v; simpl; congruence. Qed.

(** The guard [if prev] keeps the division from a zero divisor. *)
Lemma py_truediv_err (a b : pynum) (e : exn) :
  num_truthy b = true -> py_truediv a b = Err e -> e = OverflowError.
Proof.
  intros Hb. unfold py_truediv, rbind.
  destruct a as [x|fa], b as [y|fb]; simpl in Hb.
  - destruct x, y; try discriminate Hb;
      try (destruct (ratio_to_float _ _ _); congruence); congruence.
  - simpl to_float. apply negb_true_iff in Hb.
    destruct (int_to_float x) as [fx|x'] eqn:E; simpl.
    + rewrite Hb. discriminate.
    + intros [= <-]. apply (to_float_err (PInt x)). exact E.
  - simpl to_float.
    destruct (int_to_float y) as [fy|x] eqn:E.
    + rewrite (int_to_float_nonzero y fy); [discriminate| |exact E].
      intros ->. discriminate Hb.
    + intros [= <-]. apply (to_float_err (PInt y)). exact E.
  - simpl. apply negb_true_iff in Hb. rewrite Hb. discriminate.
Qed.

End QuoteFacts.

(** C9 (as amended).  On a successful lookup fetch_yahoo returns the
    quote computed as follows, and never raises a division by zero.
    The previous close is the last-session close, else the previous
    close, else the price itself.  change = price - previous close:
    exact on two ints, the binary64 difference otherwise.  pct =
    change / previous close * 100, or 0 when the previous close is zero.
    pos is (change >= 0) on the change before rounding, which is
    (previous close <= price); it is not a function of the stored
    change.  The stored price and change are rounded to the feed's
    decimal count and the stored pct to 2 decimals: an int is stored as
    it is, a float is rounded half-even on its exact value and the
    decimal result converted to the nearest float.  A price of 100 after
    95 gives change 5, pct 5.26 and pos true; 2649.5 after 2650.0 with
    no decimals gives price 2650.0, change -0.0, pct -0.02 and pos
    false. *)
Theorem index_quote_arithmetic :
  (* the quote, step by step *)
  (forall (meta : chart_meta) (dec : nat) (q : dict),
     quote_of_meta meta dec = Ok q ->
     exists price prev change pct rprice rchange rpct,
       meta_get_default (regularMarketPrice meta) (PInt 0) = Some price /\
       prev_close meta = Some prev /\
       py_sub price prev = Ok change /\
       (if num_truthy prev
        then exists d, py_truediv change prev = Ok d /\
                       py_mul d (PInt 100) = Ok pct
        else pct = PInt 0) /\
       py_round price dec = Ok rprice /\
       py_round change dec = Ok rchange /\
       py_round pct 2 = Ok rpct /\
       q = [("price", JNum rprice); ("change", JNum rchange);
            ("pct", JNum rpct); ("pos", JBool (py_ge0 change))]) /\
  (* no division by zero *)
  (forall (meta : chart_meta) (dec : nat),
     quote_of_meta meta dec <> Err ZeroDivisionError) /\
  (* fetch_yahoo returns that quote *)
  (forall (St : Type) (yahoo : St -> pystr -> result chart_meta * St)
          (symbol : pystr) (dec : nat) (st st' : St) (meta : chart_meta) (q : dict),
     yahoo st symbol = (Ok meta, st') -> quote_of_meta meta dec = Ok q ->
     fetch_yahoo yahoo symbol dec st = (q, st')) /\
  (* the previous close and its fall-backs *)
  (forall (meta : chart_meta) (c : pynum),
     chartPreviousClose meta = JsonNum c -> num_truthy c = true ->
     prev_close meta = Some c) /\
  (forall (meta : chart_meta) (c : pynum),
     truthy (meta_get (chartPreviousClose meta)) = false ->
     previousClose meta = JsonNum c -> num_truthy c = true ->
     prev_close meta = Some c) /\
  (forall meta : chart_meta,
     truthy (meta_get (chartPreviousClose meta)) = false ->
     truthy (meta_get (previousClose meta)) = false ->
     prev_close meta = meta_get_default (regularMarketPrice meta) (PInt 0)) /\
  (* change and pos on two ints *)
  (forall x y : Z,
     py_sub (PInt x) (PInt y) = Ok (PInt (x - y)) /\
     py_ge0 (PInt (x - y)) = (y <=? x)%Z) /\
  (* change and pos when a float is involved *)
  (forall (p q : pynum) (fp fq : float),
     (is_int p && is_int q)%bool = false ->
     to_float p = Ok fp -> to_float q = Ok fq ->
     py_sub p q = Ok (PFloat (SFsub prec emax fp fq)) /\
     (valid_binary prec emax fp = true -> valid_binary prec emax fq = true ->
      is_finite fp = true -> is_finite fq = true ->
      py_ge0 (PFloat (SFsub prec emax fp fq)) = SFleb fq fp)) /\
  (* pos by the sign of the change *)
  (forall c : pynum,
     py_ge0 c = match c with
                | PInt z => (0 <=? z)%Z
                | PFloat (S754_zero _) => true
                | PFloat (S754_finite s _ _) => negb s
                | PFloat (S754_infinity s) => negb s
                | PFloat S754_nan => false
                end) /\
  (* pct on floats *)
  (forall f g : float,
     is_zero g = false ->
     py_truediv (PFloat f) (PFloat g) = Ok (PFloat (SFdiv prec emax f g))) /\
  (forall f : float,
     py_mul (PFloat f) (PInt 100) = Ok (PFloat (SFmul prec emax f f100))) /\
  (* rounding *)
  (forall (z : Z) (d : nat), py_round (PInt z) d = Ok (PInt z)) /\
  (forall (s : bool) (m : positive) (e : Z) (d : nat),
     (Z.of_nat d <= 323)%Z ->
     let num := (Zpos m * 10 ^ Z.of_nat d * 2 ^ Z.max e 0)%Z in
     let den := (2 ^ Z.max (- e) 0)%Z in
     exists r : Z,
       (0 <= r)%Z /\
       (2 * Z.abs (r * den - num) <= den)%Z /\
       ((2 * Z.abs (r * den - num))%Z = den -> Z.even r = true) /\
       py_round (PFloat (S754_finite s m e)) d =
         if (r =? 0)%Z then Ok (PFloat (S754_zero s))
         else match ratio_to_float s (Z.to_pos r) (Z.to_pos (10 ^ Z.of_nat d)) with
              | S754_infinity _ => Err OverflowError
              | g => Ok (PFloat g)
              end) /\
  (forall (f : float) (d : nat),
     (match f with S754_finite _ _ _ => false | _ => true end = true \/
      (323 < Z.of_nat d)%Z) ->
     py_round (PFloat f) d = Ok (PFloat f)) /\
  (* the example of the specification, on ints and on floats, and a
     previous close of zero *)
  quote_of_meta meta_int 2 =
    Ok [("price", JNum (PInt 100)); ("change", JNum (PInt 5));
        ("pct", JNum (PFloat f5_26)); ("pos", JBool true)] /\
  quote_of_meta meta_float 2 =
    Ok [("price", JNum (PFloat f100)); ("change", JNum (PFloat f5));
        ("pct", JNum (PFloat f5_26)); ("pos", JBool true)] /\
  quote_of_meta meta_zero 2 =
    Ok [("price", JNum (PFloat (S754_zero false)));
        ("change", JNum (PFloat (S754_zero false)));
        ("pct", JNum (PInt 0)); ("pos", JBool true)] /\
  (* price 2649.5, previous close 2650.0, 0 decimals: price 2650.0, change -0.0,
     pct -0.02, pos False *)
  quote_of_meta (quote_case (PFloat (S754_finite false 5826312115585024 (-41))) (PFloat (S754_finite false 5827411627212800 (-41)))) 0 =
    Ok (quote (PFloat (S754_finite false 5827411627212800 (-41))) (PFloat (S754_zero true))
              (PFloat (S754_finite true 5764607523034235 (-58))) false) /\
  (* price 2650, previous close 2649.5, 0 decimals: price 2650, change 0.0,
     pct 0.02, pos True *)
  quote_of_meta (quote_case (PInt 2650) (PFloat (S754_finite false 5826312115585024 (-41)))) 0 =
    Ok (quote (PInt 2650) (PFloat (S754_zero false))
              (PFloat (S754_finite false 5764607523034235 (-58))) true) /\
  (* price 95, previous close 100, 2 decimals: price 95, change -5,
     pct -5.0, pos False *)
  quote_of_meta (quote_case (PInt 95) (PInt 100)) 2 =
    Ok (quote (PInt 95) (PInt (-5))
              (PFloat (S754_finite true 5629499534213120 (-50))) false) /\
  (* price 3, previous close 7, 0 decimals: price 3, change -4,
     pct -57.14, pos False *)
  quote_of_meta (quote_case (PInt 3) (PInt 7)) 0 =
    Ok (quote (PInt 3) (PInt (-4))
              (PFloat (S754_finite true 8041740084623442 (-47))) false) /\
  (* price 1234.5678, previous close 1200.1234, 1 decimals: price 1234.6, change 34.4,
     pct 2.87, pos True *)
  quote_of_meta (quote_case (PFloat (S754_finite false 5429686605511341 (-42))) (PFloat (S754_finite false 5278198532264270 (-42)))) 1 =
    Ok (quote (PFloat (S754_finite false 5429828222608998 (-42))) (PFloat (S754_finite false 4841369599423283 (-47)))
              (PFloat (S754_finite false 6462665465276662 (-51))) true) /\
  (* price 1.125, previous close 1.0, 2 decimals: price 1.12, change 0.12,
     pct 12.5, pos True *)
  quote_of_meta (quote_case (PFloat (S754_finite false 5066549580791808 (-52))) (PFloat (S754_finite false 4503599627370496 (-52)))) 2 =
    Ok (quote (PFloat (S754_finite false 5044031582654956 (-52))) (PFloat (S754_finite false 8646911284551352 (-56)))
              (PFloat (S754_finite false 7036874417766400 (-49))) true) /\
  (* price 1.375, previous close 1.0, 2 decimals: price 1.38, change 0.38,
     pct 37.5, pos True *)
  quote_of_meta (quote_case (PFloat (S754_finite false 6192449487634432 (-52))) (PFloat (S754_finite false 4503599627370496 (-52)))) 2 =
    Ok (quote (PFloat (S754_finite false 6214967485771284 (-52))) (PFloat (S754_finite false 6845471433603154 (-54)))
              (PFloat (S754_finite false 5277655813324800 (-47))) true) /\
  (* price 1310.25, previous close 1312.75, 1 decimals: price 1310.2, change -2.5,
     pct -0.19, pos False *)
  quote_of_meta (quote_case (PFloat (S754_finite false 5762540441174016 (-42))) (PFloat (S754_finite false 5773535557451776 (-42)))) 1 =
    Ok (quote (PFloat (S754_finite false 5762320538848461 (-42))) (PFloat (S754_finite true 5629499534213120 (-51)))
              (PFloat (S754_finite true 6845471433603154 (-55))) false) /\
  (* price 0.5, previous close 1.5, 0 decimals: price 0.0, change -1.0,
     pct -66.67, pos False *)
  quote_of_meta (quote_case (PFloat (S754_finite false 4503599627370496 (-53))) (PFloat (S754_finite false 6755399441055744 (-52)))) 0 =
    Ok (quote (PFloat (S754_zero false)) (PFloat (S754_finite true 4503599627370496 (-52)))
              (PFloat (S754_finite true 4691484174324859 (-46))) false) /\
  (* price 4.3255, previous close 4.325, 3 decimals: price 4.325, change 0.0,
     pct 0.01, pos True *)
  quote_of_meta (quote_case (PFloat (S754_finite false 4870080047047770 (-50))) (PFloat (S754_finite false 4869517097094349 (-50)))) 3 =
    Ok (quote (PFloat (S754_finite false 4869517097094349 (-50))) (PFloat (S754_zero false))
              (PFloat (S754_finite false 5764607523034235 (-59))) true) /\
  (* price 99.6, previous close 100.0, 0 decimals: price 100.0, change -0.0,
     pct -0.4, pos False *)
  quote_of_meta (quote_case (PFloat (S754_finite false 7008726920095334 (-46))) (PFloat (S754_finite false 7036874417766400 (-46)))) 0 =
    Ok (quote (PFloat (S754_finite false 7036874417766400 (-46))) (PFloat (S754_zero true))
              (PFloat (S754_finite true 7205759403792794 (-54))) false).
Proof.
  split; [|split; [|split]].
  - intros meta dec q. unfold quote_of_meta, rbind.
    destruct (meta_get_default (regularMarketPrice meta) (PInt 0)) as [p|] eqn:Ep;
      [|discriminate].
    destruct (prev_close meta) as [q0|] eqn:Eq; [|discriminate].
    cbn [need_num truthy].
    destruct (py_sub p q0) as [change|] eqn:Es; [|discriminate].
    destruct (num_truthy q0) eqn:Et.
    + destruct (py_truediv change q0) as [d|] eqn:Ed; [|discriminate].
      destruct (py_mul d (PInt 100)) as [pct|] eqn:Em; [|discriminate].
      destruct (py_round p dec) as [rp|] eqn:E1; [|discriminate].
      destruct (py_round change dec) as [rc|] eqn:E2; [|discriminate].
      destruct (py_round pct 2) as [rpct|] eqn:E3; [|discriminate].
      intros [= <-].
      exists p, q0, change, pct, rp, rc, rpct. rewrite Et.
      repeat split; try assumption. exists d. split; assumption.
    + destruct (py_round p dec) as [rp|] eqn:E1; [|discriminate].
      destruct (py_round change dec) as [rc|] eqn:E2; [|discriminate].
      destruct (py_round (PInt 0) 2) as [rpct|] eqn:E3; [|discriminate].
      intros [= <-].
      exists p, q0, change, (PInt 0%Z), rp, rc, rpct. rewrite Et.
      repeat split; assumption.
  - intros meta dec H. unfold quote_of_meta, rbind in H.
    destruct (need_num (meta_get_default (regularMarketPrice meta) (PInt 0)))
      as [p|] eqn:Ep; [|injection H as ->; apply need_num_err in Ep; discriminate].
    destruct (prev_close meta) as [q0|] eqn:Eq;
      [|cbn [need_num] in H; discriminate H].
    cbn [need_num truthy] in H.
    destruct (py_sub p q0) as [change|] eqn:Es;
      [|injection H as ->; apply py_sub_err in Es; discriminate].
    destruct (num_truthy q0) eqn:Et.
    + destruct (py_truediv change q0) as [d|] eqn:Ed;
        [|injection H as ->; apply (py_truediv_err _ _ _ Et) in Ed; discriminate].
      destruct (py_mul d (PInt 100)) as [pct|] eqn:Em;
        [|injection H as ->; apply py_mul_err in Em; discriminate].
      destruct (py_round p dec) as [rp|] eqn:E1;
        [|injection H as ->; apply py_round_err in E1; discriminate].
      destruct (py_round change dec) as [rc|] eqn:E2;
        [|injection H as ->; apply py_round_err in E2; discriminate].
      destruct (py_round pct 2) as [rpct|] eqn:E3;
        [|injection H as ->; apply py_round_err in E3; discriminate].
      discriminate H.
    + destruct (py_round p dec) as [rp|] eqn:E1;
        [|injection H as ->; apply py_round_err in E1; discriminate].
      destruct (py_round change dec) as [rc|] eqn:E2;
        [|injection H as ->; apply py_round_err in E2; discriminate].
      destruct (py_round (PInt 0) 2) as [rpct|] eqn:E3;
        [|injection H as ->; apply py_round_err in E3; discriminate].
      discriminate H.
  - intros St yahoo symbol dec st st' meta q Hy Hq.
    unfold fetch_yahoo. rewrite Hy, Hq. reflexivity.
  - split; [|split; [|split]].
    { intros meta c Hc Ht. unfold prev_close, py_or.
      rewrite Hc. cbn [meta_get truthy]. rewrite Ht. reflexivity. }
    { intros meta c Hc Hp Ht. unfold prev_close, py_or.
      rewrite Hc, Hp. cbn [meta_get truthy]. rewrite Ht. reflexivity. }
    { intros meta Hc Hp. unfold prev_close, py_or. rewrite Hc, Hp. reflexivity. }
    split; [|split; [|split; [|split; [|split; [|split; [|split; [|split]]]]]]].
    { intros x y. split; [reflexivity|]. unfold py_ge0.
      apply Bool.eq_true_iff_eq. rewrite !Z.leb_le. lia. }
    { intros p q fp fq Hi Hp Hq. split.
      - destruct p as [x|f], q as [y|g]; try discriminate Hi;
          unfold py_sub, rbind; rewrite Hp, Hq; reflexivity.
      - intros Vp Vq Fp Fq. unfold py_ge0.
        apply sub_nonneg_iff_le; assumption. }
    { intros [z|[s|s| |s m e]]; try reflexivity; destruct s; reflexivity. }
    { intros f g Hg. unfold py_truediv, rbind. cbn [to_float].
      rewrite Hg. reflexivity. }
    { intros f. reflexivity. }
    { intros z d. reflexivity. }
    { intros s m e d Hd num den.
      destruct (round_float_spec s m e d Hd) as (r & R0 & R1 & R2 & R3).
      exists r. split; [exact R0|]. split; [exact R1|]. split; [exact R2|].
      unfold py_round, rbind. rewrite R3.
      destruct (r =? 0)%Z; [reflexivity|].
      destruct (ratio_to_float s (Z.to_pos r) (Z.to_pos (10 ^ Z.of_nat d)));
        reflexivity. }
    { intros f d [H|H].
      - destruct f; try discriminate H; reflexivity.
      - unfold py_round, rbind, round_float.
        destruct f; try reflexivity.
        apply Z.ltb_lt in H. rewrite H. reflexivity. }
    repeat split; vm_compute; reflexivity.
Qed.

Lemma index_quote_arithmetic_witness :
  (exists price prev change pct rprice rchange rpct,
     meta_get_default (regularMarketPrice meta_int) (PInt 0) = Some price /\
     prev_close meta_int = Some prev /\
     py_sub price prev = Ok change /\
     (if num_truthy prev
      then exists d, py_truediv change prev = Ok d /\
                     py_mul d (PInt 100) = Ok pct
      else pct = PInt 0) /\
     py_round price 2 = Ok rprice /\
     py_round change 2 = Ok rchange /\
     py_round pct 2 = Ok rpct /\
     [("price", JNum (PInt 100)); ("change", JNum (PInt 5));
      ("pct", JNum (PFloat f5_26)); ("pos", JBool true)] =
     [("price", JNum rprice); ("change", JNum rchange);
      ("pct", JNum rpct); ("pos", JBool (py_ge0 change))]) /\
  fetch_yahoo quoting_yahoo (u "^KS11") 2 0%nat =
    ([("price", JNum (PInt 100)); ("change", JNum (PInt 5));
      ("pct", JNum (PFloat f5_26)); ("pos", JBool true)], 1%nat) /\
  prev_close meta_int = Some (PInt 95) /\
  (* 99.6 after 100.0: the change is below zero *)
  py_ge0 (PFloat (SFsub prec emax
                    (S754_finite false 7008726920095334 (-46)) f100)) =
    SFleb f100 (S754_finite false 7008726920095334 (-46)) /\
  (* round(0.125, 2) *)
  (exists r : Z,
     (0 <= r)%Z /\
     (2 * Z.abs (r * 2 ^ Z.max (- (-55)) 0 -
                 Zpos 4503599627370496 * 10 ^ Z.of_nat 2 * 2 ^ Z.max (-55) 0)
      <= 2 ^ Z.max (- (-55)) 0)%Z /\
     ((2 * Z.abs (r * 2 ^ Z.max (- (-55)) 0 -
                  Zpos 4503599627370496 * 10 ^ Z.of_nat 2 * 2 ^ Z.max (-55) 0))%Z
      = (2 ^ Z.max (- (-55)) 0)%Z -> Z.even r = true) /\
     py_round (PFloat (S754_finite false 4503599627370496 (-55))) 2 =
       if (r =? 0)%Z then Ok (PFloat (S754_zero false))
       else match ratio_to_float false (Z.to_pos r) (Z.to_pos (10 ^ Z.of_nat 2)) with
            | S754_infinity _ => Err OverflowError
            | g => Ok (PFloat g)
            end).
Proof.
  destruct index_quote_arithmetic
    as (H & _ & Hf & Hp & _ & _ & _ & Hs & _ & _ & _ & _ & Hr & _).
  split; [|split; [|split; [|split]]].
  - apply (H meta_int 2%nat). vm_compute. reflexivity.
  - apply (Hf nat quoting_yahoo (u "^KS11") 2%nat 0%nat 1%nat meta_int).
    + reflexivity.
    + vm_compute. reflexivity.
  - apply (Hp meta_int (PInt 95)); reflexivity.
  - apply (Hs (PFloat (S754_finite false 7008726920095334 (-46))) (PFloat f100));
      reflexivity.
  - apply (Hr false 4503599627370496%positive (-55)%Z 2%nat). simpl. lia.
Defined.

(** C9, as worded, fails: pos is not (change >= 0) on the change the
    quote holds.  With a price of 2649.5 after 2650.0 and no decimals
    the stored change is -0.0, which is >= 0, and pos is false. *)
Lemma index_quote_pos_counterexample :
  exists (q : dict) (change : float),
    fetch_yahoo (fun (st : nat) (_ : pystr) =>
                   (Ok (quote_case
                          (PFloat (S754_finite false 5826312115585024 (-41)))
                          (PFloat (S754_finite false 5827411627212800 (-41)))),
                    S st))
                (u "^KS11") 0 0%nat = (q, 1%nat) /\
    dict_get "change" q = Some (JNum (PFloat change)) /\
    change = S754_zero true /\
    SFleb (S754_zero false) change = true /\
    py_ge0 (PFloat change) = true /\
    dict_get "pos" q = Some (JBool false).
Proof.
  do 2 eexists. split; [vm_compute; reflexivity|].
  repeat split; vm_compute; reflexivity.
Qed.
(* ================================================================== *)
(** * Further properties of the code *)
(* ================================================================== *)

(** ** Splitting and the line loops *)

Lemma split_on_length (c : char) (s : pystr) :
  List.length (split_on c s) = S (count_char c s).
Proof.
  unfold count_char. induction s as [|x r IH]; simpl; [reflexivity|].
  rewrite (N.eqb_sym c x). destruct (x =? c); simpl.
  - rewrite IH. reflexivity.
  - destruct (split_on c r); simpl in *; [discriminate IH | exact IH].
Qed.

Lemma split_on_app_sep (c : char) (a b : pystr) :
  split_on c (a ++ c :: b) = split_on c a ++ split_on c b.
Proof.
  induction a as [|x r IH]; simpl.
  - rewrite N.eqb_refl. reflexivity.
  - destruct (x =? c); rewrite IH; [reflexivity|].
    pose proof (split_on_nonnil c r) as Hn.
    destruct (split_on c r); [contradiction | reflexivity].
Qed.

Lemma split_on_snoc (c x : char) (t : pystr) :
  x <> c ->
  exists init lst,
    split_on c t = init ++ [lst] /\
    split_on c (t ++ [x]) = init ++ [lst ++ [x]].
Proof.
  intros Hx. induction t as [|y r (init & lst & E1 & E2)]; simpl.
  - exists [], []. simpl. destruct (N.eqb_spec x c); [contradiction|].
    split; reflexivity.
  - destruct (y =? c).
    + exists ([] :: init), lst. rewrite E1, E2. split; reflexivity.
    + rewrite E1, E2. destruct init as [|i rest]; simpl.
      * exists [], (y :: lst). split; reflexivity.
      * exists ((y :: i) :: rest), lst. split; reflexivity.
Qed.

Lemma split_on_in (c x : char) (s l : pystr) :
  In l (split_on c s) -> In x l -> In x s /\ x <> c.
Proof.
  revert l. induction s as [|y r IH]; simpl; intros l Hl Hx.
  - destruct Hl as [<-|[]]. destruct Hx.
  - destruct (N.eqb_spec y c) as [->|Hne].
    + destruct Hl as [<-|Hl]; [destruct Hx|].
      destruct (IH l Hl Hx) as [H1 H2]. split; [right; exact H1 | exact H2].
    + pose proof (split_on_nonnil c r) as Hn.
      destruct (split_on c r) as [|h t]; [contradiction|].
      destruct Hl as [<-|Hl].
      * destruct Hx as [<-|Hx]; [split; [left; reflexivity | exact Hne]|].
        destruct (IH h (or_introl eq_refl) Hx) as [H1 H2].
        split; [right; exact H1 | exact H2].
      * destruct (IH l (or_intror Hl) Hx) as [H1 H2].
        split; [right; exact H1 | exact H2].
Qed.

Lemma remove_char_app (c : char) (a b : pystr) :
  remove_char c (a ++ b) = remove_char c a ++ remove_char c b.
Proof. apply filter_app. Qed.

Lemma lines_app (a b : pystr) :
  split_on LF (remove_char CR (a ++ LF :: b)) =
  split_on LF (remove_char CR a) ++ split_on LF (remove_char CR b).
Proof.
  rewrite remove_char_app.
  change (remove_char CR (LF :: b)) with (LF :: remove_char CR b).
  apply split_on_app_sep.
Qed.

Lemma mem_In (c : char) (s : pystr) : mem c s = true <-> In c s.
Proof.
  unfold mem. rewrite existsb_exists. split.
  - intros (x & Hx & E). apply N.eqb_eq in E. subst. exact Hx.
  - intros H. exists c. split; [exact H | apply N.eqb_refl].
Qed.

Lemma Forall2_map_spec {A B} (f : A -> B) (P : A -> B -> Prop) (l : list A) :
  (forall a, P a (f a)) -> Forall2 P l (map f l).
Proof. intros H. induction l; simpl; constructor; auto. Qed.

Lemma filter_none {A} (f : A -> bool) (l : list A) :
  (forall x, In x l -> f x = false) -> filter f l = [].
Proof.
  induction l as [|a r IH]; simpl; intros H; [reflexivity|].
  rewrite (H a (or_introl eq_refl)). apply IH.
  intros x Hx. apply H. right. exact Hx.
Qed.

(** X1.  parse_pipe returns one row per line that holds a pipe, in the
    order of the lines; the row of a line is the list of its
    pipe-separated parts, trimmed, so it has one field more than the
    line has pipes.  Lines without a pipe leave no trace. *)
Theorem parse_pipe_rows_per_line (text : pystr) :
  List.length (parse_pipe text) = List.length (pipe_lines text) /\
  Forall2 (fun l parts =>
             parts = map strip (split_on PIPE l) /\
             List.length parts = S (count_char PIPE l))
          (pipe_lines text) (parse_pipe text).
Proof.
  rewrite parse_pipe_spec. fold (pipe_lines text). split.
  - apply length_map.
  - apply Forall2_map_spec. intros l. split; [reflexivity|].
    rewrite length_map. apply split_on_length.
Qed.

(** X2.  parse_pipe works line by line: the rows of two texts joined by
    a line feed are the rows of the first followed by the rows of the
    second; and a text without any pipe has no rows. *)
Theorem parse_pipe_line_local :
  (forall a b : pystr, parse_pipe (a ++ LF :: b) = parse_pipe a ++ parse_pipe b) /\
  (forall text : pystr, mem PIPE text = false -> parse_pipe text = []).
Proof.
  split.
  - intros a b. rewrite !parse_pipe_spec, lines_app, filter_app, map_app.
    reflexivity.
  - intros text Hno. rewrite parse_pipe_spec.
    rewrite filter_none; [reflexivity|]. intros l Hl.
    destruct (mem PIPE l) eqn:E; [|reflexivity].
    apply mem_In in E.
    destruct (split_on_in LF PIPE _ l Hl E) as [Hin _].
    apply filter_In in Hin. destruct Hin as [Hin _].
    apply mem_In in Hin. congruence.
Qed.

Lemma parse_pipe_line_local_witness : parse_pipe text_no_pipe = [].
Proof.
  destruct parse_pipe_line_local as (_ & H). apply H. reflexivity.
Defined.

(** ** The segmenting loop of parse_db1 and parse_db3 *)

(** X3.  The segmenting loop works line by line: the items of two texts
    joined by a line feed are the items of the first followed by the
    items of the second. *)
Theorem segment_lines_line_local (a b : pystr) :
  segment_lines (a ++ LF :: b) = segment_lines a ++ segment_lines b.
Proof.
  unfold segment_lines. rewrite !segment_loop_spec. cbn [app].
  rewrite lines_app, map_app, filter_app. reflexivity.
Qed.

Lemma no_lead_app_l (p : char -> bool) (a b : pystr) :
  a <> [] -> no_lead p (a ++ b) -> no_lead p a.
Proof. destruct a; [congruence | simpl; auto]. Qed.

Lemma lstrip_by_keeps_end (p q : char -> bool) (s : pystr) :
  no_lead q (rev s) -> no_lead q (rev (lstrip_by p s)).
Proof.
  induction s as [|c r IH]; simpl; [auto|].
  intros H. destruct (p c); [|exact H].
  apply IH. destruct (rev r) eqn:E; [exact I|].
  apply (no_lead_app_l q _ [c]); [discriminate | exact H].
Qed.

Lemma in_lstrip_by (p : char -> bool) (x : char) (s : pystr) :
  In x (lstrip_by p s) -> In x s.
Proof.
  induction s as [|c r IH]; simpl; [auto|].
  destruct (p c); [right; auto | auto].
Qed.

Lemma in_strip (x : char) (s : pystr) : In x (strip s) -> In x s.
Proof.
  unfold strip, rstrip_by. intros H.
  apply (proj2 (in_rev _ _)) in H. apply in_lstrip_by in H.
  apply (proj2 (in_rev _ _)) in H. apply in_lstrip_by in H. exact H.
Qed.

Lemma in_clean_line (x : char) (l : pystr) : In x (clean_line l) -> In x l.
Proof. intros H. apply in_lstrip_by in H. apply in_strip. exact H. Qed.

Lemma clean_line_end (l : pystr) : no_lead is_space (rev (clean_line l)).
Proof.
  apply lstrip_by_keeps_end. unfold strip, rstrip_by.
  rewrite rev_involutive. apply lstrip_by_no_lead.
Qed.

Lemma segment_items_all (raw : pystr) :
  Forall segment_item (segment_lines raw).
Proof.
  unfold segment_lines. rewrite segment_loop_spec. cbn [app].
  apply Forall_forall. intros item Hitem.
  apply filter_In in Hitem. destruct Hitem as [Hin Hne].
  apply in_map_iff in Hin. destruct Hin as (l & <- & Hl).
  split; [destruct (clean_line l); [discriminate | discriminate]|].
  split; [apply (lstrip_by_no_lead (fun c => mem c ENUM_CHARS))|].
  split; [apply clean_line_end|].
  split; intros Hx; apply in_clean_line in Hx;
    destruct (split_on_in LF _ _ l Hl Hx) as [Hraw Hlf].
  - congruence.
  - apply filter_In in Hraw. destruct Hraw as [_ Hcr].
    rewrite N.eqb_refl in Hcr. discriminate.
Qed.

(** X4.  Every item the segmenting loop produces is non-empty, starts
    with no enumeration character, ends with no whitespace and holds
    neither a line feed nor a carriage return. *)
Theorem segment_lines_items (raw : pystr) :
  Forall segment_item (segment_lines raw).
Proof. exact (segment_items_all raw). Qed.

Lemma segment_lines_unfold (raw : pystr) :
  segment_lines raw =
  filter nonempty (map clean_line (split_on LF (remove_char CR raw))).
Proof. unfold segment_lines. rewrite segment_loop_spec. reflexivity. Qed.

Lemma strip_cons_space (c : char) (h : pystr) :
  is_space c = true -> strip (c :: h) = strip h.
Proof. intros H. unfold strip. simpl. rewrite H. reflexivity. Qed.

Lemma strip_snoc_space (c : char) (l : pystr) :
  is_space c = true -> strip (l ++ [c]) = strip l.
Proof.
  intros H. unfold strip. rewrite lstrip_by_snoc, H.
  destruct (lstrip_by is_space l) as [|a y]; [reflexivity|].
  unfold rstrip_by. rewrite rev_app_distr. simpl rev at 1. cbn [app lstrip_by].
  rewrite H. reflexivity.
Qed.

Lemma clean_line_cons_space (c : char) (h : pystr) :
  is_space c = true -> clean_line (c :: h) = clean_line h.
Proof. intros H. unfold clean_line. rewrite (strip_cons_space c h H). reflexivity. Qed.

Lemma clean_line_snoc_space (c : char) (l : pystr) :
  is_space c = true -> clean_line (l ++ [c]) = clean_line l.
Proof. intros H. unfold clean_line. rewrite (strip_snoc_space c l H). reflexivity. Qed.

Lemma segment_lines_cons_space (c : char) (s : pystr) :
  is_space c = true -> segment_lines (c :: s) = segment_lines s.
Proof.
  intros H. rewrite !segment_lines_unfold. simpl remove_char.
  destruct (N.eqb_spec c CR) as [->|Hcr]; simpl negb; cbv iota; [reflexivity|].
  simpl split_on.
  destruct (N.eqb_spec c LF) as [->|Hlf]; [reflexivity|].
  pose proof (split_on_nonnil LF (remove_char CR s)) as Hn.
  destruct (split_on LF (remove_char CR s)) as [|h t]; [contradiction|].
  cbn [map filter]. rewrite (clean_line_cons_space c h H). reflexivity.
Qed.

Lemma segment_lines_snoc_space (c : char) (s : pystr) :
  is_space c = true -> segment_lines (s ++ [c]) = segment_lines s.
Proof.
  intros H. rewrite !segment_lines_unfold, remove_char_app.
  destruct (N.eqb_spec c CR) as [->|Hcr]; [rewrite app_nil_r; reflexivity|].
  assert (Hr : remove_char CR [c] = [c]).
  { simpl. destruct (N.eqb_spec c CR); [contradiction | reflexivity]. }
  rewrite Hr.
  destruct (N.eqb_spec c LF) as [->|Hlf].
  - rewrite split_on_app_sep, map_app, filter_app. simpl. apply app_nil_r.
  - destruct (split_on_snoc LF c (remove_char CR s) Hlf) as (init & lst & E1 & E2).
    rewrite E1, E2, !map_app, !filter_app. f_equal. cbn [map filter].
    rewrite (clean_line_snoc_space c lst H). reflexivity.
Qed.

Lemma segment_lines_lstrip (s : pystr) :
  segment_lines (lstrip_by is_space s) = segment_lines s.
Proof.
  induction s as [|c r IH]; simpl; [reflexivity|].
  destruct (is_space c) eqn:E; [|reflexivity].
  rewrite IH. symmetry. apply segment_lines_cons_space. exact E.
Qed.

Lemma segment_lines_rstrip (s : pystr) :
  segment_lines (rstrip_by is_space s) = segment_lines s.
Proof.
  unfold rstrip_by. rewrite <- (rev_involutive s) at 2.
  induction (rev s) as [|c r IH]; simpl; [reflexivity|].
  destruct (is_space c) eqn:E; [|reflexivity].
  rewrite IH. symmetry. apply segment_lines_snoc_space. exact E.
Qed.

Lemma segment_lines_strip (raw : pystr) :
  segment_lines (strip raw) = segment_lines raw.
Proof.
  unfold strip. rewrite segment_lines_rstrip. apply segment_lines_lstrip.
Qed.

Lemma news_entries_headlines (lines : list pystr) :
  flat_map (fun l => opt_list (news_entry l)) lines =
  map headline_item (filter nonempty (map clean_line lines)).
Proof.
  induction lines as [|l rest IH]; simpl; [reflexivity|].
  rewrite IH. unfold news_entry.
  destruct (nonempty (clean_line l)); reflexivity.
Qed.

(** X5.  The news normaliser emits exactly one item per item of the
    segmenting loop run on the body of the first row, in order, each
    with that item as its headline: the [.strip()] and the empty-body
    early return of parse_db3 change nothing, so parse_db1 and parse_db3
    cut their texts alike. *)
Theorem news_are_segmented_lines (r : row) (rest : list row) :
  news_of (db3_of_rows (r :: rest)) =
  map headline_item (segment_lines (get_prop r "AI 뉴스 요약" T_rich_text)).
Proof.
  rewrite <- segment_lines_strip. unfold db3_of_rows.
  destruct (strip (get_prop r "AI 뉴스 요약" T_rich_text)) as [|c raw] eqn:E.
  - reflexivity.
  - cbn [nonempty negb]. unfold news_of. cbn [dict_get String.eqb Ascii.eqb Bool.eqb].
    rewrite append_loop_spec. cbn [app].
    rewrite news_entries_headlines, segment_lines_unfold. reflexivity.
Qed.

(** ** The normalisers' entries *)

Lemma Forall_firstn {A} (P : A -> Prop) (n : nat) (l : list A) :
  Forall P l -> Forall P (firstn n l).
Proof.
  revert n. induction l as [|a r IH]; intros n H; destruct n; simpl;
    try constructor.
  - inversion H; assumption.
  - apply IH. inversion H; assumption.
Qed.

(** X6.  Without a row for today parse_db1 yields the empty summary and
    the empty strength; otherwise the strength is the select value of
    the first row as it is, and the summary is the first three items of
    the segmenting loop on that row's text: at most three lines, none
    empty, none starting with an enumeration character. *)
Theorem daily_summary_lines :
  db1_of_rows [] = [("summary", JList []); ("market_strength", JStr [])] /\
  forall (r : row) (rest : list row),
  exists s,
    db1_of_rows (r :: rest) =
      [("summary", JList (map JStr s));
       ("market_strength", JStr (get_prop r "시장 강도" T_select))] /\
    s = firstn 3 (segment_lines (get_prop r "AI 3줄 요약" T_rich_text)) /\
    (List.length s <= 3)%nat /\
    Forall segment_item s.
Proof.
  split; [reflexivity|]. intros r rest.
  exists (firstn 3 (segment_lines (get_prop r "AI 3줄 요약" T_rich_text))).
  split; [reflexivity|]. split; [reflexivity|]. split.
  - apply firstn_le_length.
  - apply Forall_firstn, segment_items_all.
Qed.

Lemma flat_map_opt_Forall {A} (P : json -> Prop) (entry : A -> option json)
  (Q : A -> Prop) (l : list A) :
  Forall Q l ->
  (forall x j, Q x -> entry x = Some j -> P j) ->
  Forall P (flat_map (fun x => opt_list (entry x)) l).
Proof.
  intros Hl H. induction Hl as [|x r Hx Hr IH]; simpl; [constructor|].
  apply Forall_app. split; [|exact IH].
  destruct (entry x) as [j|] eqn:E; simpl; [|constructor].
  constructor; [exact (H x j Hx E) | constructor].
Qed.

Lemma parse_pipe_stripped (text : pystr) :
  Forall (Forall (fun f => strip f = f)) (parse_pipe text).
Proof.
  rewrite parse_pipe_spec. apply Forall_forall. intros parts Hp.
  apply in_map_iff in Hp. destruct Hp as (l & <- & _).
  apply Forall_forall. intros f Hf. apply in_map_iff in Hf.
  destruct Hf as (g & <- & _). apply strip_idem.
Qed.

Lemma nth_stripped (parts : list pystr) (n : nat) :
  Forall (fun f => strip f = f) parts -> strip (nth n parts []) = nth n parts [].
Proof.
  intros H. revert n. induction H as [|f r Hf Hr IH]; intros n;
    destruct n; simpl; auto.
Qed.

Lemma sector_entry_ok (parts : list pystr) (j : json) :
  sector_entry parts = Some j -> sector_ok j.
Proof.
  unfold sector_entry.
  destruct (2 <=? List.length parts)%nat; [|discriminate].
  destruct (nth 0 parts []) as [|c name] eqn:En; [discriminate|].
  cbn [andb nonempty]. intros [= <-].
  eexists (c :: name), _. split; [reflexivity|]. split; [discriminate|].
  destruct (nth 1 parts []) as [|d chg]; [left; reflexivity|].
  cbn [nonempty andb]. right.
  destruct (startswith_any [PLUS; MINUS] (d :: chg)) eqn:E; [exact E | reflexivity].
Qed.

Lemma stock_entry_ok (parts : list pystr) (j : json) :
  Forall (fun f => strip f = f) parts ->
  stock_entry parts = Some j -> stock_ok j.
Proof.
  intros Hs. unfold stock_entry.
  destruct (4 <=? List.length parts)%nat; [|discriminate].
  destruct (nth 0 parts []) as [|c name] eqn:En; [discriminate|].
  cbn [andb nonempty]. intros [= <-].
  rewrite (nth_stripped parts 3 Hs).
  eexists (c :: name), _, _, _. split; [reflexivity | discriminate].
Qed.

(** X7.  Every sector parse_db2 emits has a non-empty name; its change
    string is empty or starts with a plus or a minus sign; and its value
    is the float safe_float reads from the stored change string. *)
Theorem sectors_are_signed (rows : list row) :
  Forall sector_ok (sectors_of (db2_of_rows rows)).
Proof.
  destruct rows as [|r rest]; [constructor|].
  unfold db2_of_rows, sectors_of. cbn [dict_get String.eqb Ascii.eqb Bool.eqb].
  rewrite append_loop_spec. cbn [app].
  apply (flat_map_opt_Forall sector_ok sector_entry (fun _ => True)).
  - apply Forall_forall. intros; exact I.
  - intros parts j _. apply sector_entry_ok.
Qed.

(** X8.  Every highlight parse_db2 emits comes from a pipe row with at
    least four fields and has a non-empty name; its [pos] flag is false
    exactly when the stored change string starts with a minus sign. *)
Theorem stocks_follow_sign (rows : list row) :
  Forall stock_ok (stocks_of (db2_of_rows rows)) /\
  forall parts : list pystr,
    (List.length parts < 4)%nat -> stock_entry parts = None.
Proof.
  split.
  - destruct rows as [|r rest]; [constructor|].
    unfold db2_of_rows, stocks_of. cbn [dict_get String.eqb Ascii.eqb Bool.eqb].
    rewrite (append_loop_spec stock_entry). cbn [app].
    apply (flat_map_opt_Forall stock_ok stock_entry
             (Forall (fun f => strip f = f))).
    + apply parse_pipe_stripped.
    + intros parts j. apply stock_entry_ok.
  - intros parts Hlen. unfold stock_entry.
    apply Nat.leb_gt in Hlen. rewrite Hlen. reflexivity.
Qed.

Lemma stocks_follow_sign_witness :
  stock_entry [u "X"; u "r"; u "1,000"] = None.
Proof.
  destruct (stocks_follow_sign []) as (_ & H). apply H. simpl. lia.
Defined.

Lemma str_or_nonempty (s d : pystr) : d <> [] -> str_or s d <> [].
Proof. unfold str_or. destruct s; simpl; [auto | discriminate]. Qed.

Lemma rec_entry_ok (i : nat) (r : row) (j : json) :
  rec_entry i r = Some j -> rec_ok j.
Proof.
  unfold rec_entry.
  destruct (get_prop r "종목명" T_rich_text) as [|c name]; [discriminate|].
  cbn [nonempty negb]. intros [= <-].
  eexists (c :: name), _, _, _, _. split; [reflexivity|].
  split; [discriminate|].
  split; apply str_or_nonempty; vm_compute; discriminate.
Qed.

(** X9.  Every recommendation parse_db4 emits has a non-empty name, a
    non-empty grade and a non-empty time frame: a row whose grade select
    is empty gets the grade B, one whose time-frame select is empty gets
    the dash; a row without a name is not emitted. *)
Theorem recommendations_defaults :
  (forall rows : list row,
     Forall rec_ok (recommendations_of (db4_of_rows rows))) /\
  (forall (i : nat) (r : row) (j : json),
     rec_entry i r = Some j ->
     (get_prop r "추천등급" T_select = [] ->
      field "grade" j = Some (JStr [66])) /\
     (get_prop r "투자기간" T_select = [] ->
      field "timeframe" j = Some (JStr [8212])) /\
     (get_prop r "추천등급" T_select <> [] ->
      field "grade" j = Some (JStr (get_prop r "추천등급" T_select))) /\
     (get_prop r "투자기간" T_select <> [] ->
      field "timeframe" j = Some (JStr (get_prop r "투자기간" T_select)))) /\
  (forall (i : nat) (r : row),
     get_prop r "종목명" T_rich_text = [] -> rec_entry i r = None).
Proof.
  split; [|split].
  - intros rows. rewrite db4_recs.
    apply (flat_map_opt_Forall rec_ok
             (fun ir : nat * row => rec_entry (fst ir) (snd ir)) (fun _ => True)).
    + apply Forall_forall. intros; exact I.
    + intros [i r] j _. apply rec_entry_ok.
  - intros i r j. unfold rec_entry.
    destruct (get_prop r "종목명" T_rich_text) as [|c name]; [discriminate|].
    cbn [nonempty negb]. intros [= <-]. cbn [field dict_get String.eqb Ascii.eqb Bool.eqb].
    repeat split; intros H.
    + rewrite H. reflexivity.
    + rewrite H. reflexivity.
    + unfold str_or. destruct (get_prop r "추천등급" T_select); [congruence | reflexivity].
    + unfold str_or. destruct (get_prop r "투자기간" T_select); [congruence | reflexivity].
  - intros i r H. unfold rec_entry. rewrite H. reflexivity.
Qed.

Lemma recommendations_defaults_witness :
  field "grade" (JDict [("name", JStr (u "SK하이닉스")); ("grade", JStr [66]);
                        ("timeframe", JStr [8212]); ("reason", JStr []);
                        ("featured", JBool false)]) = Some (JStr [66]) /\
  rec_entry 0 (rec_row [] (u "A") (u "단기")) = None.
Proof.
  destruct recommendations_defaults as (_ & H & Hnone). split.
  - refine (proj1 (H 1%nat (rec_row (u "SK하이닉스") [] []) _ _) _).
    + vm_compute. reflexivity.
    + reflexivity.
  - apply Hnone. reflexivity.
Defined.

(** ** Table discovery *)

Section Discovery.
Context {St : Type}.
Variable n_get : St -> pystr -> option pystr -> result children_page * St.

Lemma get_child_dbs_loop_serves (page_id : pystr) (st : St)
  (cursor : option pystr) (ps : list children_page) (st' : St) :
  serves_children n_get page_id st cursor ps st' ->
  forall (fuel : nat) (dbs : list db),
    (List.length ps <= fuel)%nat ->
    get_child_dbs_loop n_get fuel page_id dbs cursor st =
    (Done (dbs ++ flat_map child_db_of (List.concat (map cp_results ps))), st').
Proof.
  induction 1 as [st cursor p st' Hp Hlast
                 |st cursor p st' ps st'' Hp Hmore Hrest IH];
    intros fuel dbs Hfuel.
  - destruct fuel as [|fuel]; [simpl in Hfuel; lia|].
    simpl. unfold bind, call. rewrite Hp, Hlast. simpl.
    rewrite app_nil_r. reflexivity.
  - destruct fuel as [|fuel]; [simpl in Hfuel; lia|].
    simpl. unfold bind, call. rewrite Hp, Hmore.
    cbv beta iota delta [negb].
    rewrite IH by (simpl in Hfuel; lia).
    rewrite flat_map_app, app_assoc. reflexivity.
Qed.

End Discovery.

Lemma child_dbs_hyphen_free (blocks : list block) :
  Forall (fun d => ~ In MINUS (db_id d)) (flat_map child_db_of blocks).
Proof.
  induction blocks as [|b r IH]; simpl; [constructor|].
  apply Forall_app. split; [|exact IH].
  destruct b as [id title|]; simpl; [|constructor].
  constructor; [|constructor]. simpl. intros H.
  apply filter_In in H. destruct H as [_ H].
  rewrite N.eqb_refl in H. discriminate.
Qed.

Lemma child_dbs_count (blocks : list block) :
  List.length (flat_map child_db_of blocks) =
  List.length (filter is_child_database blocks).
Proof.
  induction blocks as [|b r IH]; simpl; [reflexivity|].
  rewrite length_app, IH. destruct b; reflexivity.
Qed.

(** X10.  get_child_dbs follows the cursors of the block listing until a
    page reports no further page and returns one entry per
    child_database block of all pages, in the order met, other blocks
    being skipped; every id it returns is free of hyphens. *)
Theorem get_child_dbs_collects
  (St : Type)
  (n_get : St -> pystr -> option pystr -> result children_page * St)
  (page_id : pystr) (st st' : St) (ps : list children_page) (fuel : nat) :
  serves_children n_get page_id st None ps st' ->
  (List.length ps <= fuel)%nat ->
  let blocks := List.concat (map cp_results ps) in
  exists dbs,
    get_child_dbs n_get fuel page_id st = (Done dbs, st') /\
    dbs = flat_map child_db_of blocks /\
    List.length dbs = List.length (filter is_child_database blocks) /\
    Forall (fun d => ~ In MINUS (db_id d)) dbs.
Proof.
  intros Hs Hfuel blocks.
  exists (flat_map child_db_of blocks). split.
  - unfold get_child_dbs.
    apply (get_child_dbs_loop_serves n_get page_id st None ps st' Hs fuel [] Hfuel).
  - split; [reflexivity|]. split.
    + apply child_dbs_count.
    + apply child_dbs_hyphen_free.
Qed.

Lemma paged_get_serves :
  serves_children paged_get (u "root") 0%nat None
    [children_page1; children_page2] 2%nat.
Proof.
  eapply children_more; [reflexivity | reflexivity |].
  apply children_last; reflexivity.
Defined.

Lemma get_child_dbs_collects_witness :
  exists dbs,
    get_child_dbs paged_get 2 (u "root") 0%nat = (Done dbs, 2%nat) /\
    dbs = flat_map child_db_of
            (List.concat (map cp_results [children_page1; children_page2])) /\
    List.length dbs =
      List.length (filter is_child_database
                     (List.concat (map cp_results [children_page1; children_page2]))) /\
    Forall (fun d => ~ In MINUS (db_id d)) dbs.
Proof.
  apply (get_child_dbs_collects nat paged_get (u "root") 0%nat 2%nat
           [children_page1; children_page2] 2%nat paged_get_serves).
  simpl. lia.
Defined.

(** ** Loops without an iteration cap *)

Section Endless.
Context {St : Type}.
Variable n_get : St -> pystr -> option pystr -> result children_page * St.
Variable n_post : St -> pystr -> query_body -> result query_page * St.

Lemma query_loop_endless :
  (forall st id b, exists p st',
      n_post st id b = (Ok p, st') /\ qp_has_more p = true) ->
  forall fuel db_id body rows cursor st,
    fst (query_loop n_post fuel db_id body rows cursor st) = Diverged.
Proof.
  intros Hmore. induction fuel as [|fuel IH]; intros db_id body rows cursor st;
    [reflexivity|].
  simpl. unfold bind, call.
  destruct (Hmore st db_id (next_request body cursor)) as (p & st' & -> & ->).
  cbv beta iota delta [negb]. apply IH.
Qed.

Lemma get_child_dbs_loop_endless :
  (forall st id c, exists p st',
      n_get st id c = (Ok p, st') /\ cp_has_more p = true) ->
  forall fuel page_id dbs cursor st,
    fst (get_child_dbs_loop n_get fuel page_id dbs cursor st) = Diverged.
Proof.
  intros Hmore. induction fuel as [|fuel IH]; intros page_id dbs cursor st;
    [reflexivity|].
  simpl. unfold bind, call.
  destruct (Hmore st page_id (cursor_truthy cursor)) as (p & st' & -> & ->).
  cbv beta iota delta [negb]. apply IH.
Qed.

End Endless.

(** X11.  The pagination loops have no iteration cap: against an
    endpoint that reports a further page on every reply, query_by_date
    and get_child_dbs do not return after any number of iterations, and
    with the configuration set main never gets to write a document. *)
Theorem endless_pages_never_return :
  (forall (St : Type)
          (n_post : St -> pystr -> query_body -> result query_page * St),
     (forall st id b, exists p st',
         n_post st id b = (Ok p, st') /\ qp_has_more p = true) ->
     forall fuel db_id date_col today st,
       fst (query_by_date n_post fuel db_id date_col today st) = Diverged) /\
  (forall (St : Type)
          (n_get : St -> pystr -> option pystr -> result children_page * St)
          (n_post : St -> pystr -> query_body -> result query_page * St)
          (yahoo : St -> pystr -> result chart_meta * St),
     (forall st id c, exists p st',
         n_get st id c = (Ok p, st') /\ cp_has_more p = true) ->
     forall fuel e st,
       fst (get_child_dbs n_get fuel (NOTION_PAGE_ID e) st) = Diverged /\
       (nonempty (NOTION_TOKEN e) = true -> nonempty (NOTION_PAGE_ID e) = true ->
        fst (main n_get n_post yahoo fuel e st) = Diverged)).
Proof.
  split.
  - intros St n_post Hmore fuel db_id date_col today st.
    unfold query_by_date. apply query_loop_endless. exact Hmore.
  - intros St n_get n_post yahoo Hmore fuel e st.
    pose proof (get_child_dbs_loop_endless n_get Hmore fuel
                  (NOTION_PAGE_ID e) [] None st) as Hd.
    split; [exact Hd|]. intros Ht Hp.
    unfold main, fetch_notion, bind. rewrite Ht, Hp. cbn [andb].
    unfold get_child_dbs.
    destruct (get_child_dbs_loop n_get fuel (NOTION_PAGE_ID e) [] None st)
      as [[dbs|x|] s]; simpl in Hd; try discriminate Hd. reflexivity.
Qed.

Lemma endless_pages_never_return_witness :
  fst (query_by_date endless_post 1000 (u "d1") "날짜" (u "2026-02-20") 0%nat)
    = Diverged /\
  fst (main endless_get endless_post quoting_yahoo 1000 env_fixture 0%nat)
    = Diverged.
Proof.
  destruct endless_pages_never_return as (Hq & Hg). split.
  - apply (Hq nat endless_post).
    intros st id b. eexists _, _. split; reflexivity.
  - refine (proj2 (Hg nat endless_get endless_post quoting_yahoo _ 1000%nat
                      env_fixture 0%nat) eq_refl eq_refl).
    intros st id c. eexists _, _. split; reflexivity.
Defined.

(** ** Exceptions of the document store *)

Section Raising.
Context {St : Type}.
Variable n_post : St -> pystr -> query_body -> result query_page * St.

Lemma query_loop_raises (db_id : pystr) (n : nat) (st : St) (body : query_body)
  (x : exn) (st' : St) :
  raises_after n_post db_id n st body x st' ->
  forall (fuel : nat) (body0 : query_body) (cursor : option pystr) (rows : list row),
    (n < fuel)%nat ->
    next_request body0 cursor = body ->
    query_loop n_post fuel db_id body0 rows cursor st = (Raised x, st').
Proof.
  induction 1 as [st body x st' Hx
                 |n st body p st' x st'' Hp Hmore Hrest IH];
    intros fuel body0 cursor rows Hfuel Hbody.
  - destruct fuel as [|fuel]; [lia|].
    simpl. rewrite Hbody. unfold bind, call. rewrite Hx. reflexivity.
  - destruct fuel as [|fuel]; [lia|].
    simpl. rewrite Hbody. unfold bind, call. rewrite Hp, Hmore.
    cbv beta iota delta [negb].
    apply IH; [lia | reflexivity].
Qed.

End Raising.

(** X12.  When a later page of a date query raises, query_by_date raises
    too: the rows of the pages already read are dropped, and the
    normaliser built on the query (parse_db1, parse_db2, parse_db4)
    raises with it instead of returning a partial result. *)
Theorem query_exception_drops_rows
  (St : Type) (n_post : St -> pystr -> query_body -> result query_page * St)
  (db_id today : pystr) (n fuel : nat) (st st' : St) (x : exn) :
  (n < fuel)%nat ->
  (forall date_col,
     raises_after n_post db_id n st (date_body date_col today) x st' ->
     query_by_date n_post fuel db_id date_col today st = (Raised x, st')) /\
  (raises_after n_post db_id n st (date_body "날짜" today) x st' ->
   parse_db1 n_post fuel db_id today st = (Raised x, st') /\
   parse_db4 n_post fuel db_id today st = (Raised x, st')) /\
  (raises_after n_post db_id n st (date_body "종목명" today) x st' ->
   parse_db2 n_post fuel db_id today st = (Raised x, st')).
Proof.
  intros Hfuel.
  assert (Hq : forall date_col,
             raises_after n_post db_id n st (date_body date_col today) x st' ->
             query_by_date n_post fuel db_id date_col today st = (Raised x, st')).
  { intros date_col Hr. unfold query_by_date.
    apply (query_loop_raises n_post db_id n st _ x st' Hr fuel _ None []);
      [exact Hfuel | reflexivity]. }
  split; [exact Hq|]. split.
  - intros Hr. split.
    + apply parse_db1_raises, Hq, Hr.
    + apply parse_db4_raises, Hq, Hr.
  - intros Hr. apply parse_db2_raises, Hq, Hr.
Qed.

Lemma flaky_post_raises (date_col : string) :
  raises_after flaky_post (u "d4") 1 0%nat (date_body date_col (u "2026-02-20"))
    RemoteError 2%nat.
Proof.
  eapply raises_later; [reflexivity | reflexivity |].
  apply raises_now. reflexivity.
Defined.

Lemma query_exception_drops_rows_witness :
  query_by_date flaky_post 2 (u "d4") "날짜" (u "2026-02-20") 0%nat =
    (Raised RemoteError, 2%nat) /\
  parse_db4 flaky_post 2 (u "d4") (u "2026-02-20") 0%nat =
    (Raised RemoteError, 2%nat) /\
  parse_db2 flaky_post 2 (u "d4") (u "2026-02-20") 0%nat =
    (Raised RemoteError, 2%nat).
Proof.
  destruct (query_exception_drops_rows nat flaky_post (u "d4") (u "2026-02-20")
              1%nat 2%nat 0%nat 2%nat RemoteError (Nat.lt_succ_diag_r 1))
    as (Hq & H14 & H2).
  split; [apply Hq, flaky_post_raises|].
  split; [apply H14, flaky_post_raises | apply H2, flaky_post_raises].
Defined.

(** X13.  When table discovery raises, with the configuration set, main
    writes the static sample data for all four tables and still looks up
    the indices, starting from the state the failed call left. *)
Theorem discovery_failure_gives_sample
  (St : Type)
  (n_get : St -> pystr -> option pystr -> result children_page * St)
  (n_post : St -> pystr -> query_body -> result query_page * St)
  (yahoo : St -> pystr -> result chart_meta * St)
  (fuel : nat) (e : env) (st s : St) (x : exn) :
  nonempty (NOTION_TOKEN e) = true -> nonempty (NOTION_PAGE_ID e) = true ->
  get_child_dbs n_get fuel (NOTION_PAGE_ID e) st = (Raised x, s) ->
  fetch_notion n_get n_post fuel e st = (Raised x, s) /\
  main n_get n_post yahoo fuel e st = fallback_run yahoo e s.
Proof.
  intros Ht Hp Hd.
  assert (Hf : fetch_notion n_get n_post fuel e st = (Raised x, s)).
  { unfold fetch_notion, bind. rewrite Hd. reflexivity. }
  split; [exact Hf|].
  exact (main_on_raise n_get n_post yahoo fuel e st s x Ht Hp Hf).
Qed.

Lemma discovery_failure_gives_sample_witness :
  fetch_notion failing_get failing_post 1 env_fixture tt = (Raised RemoteError, tt) /\
  main failing_get failing_post failing_yahoo 1 env_fixture tt =
    fallback_run failing_yahoo env_fixture tt.
Proof.
  apply (discovery_failure_gives_sample unit failing_get failing_post
           failing_yahoo 1%nat env_fixture tt tt RemoteError);
    reflexivity.
Defined.

(** ** Configuration *)

Lemma remove_char_all (c : char) (s : pystr) :
  Forall (fun x => x = c) s -> remove_char c s = [].
Proof.
  induction 1 as [|x r Hx Hr IH]; simpl; [reflexivity|].
  subst x. rewrite N.eqb_refl. exact IH.
Qed.

(** X14.  When the token is empty, or the page id is empty once its
    hyphens are removed, main does not touch the document store: for
    any iteration bound it writes the static sample data and the
    indices looked up from the initial state.  A page id made of hyphens
    only counts as empty. *)
Theorem missing_config_gives_sample :
  (forall (St : Type)
          (n_get : St -> pystr -> option pystr -> result children_page * St)
          (n_post : St -> pystr -> query_body -> result query_page * St)
          (yahoo : St -> pystr -> result chart_meta * St)
          (fuel : nat) (e : env) (st : St),
     NOTION_TOKEN e = [] \/ NOTION_PAGE_ID e = [] ->
     main n_get n_post yahoo fuel e st = fallback_run yahoo e st) /\
  (forall e : env,
     Forall (fun c => c = MINUS) (env_NOTION_PAGE_ID e) -> NOTION_PAGE_ID e = []).
Proof.
  split.
  - intros St n_get n_post yahoo fuel e st H. unfold main, fallback_run.
    assert (Hc : (nonempty (NOTION_TOKEN e) && nonempty (NOTION_PAGE_ID e))%bool = false).
    { destruct H as [-> | ->]; [reflexivity | apply andb_false_r]. }
    rewrite Hc. destruct (fetch_indices yahoo st). reflexivity.
  - intros e H. unfold NOTION_PAGE_ID. apply remove_char_all. exact H.
Qed.

Lemma missing_config_gives_sample_witness :
  main endless_get endless_post quoting_yahoo 0 env_hyphens 0%nat =
    fallback_run quoting_yahoo env_hyphens 0%nat.
Proof.
  destruct missing_config_gives_sample as (Hmain & Hid).
  apply Hmain. right. apply Hid. repeat constructor.
Defined.

(** ** The market feed *)

Lemma fetch_yahoo_of_reply {St : Type}
  (yahoo : St -> pystr -> result chart_meta * St)
  (reply : pystr -> result chart_meta) (next : St -> St) :
  (forall st sym, yahoo st sym = (reply sym, next st)) ->
  forall sym dec st,
    fetch_yahoo yahoo sym dec st = (quote_for (reply sym) dec, next st).
Proof.
  intros H sym dec st. unfold fetch_yahoo, quote_for. rewrite H.
  destruct (reply sym) as [meta|x]; [|reflexivity].
  destruct (quote_of_meta meta dec); reflexivity.
Qed.

(** X15.  fetch_indices returns the eight index keys in their fixed
    order whatever the feed answers, and when the feed's answer depends
    on the symbol only, the quote under a key is made from the answer
    for that key's symbol alone: a lookup that fails puts the fall-back
    quote under its own key and leaves the other seven as they are. *)
Theorem indices_depend_on_own_symbol
  (St : Type) (yahoo : St -> pystr -> result chart_meta * St)
  (reply : pystr -> result chart_meta) (next : St -> St) :
  (forall st sym, yahoo st sym = (reply sym, next st)) ->
  forall st : St,
    fetch_indices yahoo st =
    (map (fun t => (fst (fst t), JDict (quote_for (reply (snd (fst t))) (snd t))))
         TARGETS,
     Nat.iter 8 next st).
Proof.
  intros H st. unfold fetch_indices, TARGETS. cbn [fetch_indices_loop].
  rewrite !(fetch_yahoo_of_reply yahoo reply next H). reflexivity.
Qed.

Lemma indices_depend_on_own_symbol_witness :
  fetch_indices kospi_yahoo 0%nat =
  (map (fun t => (fst (fst t), JDict (quote_for (kospi_only (snd (fst t))) (snd t))))
       TARGETS,
   8%nat).
Proof.
  apply (indices_depend_on_own_symbol nat kospi_yahoo kospi_only S).
  intros st sym. reflexivity.
Defined.

Lemma sub_self_zero (n : pynum) :
  num_finite n = true ->
  exists c, py_sub n n = Ok c /\ num_truthy c = false /\ py_ge0 c = true /\
            (forall d, py_round c d = Ok c) /\
            (num_truthy n = true ->
             exists q, py_truediv c n = Ok (PFloat (S754_zero q))).
Proof.
  destruct n as [z|f]; simpl num_finite.
  - intros _. exists (PInt 0%Z). simpl py_sub. rewrite Z.sub_diag.
    repeat split. intros Hz. simpl in Hz. apply negb_true_iff in Hz.
    apply Z.eqb_neq in Hz. exists (z <? 0)%Z.
    unfold py_truediv. destruct z; [congruence | reflexivity | reflexivity].
  - destruct f as [s|s| |s m e]; try discriminate; intros _.
    + exists (PFloat (S754_zero false)). repeat split.
      * simpl. destruct s; reflexivity.
      * intros H. discriminate H.
    + exists (PFloat (S754_zero false)). repeat split.
      * simpl. rewrite Z.sub_diag. reflexivity.
      * intros _. exists (xorb false s). reflexivity.
Qed.

Lemma zero_times_hundred (q : bool) :
  py_mul (PFloat (S754_zero q)) (PInt 100) = Ok (PFloat (S754_zero (xorb q false))).
Proof. reflexivity. Qed.

(** X16.  When the feed gives a finite price but no usable previous
    close (both close fields absent, null or zero), fetch_yahoo takes
    the price itself as previous close: the quote has a zero change, a
    zero percentage and pos true. *)
Theorem missing_previous_close_zero_change
  (meta : chart_meta) (dec : nat) (price rprice : pynum) :
  regularMarketPrice meta = JsonNum price ->
  num_finite price = true ->
  truthy (meta_get (chartPreviousClose meta)) = false ->
  truthy (meta_get (previousClose meta)) = false ->
  py_round price dec = Ok rprice ->
  prev_close meta = Some price /\
  exists change pct,
    quote_of_meta meta dec =
      Ok [("price", JNum rprice); ("change", JNum change);
          ("pct", JNum pct); ("pos", JBool true)] /\
    num_truthy change = false /\ num_truthy pct = false.
Proof.
  intros Hprice Hfin Hc1 Hc2 Hround.
  assert (Hprev : prev_close meta = Some price).
  { unfold prev_close, py_or. rewrite Hc1, Hc2, Hprice. reflexivity. }
  split; [exact Hprev|].
  destruct (sub_self_zero price Hfin) as (c & Hsub & Hc0 & Hpos & Hrc & Hdiv).
  unfold quote_of_meta. rewrite Hprev, Hprice. cbn [meta_get_default need_num rbind truthy].
  rewrite Hsub. cbn [rbind]. rewrite Hpos.
  destruct (num_truthy price) eqn:Et.
  - destruct (Hdiv eq_refl) as (q & ->). cbn [rbind].
    rewrite zero_times_hundred. cbn [rbind].
    rewrite Hround, (Hrc dec). cbn [rbind py_round round_float].
    eexists _, _. split; [reflexivity|]. split; [exact Hc0 | reflexivity].
  - rewrite Hround, (Hrc dec). cbn [rbind py_round].
    eexists _, _. split; [reflexivity|]. split; [exact Hc0 | reflexivity].
Qed.

Lemma missing_previous_close_zero_change_witness :
  prev_close meta_no_close = Some (PFloat f100) /\
  exists change pct,
    quote_of_meta meta_no_close 2 =
      Ok [("price", JNum (PFloat f100)); ("change", JNum change);
          ("pct", JNum pct); ("pos", JBool true)] /\
    num_truthy change = false /\ num_truthy pct = false.
Proof.
  apply (missing_previous_close_zero_change meta_no_close 2%nat
           (PFloat f100) (PFloat f100));
    reflexivity.
Defined.

(** ** The document written *)

(** X17.  Whatever the document store and the feed answer, the document
    main writes carries the two clock strings of the run under
    updated_at and updated_kst: no result of a normaliser and no sample
    datum overwrites them. *)
Theorem timestamps_are_kept
  (St : Type)
  (n_get : St -> pystr -> option pystr -> result children_page * St)
  (n_post : St -> pystr -> query_body -> result query_page * St)
  (yahoo : St -> pystr -> result chart_meta * St)
  (fuel : nat) (e : env) (st st' : St) (doc : dict) :
  main n_get n_post yahoo fuel e st = (Done doc, st') ->
  dict_get "updated_at" doc = Some (JStr (now_utc_iso e)) /\
  dict_get "updated_kst" doc = Some (JStr (now_kst e)).
Proof.
  unfold main.
  destruct (nonempty (NOTION_TOKEN e) && nonempty (NOTION_PAGE_ID e))%bool.
  - destruct (fetch_notion n_get n_post fuel e st) as [[r|y|] s] eqn:E.
    + destruct (fetch_indices yahoo s) as [idx s2]. intros [= <- _].
      apply fetch_notion_explicit in E.
      destruct E as (sm & m & a & b & n & rc & -> & _). split; reflexivity.
    + destruct (fetch_indices yahoo s) as [idx s2]. intros [= <- _].
      split; reflexivity.
    + discriminate.
  - destruct (fetch_indices yahoo st) as [idx s2]. intros [= <- _].
    split; reflexivity.
Qed.

Lemma timestamps_are_kept_witness :
  dict_get "updated_at" fixture_document = Some (JStr (now_utc_iso env_fixture)) /\
  dict_get "updated_kst" fixture_document = Some (JStr (now_kst env_fixture)).
Proof.
  apply (timestamps_are_kept nat (tables_get 4) (tables_post []) quoting_yahoo
           1%nat env_fixture 0%nat 13%nat fixture_document).
  vm_compute. reflexivity.
Defined.

(** ** Binding tables to normalisers *)

Lemma nth_db_id_firstn (k i : nat) (dbs : list db) :
  (i < k)%nat -> nth_db_id dbs i = nth i (map db_id (firstn k dbs)) [].
Proof.
  unfold nth_db_id. revert k i.
  induction dbs as [|d r IH]; intros k i Hik.
  - rewrite firstn_nil. destruct i; reflexivity.
  - destruct k; [lia|]. destruct i; simpl; [reflexivity|].
    apply IH. lia.
Qed.

Lemma leb_length_firstn (k n : nat) (dbs : list db) :
  (k <= n)%nat ->
  (k <=? List.length dbs)%nat =
  (k <=? List.length (map db_id (firstn n dbs)))%nat.
Proof.
  intros Hk. rewrite length_map, length_firstn.
  destruct (Nat.leb_spec k (List.length dbs));
    destruct (Nat.leb_spec k (Nat.min n (List.length dbs))); try reflexivity; lia.
Qed.

(** X19.  fetch_notion binds the tables to its normalisers by position:
    its result depends on the ids of the first four tables discovered
    only, in their order; the titles of the tables and any table after
    the fourth play no part. *)
Theorem tables_bound_by_position
  (St : Type)
  (n_get n_get' : St -> pystr -> option pystr -> result children_page * St)
  (n_post : St -> pystr -> query_body -> result query_page * St)
  (fuel : nat) (e : env) (st s1 : St) (dbs dbs' : list db) :
  get_child_dbs n_get fuel (NOTION_PAGE_ID e) st = (Done dbs, s1) ->
  get_child_dbs n_get' fuel (NOTION_PAGE_ID e) st = (Done dbs', s1) ->
  map db_id (firstn 4 dbs) = map db_id (firstn 4 dbs') ->
  fetch_notion n_get n_post fuel e st = fetch_notion n_get' n_post fuel e st.
Proof.
  intros Hd Hd' Hids.
  assert (HL : forall k, (k <= 4)%nat ->
             (k <=? List.length dbs)%nat = (k <=? List.length dbs')%nat).
  { intros k Hk. rewrite (leb_length_firstn k 4 dbs Hk),
      (leb_length_firstn k 4 dbs' Hk), Hids. reflexivity. }
  assert (HN : forall i, (i < 4)%nat -> nth_db_id dbs i = nth_db_id dbs' i).
  { intros i Hi. rewrite (nth_db_id_firstn 4 i dbs Hi),
      (nth_db_id_firstn 4 i dbs' Hi), Hids. reflexivity. }
  unfold fetch_notion, bind. rewrite Hd, Hd'.
  rewrite (HL 1%nat), (HL 2%nat), (HL 3%nat), (HL 4%nat) by lia.
  rewrite (HN 0%nat), (HN 1%nat), (HN 2%nat), (HN 3%nat) by lia.
  reflexivity.
Qed.

Lemma tables_bound_by_position_witness :
  fetch_notion (tables_get 4) (tables_post []) 1 env_fixture 0%nat =
  fetch_notion retitled_get (tables_post []) 1 env_fixture 0%nat.
Proof.
  refine (tables_bound_by_position nat (tables_get 4) retitled_get
            (tables_post []) 1%nat env_fixture 0%nat 1%nat _ _ _ _ _).
  - vm_compute. reflexivity.
  - vm_compute. reflexivity.
  - vm_compute. reflexivity.
Defined.
